(** * Data sourcing for the Lyft bike-share systems

    A shallow embedding of the two [data_sourcing] modules
    ([batch_systems] and [hourly_systems]) and of the directory
    bootstrap in [src/setup/paths.py], followed by the properties of
    the acquisition and local-cache layer.

    Python values are modelled as follows: [int] is [Z], [str] and
    [bytes] are [string], a [dict] literal is a [gmap], a
    [pathlib.Path] is the list of its components, exceptions are the
    constructors of [exn], and every method that touches the disk, the
    network or the logger is a computation in the monad [M] over the
    state [world]. *)

From stdpp Require Import gmap strings list fin_maps pretty.
From Stdlib Require Import ZArith Lia Ascii String Sorted.

Open Scope Z_scope.

(** ** Python strings and numbers *)

(** [str(n)] for an [int]. *)
Definition str (n : Z) : string := pretty n.

(** [f"{n:02d}"]: sign-aware zero padding to a minimum width of two. *)
Definition format_02d (n : Z) : string :=
  if (0 <=? n) && (n <? 10) then "0" +:+ str n else str n.

(** [s[:-4]]. *)
Definition drop_last4 (s : string) : string :=
  substring 0 (String.length s - 4)%nat s.

Definition lower_ascii (c : ascii) : ascii :=
  let n := nat_of_ascii c in
  if ((65 <=? n) && (n <=? 90))%nat then ascii_of_nat (n + 32) else c.

(** [s.lower()] on ASCII text. *)
Fixpoint lower (s : string) : string :=
  match s with
  | EmptyString => EmptyString
  | String c s' => String (lower_ascii c) (lower s')
  end.

Definition upper_ascii (c : ascii) : ascii :=
  let n := nat_of_ascii c in
  if ((97 <=? n) && (n <=? 122))%nat then ascii_of_nat (n - 32) else c.

Definition is_cased (c : ascii) : bool :=
  let n := nat_of_ascii c in
  (((65 <=? n) && (n <=? 90)) || ((97 <=? n) && (n <=? 122)))%nat.

(** [s.title()] on ASCII text: a letter that follows a letter is
    lowered, any other letter is raised. *)
Fixpoint title_from (after_letter : bool) (s : string) : string :=
  match s with
  | EmptyString => EmptyString
  | String c s' =>
      String (if after_letter then lower_ascii c else upper_ascii c)
             (title_from (is_cased c) s')
  end.

Definition title (s : string) : string := title_from false s.

Definition is_slash (c : ascii) : bool := Ascii.eqb c "/".
Definition is_newline (c : ascii) : bool := Ascii.eqb c "010".

(** The longest prefix of [s] whose characters all fail [stop]. *)
Fixpoint take_until (stop : ascii -> bool) (s : string) : string :=
  match s with
  | EmptyString => EmptyString
  | String c s' => if stop c then EmptyString else String c (take_until stop s')
  end.

(** What is left of [s] from its first character satisfying [stop]. *)
Fixpoint drop_until (stop : ascii -> bool) (s : string) : string :=
  match s with
  | EmptyString => EmptyString
  | String c s' => if stop c then s else drop_until stop s'
  end.

(** [s.endswith(suffix)]. *)
Definition endswith (s suffix : string) : bool :=
  String.eqb
    (substring (String.length s - String.length suffix)%nat (String.length suffix) s)
    suffix
  && (String.length suffix <=? String.length s)%nat.

(** [s.startswith(prefix)]. *)
Fixpoint startswith (s prefix : string) {struct prefix} : bool :=
  match prefix, s with
  | EmptyString, _ => true
  | String p prefix', String c s' => Ascii.eqb c p && startswith s' prefix'
  | String _ _, EmptyString => false
  end.

(** ASCII white space: tab, line feed, vertical tab, form feed,
    carriage return, the four separators and the space. *)
Definition is_space (c : ascii) : bool :=
  let n := nat_of_ascii c in
  (((9 <=? n) && (n <=? 13)) || ((28 <=? n) && (n <=? 32)))%nat.

(** [s.lstrip()]. *)
Fixpoint lstrip (s : string) : string :=
  match s with
  | EmptyString => EmptyString
  | String c s' => if is_space c then lstrip s' else s
  end.

(** [c in s] for a character [c]. *)
Definition in_string (c : ascii) (s : string) : bool :=
  existsb (Ascii.eqb c) (list_ascii_of_string s).

Definition hex_digit (n : nat) : ascii :=
  if (n <? 10)%nat then ascii_of_nat (48 + n) else ascii_of_nat (87 + n).

(** One character of [repr(s)], between the quotes [quote]. *)
Definition repr_char (quote c : ascii) : string :=
  let n := nat_of_ascii c in
  if Ascii.eqb c quote || Ascii.eqb c "092" then String "092" (String c "")
  else if Ascii.eqb c "009" then "\t"
  else if Ascii.eqb c "010" then "\n"
  else if Ascii.eqb c "013" then "\r"
  else if ((n <? 32) || (126 <? n))%nat
  then String "092" (String "x" (String (hex_digit (n / 16)) (String (hex_digit (n mod 16)) "")))
  else String c "".

Fixpoint repr_body (quote : ascii) (s : string) : string :=
  match s with
  | EmptyString => EmptyString
  | String c s' => repr_char quote c +:+ repr_body quote s'
  end.

(** [repr(s)] on ASCII text: single quotes, unless the text has a
    single quote and no double quote. *)
Definition repr (s : string) : string :=
  let quote := (if in_string "'" s && negb (in_string "034" s) then "034" else "'")%char in
  String quote (repr_body quote s +:+ String quote "").

(** ** Exceptions, results and the logger *)

Definition Path := list string.

Inductive exn :=
| KeyError (key : string)
| AssertionError (msg : string)
| TypeError
| Exception (msg : string)
| ValueError (msg : string)
| FileNotFoundError (p : Path)
| NotADirectoryError (p : Path)
| IsADirectoryError (p : Path)
| FileExistsError (p : Path)
| BadZipFile
| ParserError
| RequestException (msg : string)
| MissingSchema (url : string)
| InvalidURL (url : string).

Inductive result (A : Type) :=
| Return (a : A)
| Raise (e : exn).
Arguments Return {A} a.
Arguments Raise {A} e.

Inductive level := ERROR | SUCCESS | INFO.

Inductive payload :=
| Msg (s : string)
| Err (e : exn).

(** ** pathlib *)

(** [s.split(sep)] for a one-character separator; [cur] is the piece
    being read. *)
Fixpoint split_by (sep : ascii -> bool) (cur : string) (s : string) : list string :=
  match s with
  | EmptyString => [cur]
  | String c s' =>
      if sep c then cur :: split_by sep "" s'
      else split_by sep (cur +:+ String c "") s'
  end.

Definition split_slash (s : string) : list string := split_by is_slash "" s.

Definition is_part (c : string) : bool :=
  negb (String.eqb c "") && negb (String.eqb c ".").

(** The parts of a path string: empty components and [.] are dropped,
    [..] is kept, as [PurePosixPath] does. *)
Definition parts (s : string) : Path := List.filter is_part (split_slash s).

Definition is_absolute (s : string) : bool :=
  match s with
  | String c _ => is_slash c
  | EmptyString => false
  end.

(** [p / s]: an absolute right operand replaces the left one. All
    paths of the program descend from a resolved (absolute) directory,
    so a [Path] is the component list below the root. *)
Definition joinpath (p : Path) (s : string) : Path :=
  if is_absolute s then parts s else p ++ parts s.

Notation "p // s" := (joinpath p s) (at level 40, left associativity).

(** ** The world: disk, logger and network *)

Inductive node :=
| File (content : string)
| Dir.

Record Response := { status_code : Z; content : string }.

(** A dataframe is the list of its rows. *)
Definition DataFrame := list (list string).

Record world := {
  fs : gmap Path node;
  log : list (level * payload);
  sent : list string   (* the URLs requested so far, oldest first *)
}.

(** What the program finds around it: the working directory that
    [Path("_file_").parent.resolve()] yields, the date [dt.now()]
    reports, the answer of the network to a GET, and the two
    third-party formats, kept opaque. *)
Record env := {
  cwd : Path;
  now_year : Z;
  now_month : Z;
  transport : string -> result Response;
  read_zip : string -> option (list (string * string));
  parse_csv : string -> option DataFrame
}.

Definition M (A : Type) : Type := world -> result A * world.

Definition ret {A} (a : A) : M A := fun w => (Return a, w).

(** Sequencing: an exception ends the computation and keeps the state
    reached so far. *)
Definition bind {A B} (m : M A) (k : A -> M B) : M B := fun w =>
  match m w with
  | (Return a, w') => k a w'
  | (Raise e, w') => (Raise e, w')
  end.

Declare Scope py_scope.
Delimit Scope py_scope with py.
Notation "'let*' x := m 'in' k" := (bind m (fun x => k))
  (at level 10, x name, m at level 100, k at level 200) : py_scope.
Notation "m >> k" := (bind m (fun _ => k))
  (at level 62, right associativity) : py_scope.
Open Scope py_scope.

Definition raise {A} (e : exn) : M A := fun w => (Raise e, w).

(** [try: body / except Exception as error: handler(error)]. Every
    constructor of [exn] is a subclass of [Exception]. *)
Definition try_except {A} (body : M A) (handler : exn -> M A) : M A := fun w =>
  match body w with
  | (Return a, w') => (Return a, w')
  | (Raise e, w') => handler e w'
  end.

Definition get_fs : M (gmap Path node) := fun w => (Return (fs w), w).

Definition put_fs (f : gmap Path node) : M unit := fun w =>
  (Return tt, {| fs := f; log := log w; sent := sent w |}).

Definition logger (l : level) (p : payload) : M unit := fun w =>
  (Return tt, {| fs := fs w; log := log w ++ [(l, p)]; sent := sent w |}).

(** [for x in xs: body(x)]. *)
Fixpoint for_each {A} (xs : list A) (body : A -> M unit) : M unit :=
  match xs with
  | [] => ret tt
  | x :: xs' => body x >> for_each xs' body
  end.

(** *** Path resolution *)

Definition node_at (f : gmap Path node) (p : Path) : option node :=
  match p with
  | [] => Some Dir
  | _ => f !! p
  end.

Inductive stat_result :=
| Found (n : node)
| Missing
| NotDir.

(** Resolving [seen ++ rest] component by component: every ancestor
    has to be a directory. *)
Fixpoint walk (f : gmap Path node) (seen rest : Path) : stat_result :=
  match rest with
  | [] => match node_at f seen with Some n => Found n | None => Missing end
  | c :: rest' =>
      match node_at f seen with
      | Some Dir => walk f (seen ++ [c]) rest'
      | Some (File _) => NotDir
      | None => Missing
      end
  end.

Definition stat (f : gmap Path node) (p : Path) : stat_result := walk f [] p.

(** [Path.exists()]. *)
Definition path_exists (p : Path) : M bool :=
  let* f := get_fs in
  ret (match stat f p with Found _ => true | _ => false end).

(** [os.mkdir(p)]. *)
Definition os_mkdir (p : Path) : M unit :=
  let* f := get_fs in
  match stat f p with
  | Found _ => raise (FileExistsError p)
  | NotDir => raise (NotADirectoryError p)
  | Missing =>
      match stat f (removelast p) with
      | Found Dir => put_fs (<[p := Dir]> f)
      | Found (File _) | NotDir => raise (NotADirectoryError p)
      | Missing => raise (FileNotFoundError p)
      end
  end.

(** The non-empty prefixes of a path, shortest first. *)
Fixpoint prefixes (seen rest : Path) : list Path :=
  match rest with
  | [] => []
  | c :: rest' => (seen ++ [c]) :: prefixes (seen ++ [c]) rest'
  end.

(** [os.makedirs(p)] as [ZipFile.extract] uses it: called only when
    [p] does not exist, it creates the missing ancestors and [p]. *)
Definition os_makedirs (p : Path) : M unit :=
  for_each (prefixes [] p) (fun q =>
    let* b := path_exists q in
    if b then ret tt else os_mkdir q).

(** [with open(p, "wb") as f: f.write(data)]. *)
Definition write_bytes (p : Path) (data : string) : M unit :=
  let* f := get_fs in
  match stat f p with
  | Found Dir => raise (IsADirectoryError p)
  | Found (File _) => put_fs (<[p := File data]> f)
  | NotDir => raise (NotADirectoryError p)
  | Missing =>
      match stat f (removelast p) with
      | Found Dir => put_fs (<[p := File data]> f)
      | Found (File _) | NotDir => raise (NotADirectoryError p)
      | Missing => raise (FileNotFoundError p)
      end
  end.

(** Opening [p] for reading and taking its bytes. *)
Definition read_bytes (p : Path) : M string :=
  let* f := get_fs in
  match stat f p with
  | Found (File data) => ret data
  | Found Dir => raise (IsADirectoryError p)
  | NotDir => raise (NotADirectoryError p)
  | Missing => raise (FileNotFoundError p)
  end.

(** [os.remove(p)]. *)
Definition os_remove (p : Path) : M unit :=
  let* f := get_fs in
  match stat f p with
  | Found (File _) => put_fs (delete p f)
  | Found Dir => raise (IsADirectoryError p)
  | NotDir => raise (NotADirectoryError p)
  | Missing => raise (FileNotFoundError p)
  end.

(** *** Libraries: requests, zipfile, pandas *)

(** What requests makes of a URL before it opens a connection. The
    URL is stripped of leading white space. Only a URL that then
    starts with [http://] or [https://], in any case, finds a
    connection adapter. *)
Definition is_http_url (url : string) : bool :=
  let u := lower (lstrip url) in
  startswith u "http://" || startswith u "https://".

(** The characters of a URL that decide nothing in the parser of the
    library: ASCII other than the colon, the percent sign and the
    square brackets. *)
Definition is_plain_url_char (c : ascii) : bool :=
  (nat_of_ascii c <? 128)%nat
  && negb (Ascii.eqb c ":" || Ascii.eqb c "%" || Ascii.eqb c "[" || Ascii.eqb c "]").

(** [requests.get(url)]. For an HTTP URL the request goes to the
    transport, which answers with a response of any status or raises.
    Any other URL is refused while the request is prepared, before
    anything is sent: a URL of plain characters has no scheme and
    raises [MissingSchema]; for the remaining URLs the library raises
    [InvalidSchema], [InvalidURL] or [MissingSchema] as its parser
    decides, which [InvalidURL] stands for here. *)
Definition requests_get (E : env) (url : string) : M Response := fun w =>
  if is_http_url url then
    (transport E url, {| fs := fs w; log := log w; sent := sent w ++ [url] |})
  else if forallb is_plain_url_char (list_ascii_of_string (lstrip url)) then
    (Raise (MissingSchema (lstrip url)), w)
  else
    (Raise (InvalidURL (lstrip url)), w).

(** [ZipFile(file=p, mode="r")]: the members of the archive at [p]. *)
Definition ZipFile (E : env) (p : Path) : M (list (string * string)) :=
  let* data := read_bytes p in
  match read_zip E data with
  | Some members => ret members
  | None => raise BadZipFile
  end.

Fixpoint getinfo (members : list (string * string)) (name : string) : option string :=
  match members with
  | [] => None
  | (n, data) :: rest => if String.eqb n name then Some data else getinfo rest name
  end.

Definition is_arc_part (c : string) : bool :=
  negb (String.eqb c "") && negb (String.eqb c ".") && negb (String.eqb c "..").

(** [zipfile.extract(member, folder)]: the member is looked up by its
    exact name ([getinfo] raises [KeyError] with a sentence that
    quotes the name), its name is cleaned of empty, [.] and [..] components,
    the directories above the target are created and the data
    written. *)
Definition extract (members : list (string * string)) (member : string)
    (folder : Path) : M unit :=
  match getinfo members member with
  | None => raise (KeyError ("There is no item named " +:+ repr member +:+ " in the archive"))
  | Some data =>
      let arcname := List.filter is_arc_part (split_slash member) in
      match arcname with
      | [] => raise (ValueError "Empty filename.")
      | _ =>
          let target := (folder ++ arcname)%list in
          let upperdirs := removelast target in
          let* b := path_exists upperdirs in
          (if b then ret tt else os_makedirs upperdirs) >>
          write_bytes target data
      end
  end.

(** [pd.read_csv(p)]. *)
Definition read_csv (E : env) (p : Path) : M DataFrame :=
  let* data := read_bytes p in
  match parse_csv E data with
  | Some df => ret df
  | None => raise ParserError
  end.

(** [pd.concat([a, b], axis=0)] stacks the rows; [pd.DataFrame()] has none. *)
Definition pd_concat (a b : DataFrame) : DataFrame := (a ++ b)%list.

(** Group 1 of [re.search(pattern, url)], where the pattern is: one or
    more characters other than a slash, then a group of any number of
    characters other than a newline. The search tries the start
    positions from the left: a start on a slash cannot begin the
    character class; at the first other character the class takes the
    whole run of non-slash characters (it is greedy, and the group
    never makes it give characters back since the group matches the
    empty string too); the group then takes every character up to the
    end of the line. *)
Fixpoint re_search_group1 (url : string) : option string :=
  match url with
  | EmptyString => None
  | String c url' =>
      if is_slash c then re_search_group1 url'
      else Some (take_until is_newline (drop_until is_slash url))
  end.

(** [get_zipfile_name], the same static method in both modules. A
    [url] that is [None] makes [re.search] raise [TypeError]. *)
Definition get_zipfile_name (url : option string) : M string :=
  match url with
  | None => raise TypeError
  | Some u =>
      match re_search_group1 u with
      | Some name => ret name
      | None => raise (Exception "Invalid URL")
      end
  end.

(** [d[key]] on a dictionary with string keys. *)
Definition getitem (d : gmap string string) (key : string) : result string :=
  match d !! key with
  | Some v => Return v
  | None => Raise (KeyError key)
  end.

(** A computation that only returns or raises. *)
Definition lift {A} (r : result A) : M A := fun w => (r, w).

(** [range(lo, hi)]. *)
Definition range (lo hi : Z) : list Z :=
  map (fun i => lo + Z.of_nat i) (seq 0 (Z.to_nat (hi - lo))).

(** The months a call of [load_raw_data] goes through; the three
    lines that compute them are the same in both modules. *)
Definition months_to_query_for (E : env) (year : Z) (months : option (list Z)) : list Z :=
  let is_current_year := year =? now_year E in
  let end_month := if is_current_year then now_month E else 12 in
  match months with
  | None => range 1 (end_month + 1)
  | Some ms => ms
  end.

(** ** src/setup: config.py and paths.py *)

Module Setup.

Definition cities : list string :=
  ["bay_area"; "chicago"; "washington_dc"; "new_york"; "portland"; "columbus"].

Section Paths.
Variable E : env.

Definition PARENT_DIR : Path := cwd E.
Definition IMAGES_DIR : Path := PARENT_DIR // "images".
Definition DATA_DIR : Path := PARENT_DIR // "data".
Definition RAW_DATA_DIR : Path := DATA_DIR // "raw".
Definition MODELS_DIR : Path := PARENT_DIR // "models".
Definition LOCAL_SAVE_DIR : Path := MODELS_DIR // "locally_created".
Definition COMET_SAVE_DIR : Path := MODELS_DIR // "comet_downloads".
Definition CLEANED_DATA : Path := DATA_DIR // "cleaned".
Definition TRANSFORMED_DATA : Path := DATA_DIR // "transformed".
Definition GEOGRAPHICAL_DATA : Path := DATA_DIR // "geographical".
Definition TIME_SERIES_DATA : Path := TRANSFORMED_DATA // "time_series".
Definition TRAINING_DATA : Path := TRANSFORMED_DATA // "training_data".
Definition INFERENCE_DATA : Path := TRANSFORMED_DATA // "inference".

Definition major_paths : list Path :=
  [DATA_DIR; CLEANED_DATA; RAW_DATA_DIR; GEOGRAPHICAL_DATA; TRANSFORMED_DATA;
   TIME_SERIES_DATA; IMAGES_DIR; TRAINING_DATA; INFERENCE_DATA; MODELS_DIR;
   LOCAL_SAVE_DIR; COMET_SAVE_DIR].

Definition mkdir_if_missing (p : Path) : M unit :=
  let* b := path_exists p in
  if b then ret tt else os_mkdir p.

Definition make_needed_directories : M unit :=
  for_each major_paths (fun path =>
    mkdir_if_missing path >>
    for_each cities (fun city =>
      if bool_decide (path ∈ [PARENT_DIR; DATA_DIR; TRANSFORMED_DATA; MODELS_DIR])
      then ret tt
      else mkdir_if_missing (path // city)) >>
    if bool_decide (path = GEOGRAPHICAL_DATA) then
      for_each cities (fun city =>
        for_each ["mixed_indexer"; "rounding_indexer"] (fun indexer_name =>
          mkdir_if_missing (path // city // indexer_name)))
    else ret tt).

End Paths.
End Setup.

(** ** batch_systems/src/feature_pipeline/data_sourcing.py *)

Module Batch.

Record DataDownloader := { city_name : string; year : Z }.

Definition service_names : gmap string string :=
  list_to_map
    [("bay_area", "bay-wheels"); ("chicago", "divvybikes");
     ("new_york", "citibikenyc"); ("columbus", "cogobikeshare");
     ("washington_dc", "capitalbikeshare"); ("portland", "biketownpdx")].

(** [DataDownloader(city_name, year)]. *)
Definition init (city : string) (year : Z) : result DataDownloader :=
  let self := {| city_name := lower city; year := year |} in
  match service_names !! city_name self with
  | Some _ => Return self
  | None => Raise (AssertionError "The named city is not part of Lyft's system")
  end.

Definition get_data_file_name (self : DataDownloader) (month : Z) : result string :=
  let year_and_month := str (year self) +:+ format_02d month in
  let city_name_and_url : gmap string string :=
    list_to_map
      [("chicago", year_and_month +:+ "-divvy-tripdata");
       ("new_york", year_and_month +:+ "-citibike-tripdata");
       ("columbus", year_and_month +:+ "-cogo-tripdata");
       ("washington_dc", year_and_month +:+ "-capitalbikeshare-tripdata");
       ("portland", year_and_month +:+ ".csv")] in
  getitem city_name_and_url (city_name self).

Definition city_name_and_url_head : gmap string string :=
  list_to_map
    [("chicago", "divvy-tripdata.s3.amazonaws.com/");
     ("new_york", "s3.amazonaws.com/tripdata/");
     ("columbus", "cogo-sys-data.s3.amazonaws.com/");
     ("washington_dc", "s3.amazonaws.com/capitalbikeshare-data/");
     ("portland", "s3.amazonaws.com/biketown-tripdata-public/")].

(** The function ends without a [return] on the Portland branch, so
    it gives [None] there. *)
Definition get_url_for_city_data (self : DataDownloader) (month : Z) : M (option string) :=
  if String.eqb (city_name self) "portland" && (year self >? 2020) then
    logger ERROR (Msg "Lyft doesn't provide data on Portland after 2020.") >>
    ret None
  else
    let* file_name := lift (get_data_file_name self month) in
    let* head := lift (getitem city_name_and_url_head (city_name self)) in
    ret (Some ("https://" +:+ head +:+ file_name)).

Section WithEnv.
Variable E : env.

Definition RAW_DATA_DIR : Path := Setup.RAW_DATA_DIR E.

Definition data_file_exists (self : DataDownloader) (file_name : string) : M bool :=
  let file_path := RAW_DATA_DIR // city_name self // file_name in
  path_exists file_path.

Definition city_has_data (self : DataDownloader) : M bool :=
  match service_names !! city_name self with
  | Some service_name =>
      let system_data_url :=
        if String.eqb (city_name self) "bay_area"
        then "https://lyft.com/bikes/" +:+ service_name
        else "https://" +:+ service_name +:+ ".com/system-data" in
      logger INFO (Msg ("Checking whether Lyft has published any data for " +:+ city_name self)) >>
      let* response := requests_get E system_data_url in
      ret (status_code response =? 200)
  | None =>
      raise (Exception ("Lyft has not published any data for " +:+ title (city_name self)))
  end.

Definition download_one_file_of_raw_data (self : DataDownloader) (month : Z)
    (keep_zipfile : bool) : M DataFrame :=
  let* url := get_url_for_city_data self month in
  let* zipfile_name := get_zipfile_name url in
  (* [url] is a string here: [None] has raised above *)
  let* response := requests_get E (default "" url) in
  let file_name := drop_last4 zipfile_name in
  let folder_path := RAW_DATA_DIR // file_name in
  let zipfile_path := RAW_DATA_DIR // zipfile_name in
  write_bytes zipfile_path (content response) >>
  let* zipfile := ZipFile E zipfile_path in
  extract zipfile (file_name +:+ ".csv") folder_path >>
  (if keep_zipfile then ret tt else os_remove zipfile_path) >>
  read_csv E (RAW_DATA_DIR // (file_name +:+ "/" +:+ file_name +:+ ".csv")).

(** The loop of [load_raw_data]. With [just_download] the loop runs
    to its end and the method returns [None]; otherwise the [return]
    in the loop body ends the call at the first month. *)
Fixpoint load_loop (self : DataDownloader) (just_download : bool)
    (data : DataFrame) (months : list Z) : M (option DataFrame) :=
  match months with
  | [] => ret None
  | month :: rest =>
      let* file_name := lift (get_data_file_name self month) in
      let* cached := data_file_exists self file_name in
      if just_download then
        (if cached then
           logger SUCCESS (Msg (file_name +:+ " is already saved to disk"))
         else
           download_one_file_of_raw_data self month false >> ret tt) >>
        load_loop self just_download data rest
      else
        let* data_for_the_month :=
          (if cached then
             logger SUCCESS (Msg (file_name +:+ " is already saved to disk")) >>
             read_csv E (RAW_DATA_DIR // (file_name +:+ "/" +:+ file_name +:+ ".csv"))
           else
             download_one_file_of_raw_data self month false) in
        ret (Some (pd_concat data data_for_the_month))
  end.

Definition load_raw_data (self : DataDownloader) (just_download : bool)
    (months : option (list Z)) : M (option DataFrame) :=
  Setup.make_needed_directories E >>
  load_loop self just_download [] (months_to_query_for E (year self) months).

(** The script at the end of the module: a download-only run for each
    city of the command line, for the year of the command line. *)
Definition main (cities : list string) (year : Z) : M unit :=
  for_each cities (fun city =>
    let* processor := lift (init city year) in
    load_raw_data processor true None >> ret tt).

End WithEnv.
End Batch.

(** ** hourly_systems/src/feature_pipeline/data_sourcing.py *)

Module Hourly.

Record DataDownloader := { city_name : string; year : Z }.

(** [DataDownloader(city_name, year)]: this constructor checks nothing. *)
Definition init (city : string) (year : Z) : DataDownloader :=
  {| city_name := lower city; year := year |}.

Definition service_names : gmap string string :=
  list_to_map
    [("bay area", "bay-wheels"); ("chicago", "divvybikes");
     ("new york", "citibikenyc"); ("columbus", "cogobikeshare");
     ("washington dc", "capitalbikeshare"); ("portland", "biketownpdx")].

Definition get_data_file_name (self : DataDownloader) (month : Z) : result string :=
  let year_and_month := str (year self) +:+ format_02d month in
  let city_name_and_url : gmap string string :=
    list_to_map
      [("chicago", year_and_month +:+ "-divvy-tripdata");
       ("new york", year_and_month +:+ "-citibike-tripdata");
       ("columbus", year_and_month +:+ "-cogo-tripdata");
       ("washington dc", year_and_month +:+ "-capitalbikeshare-tripdata");
       ("portland", year_and_month +:+ ".csv")] in
  match city_name_and_url !! city_name self with
  | None => Raise (AssertionError "The named city is not part of Lyft's system")
  | Some _ => getitem city_name_and_url (city_name self)
  end.

Definition city_name_and_url_head : gmap string string :=
  list_to_map
    [("chicago", "divvy-tripdata.s3.amazonaws.com/");
     ("new york", "s3.amazonaws.com/tripdata/");
     ("columbus", "cogo-sys-data.s3.amazonaws.com/");
     ("washington dc", "s3.amazonaws.com/capitalbikeshare-data/");
     ("portland", "s3.amazonaws.com/biketown-tripdata-public/")].

Definition get_url_for_city_data (self : DataDownloader) (month : Z) : M (option string) :=
  if String.eqb (city_name self) "portland" && (year self >? 2020) then
    logger ERROR (Msg "Lyft doesn't provide data on Portland after 2020.") >>
    ret None
  else
    let* file_name := lift (get_data_file_name self month) in
    let* head := lift (getitem city_name_and_url_head (city_name self)) in
    ret (Some (head +:+ file_name)).

Section WithEnv.
Variable E : env.

(** [make_fundamental_paths] is imported from [src.setup.paths], which
    does not define it in the sources at hand: it is taken as given. *)
Variable make_fundamental_paths : M unit.

Definition RAW_DATA_DIR : Path := Setup.RAW_DATA_DIR E.

Definition write_and_extract_zipfile (zipfile_name : string) (response : Response)
    (keep_zipfile : bool) : M unit :=
  let file_name := drop_last4 zipfile_name in
  let folder_path := RAW_DATA_DIR // file_name in
  let zipfile_path := RAW_DATA_DIR // zipfile_name in
  write_bytes zipfile_path (content response) >>
  let* zipfile := ZipFile E zipfile_path in
  extract zipfile (file_name +:+ ".csv") folder_path >>
  if keep_zipfile then ret tt else os_remove zipfile_path.

(** The dictionary argument is walked in insertion order: it is the
    list of its items. *)
Definition download_and_extract_zipfile
    (zipfile_names_and_urls : list (string * string)) : M unit :=
  for_each zipfile_names_and_urls (fun '(zipfile_name, url) =>
    let* response := requests_get E url in
    write_and_extract_zipfile zipfile_name response false).

Definition download_one_file_of_raw_data (self : DataDownloader) (month : Z) : M unit :=
  let* url := get_url_for_city_data self month in
  let* zipfile_name := get_zipfile_name url in
  download_and_extract_zipfile [(zipfile_name, default "" url)].

Definition check_for_file_or_download (self : DataDownloader) (file_name : string)
    (month : option Z) : M unit :=
  match month with
  | Some m =>
      let local_file := RAW_DATA_DIR // file_name in
      let* present := path_exists local_file in
      if negb present then
        try_except
          (logger INFO (Msg ("Downloading and extracting " +:+ file_name +:+ ".zip")) >>
           download_one_file_of_raw_data self m)
          (fun error => logger ERROR (Err error))
      else
        logger SUCCESS (Msg (file_name +:+ ".zip is already saved"))
  | None => ret tt
  end.

Definition get_dataframe_from_folder (file_name : string) : M DataFrame :=
  let data : DataFrame := [] in
  let* data_one_month :=
    read_csv E (RAW_DATA_DIR // (file_name +:+ "/" +:+ file_name +:+ ".csv")) in
  ret (pd_concat data data_one_month).

(** The loop of the generator: the value is the list of the frames
    yielded when the generator is run to its end. *)
Fixpoint load_loop (self : DataDownloader) (file_name : string)
    (months : list Z) : M (list DataFrame) :=
  match months with
  | [] => ret []
  | month :: rest =>
      let* yielded :=
        try_except
          (check_for_file_or_download self file_name (Some month) >>
           let* df := get_dataframe_from_folder file_name in
           ret [df])
          (fun error => logger ERROR (Err error) >> ret []) in
      let* later := load_loop self file_name rest in
      ret (yielded ++ later)%list
  end.

Definition load_raw_data (self : DataDownloader) (months : option (list Z))
    (file_name : string) : M (list DataFrame) :=
  make_fundamental_paths >>
  load_loop self file_name (months_to_query_for E (year self) months).

Definition city_has_data (self : DataDownloader) : M bool :=
  match service_names !! city_name self with
  | Some service_name =>
      let system_data_url :=
        if String.eqb (city_name self) "bay area"
        then "lyft.com/bikes/" +:+ service_name
        else service_name +:+ ".com/system-data" in
      let* response := requests_get E system_data_url in
      ret (status_code response =? 200)
  | None =>
      raise (Exception ("Lyft has not published any data for " +:+ title (city_name self)))
  end.

End WithEnv.
End Hourly.

(** ** hourly_systems/src/setup/paths.py *)

Module HourlyPaths.

Section Paths.
Variable E : env.

Definition PARENT_DIR : Path := cwd E.
Definition IMAGES_DIR : Path := PARENT_DIR // "images".
Definition DATA_DIR : Path := PARENT_DIR // "data".
Definition RAW_DATA_DIR : Path := DATA_DIR // "raw".
Definition MODELS_DIR : Path := PARENT_DIR // "models".
Definition LOCAL_SAVE_DIR : Path := MODELS_DIR // "locally_created".
Definition COMET_SAVE_DIR : Path := MODELS_DIR // "comet_downloads".
Definition PARQUETS : Path := RAW_DATA_DIR // "Parquets".
Definition CLEANED_DATA : Path := DATA_DIR // "cleaned".
Definition TRANSFORMED_DATA : Path := DATA_DIR // "transformed".
Definition GEOGRAPHICAL_DATA : Path := DATA_DIR // "geographical".
Definition ROUNDING_INDEXER : Path := GEOGRAPHICAL_DATA // "rounding_indexer".
Definition MIXED_INDEXER : Path := GEOGRAPHICAL_DATA // "mixed_indexer".
Definition TIME_SERIES_DATA : Path := TRANSFORMED_DATA // "time_series".
Definition TRAINING_DATA : Path := TRANSFORMED_DATA // "training_data".
Definition INFERENCE_DATA : Path := TRANSFORMED_DATA // "inference".

Definition all_data_paths : list Path :=
  [DATA_DIR; CLEANED_DATA; RAW_DATA_DIR; PARQUETS; GEOGRAPHICAL_DATA; TRANSFORMED_DATA;
   TIME_SERIES_DATA; IMAGES_DIR; TRAINING_DATA; INFERENCE_DATA; MODELS_DIR;
   LOCAL_SAVE_DIR; COMET_SAVE_DIR; ROUNDING_INDEXER; MIXED_INDEXER].

(** The list [cities] comes from [src.setup.config], as in the other
    [paths.py]. *)
Definition make_needed_directories : M unit :=
  for_each all_data_paths (fun path =>
    Setup.mkdir_if_missing path >>
    for_each Setup.cities (fun city => Setup.mkdir_if_missing (path // city))).

End Paths.
End HourlyPaths.

(** ** src/setup/config.py: proper_city_name *)

Module Config.

(** [c in s] for a one-character string [c]. *)
Fixpoint has_char (c : ascii) (s : string) : bool :=
  match s with
  | EmptyString => false
  | String c' s' => Ascii.eqb c' c || has_char c s'
  end.

(** [s.replace(old, new)] for one-character strings [old] and [new]. *)
Fixpoint replace (old new : ascii) (s : string) : string :=
  match s with
  | EmptyString => EmptyString
  | String c s' => String (if Ascii.eqb c old then new else c) (replace old new s')
  end.

Definition proper_city_name (city_name : string) : result string :=
  if bool_decide (city_name ∈ Setup.cities) then
    if negb (has_char "_" city_name) then Return (title city_name)
    else if String.eqb city_name "bay_area" then Return "the Bay Area"
    else if String.eqb city_name "washington_dc" then Return "Washington DC"
    else Return (title (replace "_" " " city_name))
  else Raise (AssertionError "").

End Config.

(** ** Worlds for the examples *)

Module Scenario.

(** A toy archive format with one member: the text [PK|name|data]. *)
Definition toy_zip (name data : string) : string := "PK|" +:+ name +:+ "|" +:+ data.

Definition is_bar (c : ascii) : bool := Ascii.eqb c "|".

Definition toy_read_zip (bytes : string) : option (list (string * string)) :=
  if String.eqb (substring 0 3 bytes) "PK|" then
    let body := substring 3 (String.length bytes - 3) bytes in
    let name := take_until is_bar body in
    let data := substring (String.length name + 1)
                  (String.length body - String.length name - 1) body in
    Some [(name, data)]
  else None.

Definition is_comma (c : ascii) : bool := Ascii.eqb c ",".

(** Rows on lines, cells between commas; an empty file is refused. *)
Definition toy_parse_csv (bytes : string) : option DataFrame :=
  if String.eqb bytes "" then None
  else Some (map (split_by is_comma "") (split_by is_newline "" bytes)).

Definition home : Path := ["srv"; "bikes"].

(** A disk that holds the working directory and nothing else. *)
Definition bare_disk : gmap Path node :=
  <[ ["srv"; "bikes"] := Dir ]> (<[ ["srv"] := Dir ]> ∅).

Definition start (disk : gmap Path node) : world :=
  {| fs := disk; log := []; sent := [] |}.

(** November 2026, no network. *)
Definition offline : env :=
  {| cwd := home; now_year := 2026; now_month := 11;
     transport := fun _ => Raise (RequestException "no route to host");
     read_zip := toy_read_zip; parse_csv := toy_parse_csv |}.

(** The disk once [make_needed_directories] has run on the bare one. *)
Definition laid_out : gmap Path node :=
  fs (snd (Setup.make_needed_directories offline (start bare_disk))).

Definition raw : Path := Setup.RAW_DATA_DIR offline.

(** Chicago: the data of January and March 2024 are where the batch
    loader looks for them, those of February are not. *)
Definition cached_1_3 : gmap Path node :=
  <[ raw ++ ["chicago"; "202401-divvy-tripdata"] := Dir ]>
    (<[ raw ++ ["chicago"; "202403-divvy-tripdata"] := Dir ]> laid_out).

Definition january_url : string :=
  "https://divvy-tripdata.s3.amazonaws.com/202401-divvy-tripdata".

Definition january_rides : string := "ride_id,rideable_type
A1,classic_bike".

(** A server that publishes the archive of January 2024 the way the
    provider does: one member named after the month. *)
Definition provider : env :=
  {| cwd := home; now_year := 2026; now_month := 11;
     transport := fun url =>
       if String.eqb url january_url
       then Return {| status_code := 200;
                      content := toy_zip "202401-divvy-tripdata.csv" january_rides |}
       else Return {| status_code := 404; content := "NoSuchKey" |};
     read_zip := toy_read_zip; parse_csv := toy_parse_csv |}.

(** The most favourable surroundings for the batch downloader: the
    member of the archive has the name the downloader asks for, and
    the directory it writes the archive to exists. *)
Definition obliging_member : string :=
  "//divvy-tripdata.s3.amazonaws.com/202401-divvy-trip.csv".

Definition obliging : env :=
  {| cwd := home; now_year := 2026; now_month := 11;
     transport := fun url =>
       if String.eqb url january_url
       then Return {| status_code := 200;
                      content := toy_zip obliging_member january_rides |}
       else Return {| status_code := 404; content := "NoSuchKey" |};
     read_zip := toy_read_zip; parse_csv := toy_parse_csv |}.

Definition obliging_disk : gmap Path node :=
  <[ ["divvy-tripdata.s3.amazonaws.com"] := Dir ]> bare_disk.

(** A server that answers 404 to everything; [body] is what it sends. *)
Definition not_found (body : string) : env :=
  {| cwd := home; now_year := 2026; now_month := 11;
     transport := fun _ => Return {| status_code := 404; content := body |};
     read_zip := toy_read_zip; parse_csv := toy_parse_csv |}.

(** A disk where the dataset [trips] has been extracted already. *)
Definition trips_disk : gmap Path node :=
  <[ raw ++ ["trips"; "trips.csv"] := File january_rides ]>
    (<[ raw ++ ["trips"] := Dir ]> laid_out).

Definition divvy_host : string := "divvy-tripdata.s3.amazonaws.com".

End Scenario.

(** ** Vocabulary of the statements *)

(** Every character of [s] satisfies [P]. *)
Definition all_chars (P : ascii -> bool) (s : string) : bool :=
  forallb P (list_ascii_of_string s).

(** The downloader objects of the two modules, as the constructors build them. *)
Definition batch (city : string) (year : Z) : Batch.DataDownloader :=
  {| Batch.city_name := city; Batch.year := year |}.

Definition hourly (city : string) (year : Z) : Hourly.DataDownloader :=
  {| Hourly.city_name := city; Hourly.year := year |}.

(** The decimal digit of value [n]. *)
Definition digit (n : Z) : ascii := ascii_of_nat (48 + Z.to_nat n).

Definition two_digits (n : Z) : string :=
  String (digit (n / 10)) (String (digit (n mod 10)) "").

Definition four_digits (n : Z) : string :=
  String (digit (n / 1000)) (String (digit (n / 100 mod 10)) (two_digits (n mod 100))).

(** The world after one more line of log. *)
Definition logged (w : world) (l : level) (p : payload) : world :=
  {| fs := fs w; log := log w ++ [(l, p)]; sent := sent w |}.

Definition not_slash (c : ascii) : bool := negb (is_slash c).

(** The frame [pd.read_csv] finds at [p] on the disk [f], if any. *)
Definition frame_at (E : env) (f : gmap Path node) (p : Path) : option DataFrame :=
  match stat f p with
  | Found (File data) => parse_csv E data
  | _ => None
  end.

(** The one file the hourly loader reads for the name [file_name]. *)
Definition dataset_path (E : env) (file_name : string) : Path :=
  Hourly.RAW_DATA_DIR E // (file_name +:+ "/" +:+ file_name +:+ ".csv").

(** The same surroundings, with every response given the status [s]. *)
Definition with_status (s : Z) (E : env) : env :=
  {| cwd := cwd E; now_year := now_year E; now_month := now_month E;
     transport := fun url =>
       match transport E url with
       | Return r => Return {| status_code := s; content := content r |}
       | Raise e => Raise e
       end;
     read_zip := read_zip E; parse_csv := parse_csv E |}.

(** The disks [f] and [f'] hold the same at every path that does not
    start with the component [h]. *)
Definition outside (h : string) (f f' : gmap Path node) : Prop :=
  forall p, hd_error p <> Some h -> f' !! p = f !! p.

(** A computation that writes only below [/h] and sends nothing. *)
Definition local {A} (h : string) (m : M A) : Prop :=
  forall w, outside h (fs w) (fs (snd (m w))) /\ sent (snd (m w)) = sent w.

(** ** Vocabulary of the further properties *)

(** The world [w] with the disk [f]. *)
Definition with_fs (w : world) (f : gmap Path node) : world :=
  {| fs := f; log := log w; sent := sent w |}.

(** The same surroundings with another working directory. *)
Definition with_cwd (c : Path) (E : env) : env :=
  {| cwd := c; now_year := now_year E; now_month := now_month E;
     transport := transport E; read_zip := read_zip E; parse_csv := parse_csv E |}.

(** A file or folder name proper: not empty, without a slash, and
    neither of the two dot names. *)
Definition simple_name (s : string) : Prop :=
  s <> "" /\ all_chars not_slash s = true /\ s <> "." /\ s <> "..".

(** Everything found on the disk of [w] is found, unchanged, on the
    disk of [w']. *)
Definition extends (w w' : world) : Prop :=
  forall p n, stat (fs w) p = Found n -> stat (fs w') p = Found n.

(** A computation that only adds to the disk, and touches neither the
    logger nor the network. *)
Definition grows {A} (m : M A) : Prop :=
  forall w, extends w (snd (m w)) /\ log (snd (m w)) = log w /\ sent (snd (m w)) = sent w.

(** Once the computation has returned, it returns again without any
    change on every world that extends the one it left. *)
Definition settles (m : M unit) : Prop :=
  forall w w', m w = (Return tt, w') ->
  forall w'', extends w' w'' -> m w'' = (Return tt, w'').

(** The landing page of each city, as [city_has_data] of the batch
    module builds it. *)
Definition landing_pages : list (string * string) :=
  [("bay_area", "https://lyft.com/bikes/bay-wheels");
   ("chicago", "https://divvybikes.com/system-data");
   ("washington_dc", "https://capitalbikeshare.com/system-data");
   ("new_york", "https://citibikenyc.com/system-data");
   ("portland", "https://biketownpdx.com/system-data");
   ("columbus", "https://cogobikeshare.com/system-data")].

(** * Properties *)

(** ** String and path lemmas *)

Lemma append_cons (c : ascii) (s t : string) :
  String c s +:+ t = String c (s +:+ t).
Proof. reflexivity. Qed.

Lemma requests_get_http (E : env) (url : string) (w : world) :
  is_http_url url = true ->
  requests_get E url w
  = (transport E url, {| fs := fs w; log := log w; sent := sent w ++ [url] |}).
Proof. intros H. unfold requests_get. rewrite H. reflexivity. Qed.

Lemma is_http_url_https (s : string) : is_http_url ("https://" +:+ s) = true.
Proof. reflexivity. Qed.

Lemma append_nil_l (s : string) : "" +:+ s = s.
Proof. reflexivity. Qed.

Lemma append_nil_r (s : string) : s +:+ "" = s.
Proof. induction s as [|c s IH]; [reflexivity | rewrite ?append_cons; simpl; f_equal; exact IH]. Qed.

Lemma append_assoc (a b c : string) : (a +:+ b) +:+ c = a +:+ (b +:+ c).
Proof. induction a as [|x a IH]; [reflexivity | rewrite ?append_cons; simpl; f_equal; exact IH]. Qed.

Lemma length_append (a b : string) :
  String.length (a +:+ b) = (String.length a + String.length b)%nat.
Proof. induction a as [|x a IH]; [reflexivity | rewrite ?append_cons; simpl; f_equal; exact IH]. Qed.

Lemma substring_all (s : string) : substring 0 (String.length s) s = s.
Proof. induction s as [|c s IH]; [reflexivity | rewrite ?append_cons; simpl; f_equal; exact IH]. Qed.

Lemma substring_skip (a b : string) (n : nat) :
  substring (String.length a) n (a +:+ b) = substring 0 n b.
Proof. induction a as [|x a IH]; [reflexivity | rewrite append_cons; exact IH]. Qed.

Lemma endswith_append (a b : string) : endswith (a +:+ b) b = true.
Proof.
  unfold endswith. rewrite length_append.
  replace (String.length a + String.length b - String.length b)%nat
    with (String.length a) by lia.
  rewrite substring_skip, substring_all, String.eqb_refl. simpl.
  apply Nat.leb_le. lia.
Qed.

(** The models of the libraries on a few inputs. *)
Example re_search_examples :
  re_search_group1 "s3.amazonaws.com/tripdata/x.zip" = Some "/tripdata/x.zip" /\
  re_search_group1 "https://s3.amazonaws.com" = Some "//s3.amazonaws.com" /\
  re_search_group1 "//a/b" = Some "/b" /\
  re_search_group1 "abc" = Some "" /\
  re_search_group1 "///" = None /\
  re_search_group1 "" = None /\
  re_search_group1 "a
b/c
d/e" = Some "/c".
Proof. repeat split; reflexivity. Qed.

Example joinpath_examples :
  ["srv"; "bikes"] // "data" // "raw" = ["srv"; "bikes"; "data"; "raw"] /\
  ["srv"; "bikes"] // "//host/202401-divvy-trip" = ["host"; "202401-divvy-trip"] /\
  ["srv"; "bikes"] // "a/./b//c/../d/" = ["srv"; "bikes"; "a"; "b"; "c"; ".."; "d"] /\
  ["srv"; "bikes"] // "" = ["srv"; "bikes"] /\
  ["srv"; "bikes"] // "/.csv" = [".csv"].
Proof. repeat split; reflexivity. Qed.

Example format_examples :
  format_02d 3 = "03" /\ format_02d 12 = "12" /\ format_02d 0 = "00" /\
  format_02d (-1) = "-1" /\ format_02d 123 = "123" /\ str 2024 = "2024" /\
  drop_last4 "202401-divvy-tripdata" = "202401-divvy-trip" /\ drop_last4 "ab" = "" /\
  lower "Bay_Area" = "bay_area" /\ title "bay_area" = "Bay_Area".
Proof. repeat split; reflexivity. Qed.

(** ** The catalogue of the batch module *)

Lemma batch_file_names (year month : Z) :
  let ym := str year +:+ format_02d month in
  Batch.get_data_file_name (batch "chicago" year) month
    = Return (ym +:+ "-divvy-tripdata") /\
  Batch.get_data_file_name (batch "new_york" year) month
    = Return (ym +:+ "-citibike-tripdata") /\
  Batch.get_data_file_name (batch "columbus" year) month
    = Return (ym +:+ "-cogo-tripdata") /\
  Batch.get_data_file_name (batch "washington_dc" year) month
    = Return (ym +:+ "-capitalbikeshare-tripdata") /\
  Batch.get_data_file_name (batch "portland" year) month
    = Return (ym +:+ ".csv") /\
  Batch.get_data_file_name (batch "bay_area" year) month
    = Raise (KeyError "bay_area").
Proof. repeat split; reflexivity. Qed.

Lemma in_range (lo hi m : Z) : In m (range lo hi) <-> lo <= m < hi.
Proof.
  unfold range. rewrite in_map_iff. split.
  - intros (i & <- & Hi). apply in_seq in Hi. lia.
  - intros H. exists (Z.to_nat (m - lo)). split; [lia |].
    apply in_seq. lia.
Qed.



(** ** Names and URLs *)

Lemma format_02d_two_digits (m : Z) : 0 <= m <= 99 -> format_02d m = two_digits m.
Proof.
  intros H.
  assert (Hall : forallb (fun m => String.eqb (format_02d m) (two_digits m)) (range 0 100) = true)
    by (vm_compute; reflexivity).
  rewrite forallb_forall in Hall.
  apply String.eqb_eq, Hall, in_range. lia.
Qed.

Lemma str_four_digits (y : Z) : 1000 <= y <= 9999 -> str y = four_digits y.
Proof.
  intros H.
  assert (Hall : forallb (fun y => String.eqb (str y) (four_digits y)) (range 1000 10000) = true)
    by (vm_compute; reflexivity).
  rewrite forallb_forall in Hall.
  apply String.eqb_eq, Hall, in_range. lia.
Qed.

(** C9. The file name of Chicago for March 2024 is
    202403-divvy-tripdata and that of New York is
    202403-citibike-tripdata; for every four-digit year and every
    month from 1 to 12 the name starts with the four digits of the year
    followed by the month written with two digits, zero-padded. *)
Theorem C9_deterministic_naming :
  Batch.get_data_file_name (batch "chicago" 2024) 3 = Return "202403-divvy-tripdata" /\
  Batch.get_data_file_name (batch "new_york" 2024) 3 = Return "202403-citibike-tripdata" /\
  forall year month, 1000 <= year <= 9999 -> 1 <= month <= 12 ->
    let ym := four_digits year +:+ two_digits month in
    Batch.get_data_file_name (batch "chicago" year) month
      = Return (ym +:+ "-divvy-tripdata") /\
    Batch.get_data_file_name (batch "new_york" year) month
      = Return (ym +:+ "-citibike-tripdata") /\
    Batch.get_data_file_name (batch "columbus" year) month
      = Return (ym +:+ "-cogo-tripdata") /\
    Batch.get_data_file_name (batch "washington_dc" year) month
      = Return (ym +:+ "-capitalbikeshare-tripdata") /\
    Batch.get_data_file_name (batch "portland" year) month
      = Return (ym +:+ ".csv").
Proof.
  split; [reflexivity | split; [reflexivity |]].
  intros year month Hy Hm. cbv zeta.
  rewrite <- (str_four_digits year Hy).
  rewrite <- (format_02d_two_digits month) by lia.
  pose proof (batch_file_names year month) as H. cbv zeta in H.
  tauto.
Qed.

Lemma C9_deterministic_naming_witness :
  Batch.get_data_file_name (batch "columbus" 2024) 3
    = Return (four_digits 2024 +:+ two_digits 3 +:+ "-cogo-tripdata").
Proof.
  destruct C9_deterministic_naming as (_ & _ & H).
  destruct (H 2024 3) as (_ & _ & Hc & _); [lia | lia | exact Hc].
Defined.

(** C3. For Washington DC, January 2024, [get_url_for_city_data]
    returns the prefix followed by the bare file name: the URL has no
    [.zip] suffix that the specification gives it. *)
Theorem C3_washington_url_lacks_zip_suffix (w : world) :
  Batch.init "washington_dc" 2024 = Return (batch "washington_dc" 2024) /\
  Batch.get_url_for_city_data (batch "washington_dc" 2024) 1 w
    = (Return (Some "https://s3.amazonaws.com/capitalbikeshare-data/202401-capitalbikeshare-tripdata"), w) /\
  Batch.get_url_for_city_data (batch "washington_dc" 2024) 1 w
    <> (Return (Some "https://s3.amazonaws.com/capitalbikeshare-data/202401-capitalbikeshare-tripdata.zip"), w).
Proof.
  split; [reflexivity |].
  assert (H : Batch.get_url_for_city_data (batch "washington_dc" 2024) 1 w
    = (Return (Some "https://s3.amazonaws.com/capitalbikeshare-data/202401-capitalbikeshare-tripdata"), w))
    by reflexivity.
  split; [exact H |]. rewrite H. intros Heq. discriminate Heq.
Qed.

Lemma portland_url (year month : Z) (w : world) :
  (2020 < year ->
     Batch.get_url_for_city_data (batch "portland" year) month w
       = (Return None,
          logged w ERROR (Msg "Lyft doesn't provide data on Portland after 2020."))) /\
  (year <= 2020 ->
     Batch.get_url_for_city_data (batch "portland" year) month w
       = (Return (Some ("https://s3.amazonaws.com/biketown-tripdata-public/"
                        +:+ (str year +:+ format_02d month) +:+ ".csv")), w)).
Proof.
  split.
  - intros Hy. unfold Batch.get_url_for_city_data. simpl.
    replace (year >? 2020) with true by (symmetry; apply Z.gtb_lt; lia).
    reflexivity.
  - intros Hy. unfold Batch.get_url_for_city_data. simpl.
    replace (year >? 2020) with false by (rewrite Z.gtb_ltb; symmetry; apply Z.ltb_ge; lia).
    reflexivity.
Qed.

(** C4 does not hold as the specification words it: for Portland and
    2021 the method raises nothing, it returns [None]. *)
Lemma C4_portland_2021_raises_nothing :
  Batch.init "portland" 2021 = Return (batch "portland" 2021) /\
  fst (Batch.get_url_for_city_data (batch "portland" 2021) 1
         (Scenario.start Scenario.bare_disk)) = Return None /\
  ~ (exists e, fst (Batch.get_url_for_city_data (batch "portland" 2021) 1
                      (Scenario.start Scenario.bare_disk)) = Raise e).
Proof.
  split; [reflexivity | split; [reflexivity |]].
  intros [e He]. vm_compute in He. discriminate He.
Qed.

(** C4, as the code has it. For Portland and a year after 2020,
    [get_url_for_city_data] logs an error and returns [None], without
    raising and without building a URL; for every year up to 2020 and
    every month it returns the URL of the file; the file name of
    Portland always ends in [.csv]. *)
Theorem C4_portland_cutoff (year month : Z) (w : world) :
  (2020 < year ->
     Batch.get_url_for_city_data (batch "portland" year) month w
       = (Return None,
          logged w ERROR (Msg "Lyft doesn't provide data on Portland after 2020."))) /\
  (year <= 2020 ->
     Batch.get_url_for_city_data (batch "portland" year) month w
       = (Return (Some ("https://s3.amazonaws.com/biketown-tripdata-public/"
                        +:+ (str year +:+ format_02d month) +:+ ".csv")), w)) /\
  (exists name,
     Batch.get_data_file_name (batch "portland" year) month = Return name /\
     endswith name ".csv" = true).
Proof.
  split; [apply portland_url | split; [apply portland_url |]].
  exists ((str year +:+ format_02d month) +:+ ".csv"). split.
  - apply (batch_file_names year month).
  - apply endswith_append.
Qed.

Lemma C4_portland_cutoff_witness :
  fst (Batch.get_url_for_city_data (batch "portland" 2021) 7 (Scenario.start Scenario.bare_disk))
    = Return None /\
  fst (Batch.get_url_for_city_data (batch "portland" 2020) 7 (Scenario.start Scenario.bare_disk))
    = Return (Some "https://s3.amazonaws.com/biketown-tripdata-public/202007.csv").
Proof.
  destruct (C4_portland_cutoff 2021 7 (Scenario.start Scenario.bare_disk)) as (H1 & _ & _).
  destruct (C4_portland_cutoff 2020 7 (Scenario.start Scenario.bare_disk)) as (_ & H0 & _).
  rewrite H1 by lia. rewrite H0 by lia. split; reflexivity.
Defined.

Lemma service_names_keys (c : string) :
  is_Some (Batch.service_names !! c) -> In c Setup.cities.
Proof.
  intros [v Hv]. unfold Batch.service_names in Hv.
  apply elem_of_list_to_map_2 in Hv.
  repeat (apply elem_of_cons in Hv as [Hv | Hv];
          [injection Hv as -> _; simpl; tauto |]).
  apply elem_of_nil in Hv. contradiction.
Qed.

Lemma init_accepts (city : string) (year : Z) (self : Batch.DataDownloader) :
  Batch.init city year = Return self ->
  self = batch (lower city) year /\ In (lower city) Setup.cities.
Proof.
  unfold Batch.init. simpl.
  destruct (Batch.service_names !! lower city) as [v|] eqn:Hv; [| discriminate].
  intros H. injection H as <-. split; [reflexivity |].
  apply service_names_keys. rewrite Hv. eauto.
Qed.

(** C5 does not hold as the specification words it: the constructor
    accepts bay_area, which has no entry in the file-name table nor in
    the URL-prefix table. *)
Lemma C5_bay_area_has_no_file_name :
  Batch.init "bay_area" 2024 = Return (batch "bay_area" 2024) /\
  Batch.get_data_file_name (batch "bay_area" 2024) 1 = Raise (KeyError "bay_area") /\
  Batch.city_name_and_url_head !! "bay_area" = None /\
  fst (Batch.get_url_for_city_data (batch "bay_area" 2024) 1
         (Scenario.start Scenario.bare_disk)) = Raise (KeyError "bay_area").
Proof. repeat split; reflexivity. Qed.

(** C5, as the code has it. Every city the constructor accepts has a service
    slug. The five cities other than bay_area also have a file-name
    template and a URL prefix: for them [get_data_file_name] returns a
    name for every period and [get_url_for_city_data] returns (a URL,
    or [None] for Portland after 2020) without failing on a missing
    entry. For bay_area both tables lack the entry and both methods
    raise [KeyError]. *)
Theorem C5_city_tables (city : string) (year : Z) (self : Batch.DataDownloader) :
  Batch.init city year = Return self ->
  is_Some (Batch.service_names !! Batch.city_name self) /\
  (Batch.city_name self <> "bay_area" ->
   forall month w,
     (exists name, Batch.get_data_file_name self month = Return name) /\
     is_Some (Batch.city_name_and_url_head !! Batch.city_name self) /\
     (exists url w', Batch.get_url_for_city_data self month w = (Return url, w'))) /\
  (Batch.city_name self = "bay_area" ->
   forall month w,
     Batch.get_data_file_name self month = Raise (KeyError "bay_area") /\
     Batch.city_name_and_url_head !! Batch.city_name self = None /\
     Batch.get_url_for_city_data self month w = (Raise (KeyError "bay_area"), w)).
Proof.
  intros Hinit. apply init_accepts in Hinit as [-> Hc].
  unfold batch at 1 2 3 4 5 6 7. simpl Batch.city_name.
  simpl in Hc.
  destruct Hc as [<- | [<- | [<- | [<- | [<- | [<- | []]]]]]].
  - split; [eexists; reflexivity |]. split; [congruence |].
    intros _ month w. repeat split; reflexivity.
  - split; [eexists; reflexivity |]. split; [| discriminate].
    intros _ month w. split; [eexists; reflexivity |].
    split; [eexists; reflexivity |]. do 2 eexists. reflexivity.
  - split; [eexists; reflexivity |]. split; [| discriminate].
    intros _ month w. split; [eexists; reflexivity |].
    split; [eexists; reflexivity |]. do 2 eexists. reflexivity.
  - split; [eexists; reflexivity |]. split; [| discriminate].
    intros _ month w. split; [eexists; reflexivity |].
    split; [eexists; reflexivity |]. do 2 eexists. reflexivity.
  - split; [eexists; reflexivity |]. split; [| discriminate].
    intros _ month w. split; [eexists; reflexivity |].
    split; [eexists; reflexivity |].
    destruct (Z_lt_le_dec 2020 year) as [Hy | Hy].
    + do 2 eexists. apply (proj1 (portland_url year month w)), Hy.
    + do 2 eexists. apply (proj2 (portland_url year month w)), Hy.
  - split; [eexists; reflexivity |]. split; [| discriminate].
    intros _ month w. split; [eexists; reflexivity |].
    split; [eexists; reflexivity |]. do 2 eexists. reflexivity.
Qed.

Lemma C5_city_tables_witness :
  (exists name, Batch.get_data_file_name (batch "chicago" 2024) 5 = Return name) /\
  Batch.get_data_file_name (batch "bay_area" 2024) 5 = Raise (KeyError "bay_area").
Proof.
  destruct (C5_city_tables "Chicago" 2024 (batch "chicago" 2024) eq_refl) as (_ & H & _).
  destruct (C5_city_tables "Bay_Area" 2024 (batch "bay_area" 2024) eq_refl) as (_ & _ & H').
  destruct (H ltac:(discriminate) 5 (Scenario.start Scenario.bare_disk)) as (Hn & _).
  destruct (H' eq_refl 5 (Scenario.start Scenario.bare_disk)) as (Hb & _).
  split; [exact Hn | exact Hb].
Defined.

(** ** The name taken from a URL *)

Lemma all_chars_cons (P : ascii -> bool) (c : ascii) (s : string) :
  all_chars P (String c s) = P c && all_chars P s.
Proof. reflexivity. Qed.

Lemma take_drop_until (stop : ascii -> bool) (s : string) :
  take_until stop s +:+ drop_until stop s = s.
Proof.
  induction s as [|c s IH]; [reflexivity |]. simpl.
  destruct (stop c); [reflexivity |].
  rewrite append_cons. f_equal. exact IH.
Qed.

Lemma take_until_all (stop : ascii -> bool) (s : string) :
  all_chars (fun c => negb (stop c)) (take_until stop s) = true.
Proof.
  induction s as [|c s IH]; [reflexivity |]. simpl.
  destruct (stop c) eqn:Hc; [reflexivity |].
  rewrite all_chars_cons, Hc. exact IH.
Qed.

Lemma drop_until_head (stop : ascii -> bool) (s : string) :
  drop_until stop s = "" \/
  exists c t, drop_until stop s = String c t /\ stop c = true.
Proof.
  induction s as [|c s IH]; [left; reflexivity |]. simpl.
  destruct (stop c) eqn:Hc; [right; eauto | exact IH].
Qed.

Lemma drop_until_run (run rest : string) :
  all_chars not_slash run = true ->
  rest = "" \/ is_absolute rest = true ->
  drop_until is_slash (run +:+ rest) = rest.
Proof.
  intros Hrun Hrest. induction run as [|c run IH].
  - simpl. destruct Hrest as [-> | Habs]; [reflexivity |].
    destruct rest as [|c r]; [reflexivity |]. simpl in *. now rewrite Habs.
  - rewrite all_chars_cons in Hrun. apply andb_prop in Hrun as [Hc Hrun].
    rewrite append_cons. simpl. unfold not_slash in Hc.
    destruct (is_slash c); [discriminate |]. apply IH, Hrun.
Qed.

Lemma re_search_slashes (url : string) :
  re_search_group1 url = None <-> all_chars is_slash url = true.
Proof.
  induction url as [|c url IH]; [simpl; tauto |].
  rewrite all_chars_cons. simpl.
  destruct (is_slash c); simpl; [exact IH |]. split; discriminate.
Qed.

Lemma re_search_skip (pre s : string) :
  all_chars is_slash pre = true ->
  re_search_group1 (pre +:+ s) = re_search_group1 s.
Proof.
  induction pre as [|c pre IH]; intros H; [reflexivity |].
  rewrite all_chars_cons in H. apply andb_prop in H as [Hc H].
  rewrite append_cons. simpl. rewrite Hc. apply IH, H.
Qed.

Lemma re_search_run (run rest : string) :
  run <> "" ->
  all_chars not_slash run = true ->
  rest = "" \/ is_absolute rest = true ->
  re_search_group1 (run +:+ rest) = Some (take_until is_newline rest).
Proof.
  intros Hne Hrun Hrest.
  pose proof (drop_until_run run rest Hrun Hrest) as Hdrop.
  destruct run as [|c run]; [contradiction |].
  rewrite all_chars_cons in Hrun. apply andb_prop in Hrun as [Hc _].
  rewrite append_cons in *. unfold not_slash in Hc.
  cbn [re_search_group1]. destruct (is_slash c); [discriminate |].
  now rewrite Hdrop.
Qed.

(** Every string with a character other than a slash splits into its
    leading slashes, the run that follows and the rest. *)
Lemma url_split (url : string) :
  all_chars is_slash url = false ->
  exists pre run rest,
    url = pre +:+ run +:+ rest /\
    all_chars is_slash pre = true /\
    run <> "" /\
    all_chars not_slash run = true /\
    (rest = "" \/ is_absolute rest = true).
Proof.
  induction url as [|c url IH]; [discriminate |].
  rewrite all_chars_cons. destruct (is_slash c) eqn:Hc; simpl.
  - intros H. destruct (IH H) as (pre & run & rest & -> & Hpre & Hne & Hrun & Hrest).
    exists (String c pre), run, rest. repeat split; try assumption.
    rewrite all_chars_cons, Hc. exact Hpre.
  - intros _. exists "", (String c (take_until is_slash url)), (drop_until is_slash url).
    split; [| split; [reflexivity | split; [discriminate | split]]].
    + rewrite append_nil_l, append_cons, take_drop_until. reflexivity.
    + rewrite all_chars_cons. unfold not_slash at 1. rewrite Hc.
      apply take_until_all.
    + destruct (drop_until_head is_slash url) as [-> | (d & t & -> & Hd)];
        [left; reflexivity | right; exact Hd].
Qed.

(** What [get_zipfile_name] computes, for every URL: it skips the
    slashes the URL starts with, drops the run of characters up to the next slash (for a URL
    with a scheme this run is the scheme and its colon) and returns
    what follows, up to the end of the line; it raises the exception
    Invalid URL exactly when the URL has no character other than a
    slash. Every URL falls in one of the two cases. *)
Lemma zipfile_name_cases (url : string) (w : world) :
  (get_zipfile_name (Some url) w = (Raise (Exception "Invalid URL"), w)
     <-> all_chars is_slash url = true) /\
  (forall pre run rest,
     url = pre +:+ run +:+ rest ->
     all_chars is_slash pre = true ->
     run <> "" ->
     all_chars not_slash run = true ->
     rest = "" \/ is_absolute rest = true ->
     get_zipfile_name (Some url) w = (Return (take_until is_newline rest), w)) /\
  (all_chars is_slash url = false ->
   exists pre run rest,
     url = pre +:+ run +:+ rest /\
     all_chars is_slash pre = true /\
     run <> "" /\
     all_chars not_slash run = true /\
     (rest = "" \/ is_absolute rest = true)).
Proof.
  split; [| split].
  - rewrite <- re_search_slashes. unfold get_zipfile_name, raise, ret.
    destruct (re_search_group1 url); split; intros H; congruence.
  - intros pre run rest -> Hpre Hne Hrun Hrest.
    unfold get_zipfile_name.
    rewrite (re_search_skip pre _ Hpre), (re_search_run run rest Hne Hrun Hrest).
    reflexivity.
  - apply url_split.
Qed.

Lemma take_until_app (stop : ascii -> bool) (a b : string) :
  all_chars (fun c => negb (stop c)) a = true ->
  take_until stop (a +:+ b) = a +:+ take_until stop b.
Proof.
  induction a as [|c a IH]; intros H; [reflexivity |].
  rewrite all_chars_cons in H. apply andb_prop in H as [Hc H].
  rewrite !append_cons. simpl. apply negb_true_iff in Hc. rewrite Hc.
  f_equal. apply IH, H.
Qed.

(** C6. For a URL with a scheme, which is what the URL builder of the
    module produces, [get_zipfile_name] does not return the path that
    follows the host: it drops the scheme and its colon only, and
    returns the two slashes, the host and the path. This holds for
    every host and path, and with an empty path the call still
    returns and raises nothing. The path alone is what the method
    returns for the same URL without its scheme. *)
Theorem C6_scheme_url_keeps_host (host path : string) (w : world) :
  host <> "" ->
  all_chars not_slash host = true ->
  all_chars (fun c => negb (is_newline c)) host = true ->
  path = "" \/ is_absolute path = true ->
  get_zipfile_name (Some ("https://" +:+ host +:+ path)) w
  = (Return ("//" +:+ host +:+ take_until is_newline path), w) /\
  "//" +:+ host +:+ take_until is_newline path <> take_until is_newline path /\
  get_zipfile_name (Some (host +:+ path)) w = (Return (take_until is_newline path), w).
Proof.
  intros Hne Hhost Hline Hpath. split; [| split].
  - rewrite (proj1 (proj2 (zipfile_name_cases ("https://" +:+ host +:+ path) w))
               "" "https:" ("//" +:+ host +:+ path));
      [| reflexivity | reflexivity | discriminate | reflexivity | right; reflexivity].
    rewrite !append_cons, append_nil_l. simpl take_until.
    rewrite (take_until_app is_newline host path Hline). reflexivity.
  - intros H. apply (f_equal String.length) in H.
    rewrite !append_cons, append_nil_l in H. simpl in H.
    rewrite length_append in H. lia.
  - apply (proj1 (proj2 (zipfile_name_cases (host +:+ path) w)) "" host path);
      [reflexivity | reflexivity | exact Hne | exact Hhost | exact Hpath].
Qed.

Lemma C6_scheme_url_keeps_host_witness :
  get_zipfile_name (Some "https://s3.amazonaws.com/tripdata/202401-citibike-tripdata.zip")
    (Scenario.start Scenario.bare_disk)
  = (Return "//s3.amazonaws.com/tripdata/202401-citibike-tripdata.zip",
     Scenario.start Scenario.bare_disk) /\
  "//s3.amazonaws.com/tripdata/202401-citibike-tripdata.zip"
  <> "/tripdata/202401-citibike-tripdata.zip" /\
  get_zipfile_name (Some "https://s3.amazonaws.com") (Scenario.start Scenario.bare_disk)
  = (Return "//s3.amazonaws.com", Scenario.start Scenario.bare_disk).
Proof.
  destruct (C6_scheme_url_keeps_host "s3.amazonaws.com"
              "/tripdata/202401-citibike-tripdata.zip" (Scenario.start Scenario.bare_disk))
    as (H1 & H2 & _);
    [discriminate | reflexivity | reflexivity | right; reflexivity |].
  destruct (C6_scheme_url_keeps_host "s3.amazonaws.com" ""
              (Scenario.start Scenario.bare_disk))
    as (H3 & _ & _);
    [discriminate | reflexivity | reflexivity | left; reflexivity |].
  split; [exact H1 | split; [exact H2 | exact H3]].
Defined.

(** ** Fetching twice *)

Section Frame.
Variable h : string.

Lemma outside_refl (f : gmap Path node) : outside h f f.
Proof. intros p _. reflexivity. Qed.

Lemma outside_trans (f1 f2 f3 : gmap Path node) :
  outside h f1 f2 -> outside h f2 f3 -> outside h f1 f3.
Proof. intros H12 H23 p Hp. rewrite (H23 p Hp). apply (H12 p Hp). Qed.

Lemma outside_insert (f : gmap Path node) (p : Path) (n : node) :
  hd_error p = Some h -> outside h f (<[p := n]> f).
Proof. intros Hp q Hq. apply lookup_insert_ne. congruence. Qed.

Lemma outside_delete (f : gmap Path node) (p : Path) :
  hd_error p = Some h -> outside h f (delete p f).
Proof. intros Hp q Hq. apply lookup_delete_ne. congruence. Qed.

Lemma node_at_outside (f f' : gmap Path node) (seen : Path) :
  outside h f f' ->
  seen = [] \/ hd_error seen <> Some h ->
  node_at f' seen = node_at f seen.
Proof.
  intros Hout [-> | Hhd]; [reflexivity |].
  destruct seen as [|x seen]; [reflexivity |]. apply (Hout _ Hhd).
Qed.

Lemma walk_outside (f f' : gmap Path node) (seen rest : Path) :
  outside h f f' ->
  hd_error (seen ++ rest) <> Some h ->
  walk f' seen rest = walk f seen rest.
Proof.
  intros Hout. revert seen. induction rest as [|c rest IH]; intros seen Hhd.
  - rewrite app_nil_r in Hhd. cbn [walk].
    rewrite (node_at_outside f f' seen Hout) by (right; exact Hhd). reflexivity.
  - cbn [walk]. rewrite (node_at_outside f f' seen Hout).
    + destruct (node_at f seen) as [[data |] |]; try reflexivity.
      apply IH. rewrite <- app_assoc. exact Hhd.
    + destruct seen as [|x seen]; [left; reflexivity | right; exact Hhd].
Qed.

Lemma stat_outside (f f' : gmap Path node) (p : Path) :
  outside h f f' -> hd_error p <> Some h -> stat f' p = stat f p.
Proof. intros Hout Hp. apply walk_outside; assumption. Qed.

Lemma local_ret {A} (a : A) : local h (ret a).
Proof. intros w. split; [apply outside_refl | reflexivity]. Qed.

Lemma local_raise {A} (e : exn) : local h (@raise A e).
Proof. intros w. split; [apply outside_refl | reflexivity]. Qed.

Lemma local_logger (l : level) (p : payload) : local h (logger l p).
Proof. intros w. split; [apply outside_refl | reflexivity]. Qed.

Lemma local_bind {A B} (m : M A) (k : A -> M B) :
  local h m -> (forall a, local h (k a)) -> local h (bind m k).
Proof.
  intros Hm Hk w. unfold bind. specialize (Hm w).
  destruct (m w) as [[a | e] w1]; simpl in Hm; [| exact Hm].
  destruct Hm as [Hout Hsent]. destruct (Hk a w1) as [Hout' Hsent'].
  split; [apply (outside_trans _ _ _ Hout Hout') | congruence].
Qed.

Lemma local_path_exists (p : Path) : local h (path_exists p).
Proof. intros w. split; [apply outside_refl | reflexivity]. Qed.

Lemma local_read_bytes (p : Path) : local h (read_bytes p).
Proof.
  intros w. unfold read_bytes, bind, get_fs, ret, raise. simpl.
  destruct (stat (fs w) p) as [[data |] | |]; split;
    (apply outside_refl || reflexivity).
Qed.

Lemma local_write_bytes (p : Path) (data : string) :
  hd_error p = Some h -> local h (write_bytes p data).
Proof.
  intros Hp w. unfold write_bytes, bind, get_fs, put_fs, raise. simpl.
  destruct (stat (fs w) p) as [[old |] | |]; simpl;
    try (split; [apply outside_refl || apply outside_insert, Hp | reflexivity]).
  destruct (stat (fs w) (removelast p)) as [[old |] | |]; simpl;
    split; (apply outside_refl || apply outside_insert, Hp || reflexivity).
Qed.

Lemma local_os_mkdir (p : Path) : hd_error p = Some h -> local h (os_mkdir p).
Proof.
  intros Hp w. unfold os_mkdir, bind, get_fs, put_fs, raise. simpl.
  destruct (stat (fs w) p) as [n | |]; simpl;
    try (split; [apply outside_refl | reflexivity]).
  destruct (stat (fs w) (removelast p)) as [[old |] | |]; simpl;
    split; (apply outside_refl || apply outside_insert, Hp || reflexivity).
Qed.

Lemma local_os_remove (p : Path) : hd_error p = Some h -> local h (os_remove p).
Proof.
  intros Hp w. unfold os_remove, bind, get_fs, put_fs, raise. simpl.
  destruct (stat (fs w) p) as [[old |] | |]; simpl;
    split; (apply outside_refl || apply outside_delete, Hp || reflexivity).
Qed.

Lemma local_for_each {A} (xs : list A) (body : A -> M unit) :
  (forall x, In x xs -> local h (body x)) -> local h (for_each xs body).
Proof.
  induction xs as [|x xs IH]; intros Hbody; simpl.
  - apply local_ret.
  - apply local_bind; [apply Hbody; left; reflexivity |].
    intros _. apply IH. intros y Hy. apply Hbody. right. exact Hy.
Qed.

Lemma prefixes_head (seen rest q : Path) :
  hd_error (seen ++ rest) = Some h -> In q (prefixes seen rest) -> hd_error q = Some h.
Proof.
  revert seen. induction rest as [|c rest IH]; intros seen Hhd Hq; [destruct Hq |].
  destruct Hq as [<- | Hq].
  - destruct seen; [exact Hhd | exact Hhd].
  - apply (IH (seen ++ [c])%list); [| exact Hq]. rewrite <- app_assoc. exact Hhd.
Qed.

Lemma local_os_makedirs (p : Path) :
  p = [] \/ hd_error p = Some h -> local h (os_makedirs p).
Proof.
  intros Hp. unfold os_makedirs. apply local_for_each. intros q Hq.
  destruct Hp as [-> | Hp]; [destruct Hq |].
  apply local_bind; [apply local_path_exists |].
  intros [|]; [apply local_ret | apply local_os_mkdir].
  apply (prefixes_head [] p q Hp Hq).
Qed.

Lemma removelast_head (p : Path) :
  hd_error p = Some h -> removelast p = [] \/ hd_error (removelast p) = Some h.
Proof.
  destruct p as [|x [|y p]]; simpl; intros H; [discriminate | left; reflexivity |].
  right. exact H.
Qed.

Lemma local_extract (members : list (string * string)) (member : string) (folder : Path) :
  hd_error folder = Some h -> local h (extract members member folder).
Proof.
  intros Hf. unfold extract.
  destruct (getinfo members member) as [data |]; [| apply local_raise].
  destruct (List.filter is_arc_part (split_slash member)) as [|a arc] eqn:Harc;
    [apply local_raise |].
  assert (Htarget : hd_error (folder ++ a :: arc) = Some h)
    by (destruct folder; [discriminate | exact Hf]).
  apply local_bind; [apply local_path_exists |]. intros b.
  apply local_bind.
  - destruct b; [apply local_ret |].
    apply local_os_makedirs, removelast_head, Htarget.
  - intros _. apply local_write_bytes, Htarget.
Qed.

Lemma local_ZipFile (E : env) (p : Path) : local h (ZipFile E p).
Proof.
  unfold ZipFile. apply local_bind; [apply local_read_bytes |].
  intros data. destruct (read_zip E data); [apply local_ret | apply local_raise].
Qed.

Lemma local_read_csv (E : env) (p : Path) : local h (read_csv E p).
Proof.
  unfold read_csv. apply local_bind; [apply local_read_bytes |].
  intros data. destruct (parse_csv E data); [apply local_ret | apply local_raise].
Qed.

End Frame.

(** What the batch downloader does for Chicago, January 2024, once
    the response is there: every path is below the host directory. *)
Lemma chicago_after_request (E : env) (keep_zipfile : bool) (w : world) :
  Batch.download_one_file_of_raw_data E (batch "chicago" 2024) 1 keep_zipfile w
  = bind (requests_get E Scenario.january_url) (fun response =>
      write_bytes [Scenario.divvy_host; "202401-divvy-tripdata"] (content response) >>
      let* zipfile := ZipFile E [Scenario.divvy_host; "202401-divvy-tripdata"] in
      extract zipfile "//divvy-tripdata.s3.amazonaws.com/202401-divvy-trip.csv"
        [Scenario.divvy_host; "202401-divvy-trip"] >>
      (if keep_zipfile then ret tt
       else os_remove [Scenario.divvy_host; "202401-divvy-tripdata"]) >>
      read_csv E [Scenario.divvy_host; "202401-divvy-trip";
                  Scenario.divvy_host; "202401-divvy-trip.csv"]) w.
Proof. reflexivity. Qed.

Lemma chicago_download_frame (E : env) (keep_zipfile : bool) (w : world) :
  let w' := snd (Batch.download_one_file_of_raw_data E (batch "chicago" 2024) 1
                   keep_zipfile w) in
  outside Scenario.divvy_host (fs w) (fs w') /\
  sent w' = (sent w ++ [Scenario.january_url])%list.
Proof.
  rewrite chicago_after_request. unfold bind at 1.
  rewrite (requests_get_http E Scenario.january_url w eq_refl).
  destruct (transport E Scenario.january_url) as [response | e];
    [| split; [apply outside_refl | reflexivity]].
  match goal with
  | |- context [snd (?rest ?w0)] =>
      assert (Hlocal : local Scenario.divvy_host rest)
  end.
  { apply local_bind; [apply local_write_bytes; reflexivity |]. intros _.
    apply local_bind; [apply local_ZipFile |]. intros zipfile.
    apply local_bind; [apply local_extract; reflexivity |]. intros _.
    apply local_bind;
      [destruct keep_zipfile; [apply local_ret | apply local_os_remove; reflexivity] |].
    intros _. apply local_read_csv. }
  exact (Hlocal {| fs := fs w; log := log w;
                   sent := sent w ++ [Scenario.january_url] |}).
Qed.

Lemma cache_check_outside (E : env) (w w' : world) :
  hd_error (cwd E) <> Some Scenario.divvy_host ->
  outside Scenario.divvy_host (fs w) (fs w') ->
  fst (Batch.data_file_exists E (batch "chicago" 2024) "202401-divvy-tripdata" w')
  = fst (Batch.data_file_exists E (batch "chicago" 2024) "202401-divvy-tripdata" w).
Proof.
  intros Hcwd Hout.
  unfold Batch.data_file_exists, path_exists, bind, get_fs, ret. simpl.
  rewrite (stat_outside Scenario.divvy_host (fs w) (fs w')); [reflexivity | exact Hout |].
  unfold Batch.RAW_DATA_DIR, Setup.RAW_DATA_DIR, Setup.DATA_DIR, Setup.PARENT_DIR.
  unfold joinpath. simpl.
  destruct (cwd E); [discriminate | exact Hcwd].
Qed.

(** Whatever the server, the formats and the disk: a download-only run
    for Chicago, January 2024, that finds no cache sends one request and
    leaves the cache check as it was, so the next run sends the request
    again. *)
Lemma chicago_never_cached (E : env) (w : world) :
  hd_error (cwd E) <> Some Scenario.divvy_host ->
  fst (Batch.data_file_exists E (batch "chicago" 2024) "202401-divvy-tripdata" w)
    = Return false ->
  let w1 := snd (Batch.load_loop E (batch "chicago" 2024) true [] [1] w) in
  fst (Batch.data_file_exists E (batch "chicago" 2024) "202401-divvy-tripdata" w1)
    = Return false /\
  sent w1 = (sent w ++ [Scenario.january_url])%list.
Proof.
  intros Hcwd Hmiss.
  assert (Hloop : Batch.load_loop E (batch "chicago" 2024) true [] [1] w
    = bind (Batch.data_file_exists E (batch "chicago" 2024) "202401-divvy-tripdata")
        (fun cached =>
           (if cached then
              logger SUCCESS (Msg "202401-divvy-tripdata is already saved to disk")
            else
              Batch.download_one_file_of_raw_data E (batch "chicago" 2024) 1 false >>
              ret tt) >> ret None) w) by reflexivity.
  assert (Hcheck : Batch.data_file_exists E (batch "chicago" 2024) "202401-divvy-tripdata" w
                   = (Return false, w)).
  { revert Hmiss. unfold Batch.data_file_exists, path_exists, bind, get_fs, ret. simpl.
    intros ->. reflexivity. }
  assert (Hsnd : snd (Batch.load_loop E (batch "chicago" 2024) true [] [1] w)
                 = snd (Batch.download_one_file_of_raw_data E (batch "chicago" 2024) 1
                          false w)).
  { rewrite Hloop. unfold bind at 1. rewrite Hcheck. unfold bind.
    destruct (Batch.download_one_file_of_raw_data E (batch "chicago" 2024) 1 false w)
      as [[d | e] w1]; reflexivity. }
  cbv zeta. rewrite Hsnd.
  pose proof (chicago_download_frame E false w) as [Hout Hsent].
  split; [| exact Hsent].
  rewrite (cache_check_outside E w _ Hcwd Hout). exact Hmiss.
Qed.

(** C1. Chicago, January 2024, download-only run. In the surroundings
    that make every step of the first call succeed, the first call
    sends one request and extracts the data, yet the cache check of
    the loader still answers false afterwards (it looks below
    RAW_DATA_DIR/chicago, the extraction went elsewhere), and the
    second call sends the same request again. On an ordinary disk both
    calls send the request and raise. Whatever the server and the
    disk, two runs in succession that start without the cache send the
    request twice. *)
Theorem C1_second_call_fetches_again :
  let self := batch "chicago" 2024 in
  let first := Batch.load_raw_data Scenario.obliging self true (Some [1])
                 (Scenario.start Scenario.obliging_disk) in
  let second := Batch.load_raw_data Scenario.obliging self true (Some [1]) (snd first) in
  let first' := Batch.load_raw_data Scenario.provider self true (Some [1])
                  (Scenario.start Scenario.bare_disk) in
  let second' := Batch.load_raw_data Scenario.provider self true (Some [1]) (snd first') in
  Batch.get_data_file_name self 1 = Return "202401-divvy-tripdata" /\
  (fst first = Return None /\
   sent (snd first) = [Scenario.january_url] /\
   stat (fs (snd first))
     ["divvy-tripdata.s3.amazonaws.com"; "202401-divvy-trip";
      "divvy-tripdata.s3.amazonaws.com"; "202401-divvy-trip.csv"]
     = Found (File Scenario.january_rides) /\
   fst (Batch.data_file_exists Scenario.obliging self "202401-divvy-tripdata" (snd first))
     = Return false /\
   fst second = Return None /\
   sent (snd second) = [Scenario.january_url; Scenario.january_url]) /\
  (fst first' = Raise (FileNotFoundError
                         ["divvy-tripdata.s3.amazonaws.com"; "202401-divvy-tripdata"]) /\
   sent (snd first') = [Scenario.january_url] /\
   sent (snd second') = [Scenario.january_url; Scenario.january_url]) /\
  (forall E w,
     hd_error (cwd E) <> Some Scenario.divvy_host ->
     fst (Batch.data_file_exists E self "202401-divvy-tripdata" w) = Return false ->
     let w1 := snd (Batch.load_loop E self true [] [1] w) in
     let w2 := snd (Batch.load_loop E self true [] [1] w1) in
     sent w2 = (sent w ++ [Scenario.january_url; Scenario.january_url])%list).
Proof.
  cbv zeta. split; [reflexivity | split; [| split]].
  - vm_compute. repeat split; reflexivity.
  - vm_compute. repeat split; reflexivity.
  - intros E w Hcwd Hmiss.
    destruct (chicago_never_cached E w Hcwd Hmiss) as [Hmiss1 Hsent1].
    destruct (chicago_never_cached E _ Hcwd Hmiss1) as [_ Hsent2].
    cbv zeta in Hsent1, Hsent2. rewrite Hsent2, Hsent1, <- app_assoc. reflexivity.
Qed.

Lemma C1_second_call_fetches_again_witness :
  sent (snd (Batch.load_loop Scenario.provider (batch "chicago" 2024) true [] [1]
          (snd (Batch.load_loop Scenario.provider (batch "chicago" 2024) true [] [1]
                  (Scenario.start Scenario.laid_out)))))
  = [Scenario.january_url; Scenario.january_url].
Proof.
  destruct C1_second_call_fetches_again as (_ & _ & _ & H).
  apply (H Scenario.provider (Scenario.start Scenario.laid_out));
    [discriminate | vm_compute; reflexivity].
Defined.

(** ** The status of the response *)

Lemma hourly_write_ignores_status (E : env) (zipfile_name : string) (r : Response)
    (s : Z) (keep_zipfile : bool) (w : world) :
  Hourly.write_and_extract_zipfile E zipfile_name
    {| status_code := s; content := content r |} keep_zipfile w
  = Hourly.write_and_extract_zipfile E zipfile_name r keep_zipfile w.
Proof. reflexivity. Qed.

Lemma batch_download_ignores_status (E : env) (self : Batch.DataDownloader)
    (month : Z) (keep_zipfile : bool) (s : Z) (w : world) :
  Batch.download_one_file_of_raw_data (with_status s E) self month keep_zipfile w
  = Batch.download_one_file_of_raw_data E self month keep_zipfile w.
Proof.
  unfold Batch.download_one_file_of_raw_data, bind.
  destruct (Batch.get_url_for_city_data self month w) as [[url | e] w1]; [| reflexivity].
  destruct (get_zipfile_name url w1) as [[name | e] w2]; [| reflexivity].
  unfold requests_get, with_status. simpl.
  destruct (is_http_url (default "" url));
    [| destruct (forallb is_plain_url_char _); reflexivity].
  destruct (transport E (default "" url)) as [r | e]; reflexivity.
Qed.

(** C7. A response with status 404 is handled like any other: its
    body is written to the archive path and extraction is tried. With
    an error page as body the call raises [BadZipFile], not a fetch
    error, and the body stays on disk; with an archive as body the
    call returns the data as if the fetch had succeeded. The status
    never changes the outcome. *)
Theorem C7_status_is_never_checked :
  let page := {| status_code := 404; content := "NoSuchKey" |} in
  let hourly_run := Hourly.write_and_extract_zipfile Scenario.offline
                      "202401-divvy-tripdata.zip" page false
                      (Scenario.start Scenario.laid_out) in
  let batch_page := Batch.download_one_file_of_raw_data (Scenario.not_found "NoSuchKey")
                      (batch "chicago" 2024) 1 false
                      (Scenario.start Scenario.obliging_disk) in
  let batch_archive := Batch.download_one_file_of_raw_data
                         (Scenario.not_found
                            (Scenario.toy_zip Scenario.obliging_member Scenario.january_rides))
                         (batch "chicago" 2024) 1 false
                         (Scenario.start Scenario.obliging_disk) in
  (fst hourly_run = Raise BadZipFile /\
   stat (fs (snd hourly_run)) (Scenario.raw ++ ["202401-divvy-tripdata.zip"])
     = Found (File "NoSuchKey")) /\
  (fst batch_page = Raise BadZipFile /\
   stat (fs (snd batch_page)) ["divvy-tripdata.s3.amazonaws.com"; "202401-divvy-tripdata"]
     = Found (File "NoSuchKey")) /\
  fst batch_archive = Return [["ride_id"; "rideable_type"]; ["A1"; "classic_bike"]] /\
  (forall E self month keep_zipfile s w,
     Batch.download_one_file_of_raw_data (with_status s E) self month keep_zipfile w
     = Batch.download_one_file_of_raw_data E self month keep_zipfile w).
Proof.
  cbv zeta. split; [| split; [| split]].
  - vm_compute. split; reflexivity.
  - vm_compute. split; reflexivity.
  - vm_compute. reflexivity.
  - apply batch_download_ignores_status.
Qed.

(** ** The hourly loader *)

Lemma split_by_app (sep : ascii -> bool) (cur a : string) (c : ascii) (b : string) :
  sep c = true ->
  split_by sep cur (a +:+ String c b) = (split_by sep cur a ++ split_by sep "" b)%list.
Proof.
  intros Hc. revert cur. induction a as [|x a IH]; intros cur.
  - simpl. rewrite Hc. reflexivity.
  - rewrite append_cons. simpl. destruct (sep x).
    + rewrite IH. reflexivity.
    + apply IH.
Qed.

Lemma parts_join (a b : string) : parts (a +:+ "/" +:+ b) = (parts a ++ parts b)%list.
Proof.
  unfold parts, split_slash.
  change ("/" +:+ b) with (String "/" b).
  rewrite split_by_app by reflexivity. apply List.filter_app.
Qed.

Lemma is_absolute_append (a b : string) :
  a <> "" -> is_absolute (a +:+ b) = is_absolute a.
Proof. destruct a; [contradiction | reflexivity]. Qed.

Lemma dataset_below_folder (E : env) (file_name : string) :
  file_name <> "" ->
  dataset_path E file_name
  = (Hourly.RAW_DATA_DIR E // file_name ++ parts (file_name +:+ ".csv"))%list.
Proof.
  intros Hne. unfold dataset_path, joinpath.
  rewrite is_absolute_append by assumption. rewrite parts_join.
  destruct (is_absolute file_name); [reflexivity | apply app_assoc].
Qed.

Lemma walk_prefix (f : gmap Path node) (l q seen : Path) (n : node) :
  walk f seen (l ++ q) = Found n -> exists n', walk f seen l = Found n'.
Proof.
  revert seen. induction l as [|c l IH]; intros seen H.
  - simpl in *. destruct q as [|c q]; simpl in H.
    + destruct (node_at f seen); [eauto | discriminate].
    + destruct (node_at f seen) as [[data |] |]; try discriminate. eauto.
  - simpl in *. destruct (node_at f seen) as [[data |] |]; try discriminate.
    apply (IH _ H).
Qed.

Lemma stat_prefix (f : gmap Path node) (l q : Path) (n : node) :
  stat f (l ++ q) = Found n -> exists n', stat f l = Found n'.
Proof. apply walk_prefix. Qed.

Lemma read_csv_Return (E : env) (p : Path) (w w' : world) (d : DataFrame) :
  read_csv E p w = (Return d, w') <-> w' = w /\ frame_at E (fs w) p = Some d.
Proof.
  unfold read_csv, read_bytes, frame_at, bind, get_fs, ret, raise. simpl.
  destruct (stat (fs w) p) as [[data |] | |]; simpl;
    try (split; [discriminate | intros [_ H]; discriminate]).
  destruct (parse_csv E data) as [d' |]; simpl;
    [| split; [discriminate | intros [_ H]; discriminate]].
  split.
  - intros H. injection H as -> ->. split; reflexivity.
  - intros [-> H]. injection H as ->. reflexivity.
Qed.

Lemma read_csv_Raise (E : env) (p : Path) (w w' : world) (e : exn) :
  read_csv E p w = (Raise e, w') -> w' = w.
Proof.
  unfold read_csv, read_bytes, bind, get_fs, ret, raise. simpl.
  destruct (stat (fs w) p) as [[data |] | |]; simpl;
    try (intros H; injection H as _ <-; reflexivity).
  destruct (parse_csv E data); simpl; intros H; injection H as _ <-; reflexivity.
Qed.

Lemma get_dataframe_Return (E : env) (file_name : string) (w w' : world) (d : DataFrame) :
  Hourly.get_dataframe_from_folder E file_name w = (Return d, w')
  <-> w' = w /\ frame_at E (fs w) (dataset_path E file_name) = Some d.
Proof.
  rewrite <- read_csv_Return.
  unfold Hourly.get_dataframe_from_folder, dataset_path, bind, ret, pd_concat. simpl.
  destruct (read_csv E _ w) as [[d' | e] w1]; split; intros H; congruence.
Qed.

Lemma get_dataframe_Raise (E : env) (file_name : string) (w w' : world) (e : exn) :
  Hourly.get_dataframe_from_folder E file_name w = (Raise e, w') -> w' = w.
Proof.
  unfold Hourly.get_dataframe_from_folder, bind.
  destruct (read_csv E _ w) as [[d' | e'] w1] eqn:Hr; [discriminate |].
  intros H. injection H as _ <-. apply (read_csv_Raise _ _ _ _ _ Hr).
Qed.

(** A frame can be read only below an existing dataset folder. *)
Lemma frame_needs_folder (E : env) (file_name : string) (f : gmap Path node)
    (d : DataFrame) :
  file_name <> "" ->
  frame_at E f (dataset_path E file_name) = Some d ->
  exists n, stat f (Hourly.RAW_DATA_DIR E // file_name) = Found n.
Proof.
  intros Hne. unfold frame_at. rewrite dataset_below_folder by assumption.
  destruct (stat f _) as [n | |] eqn:Hs; try discriminate.
  intros _. apply (stat_prefix _ _ _ _ Hs).
Qed.

Lemma check_when_present (E : env) (self : Hourly.DataDownloader) (file_name : string)
    (m : Z) (w : world) (n : node) :
  stat (fs w) (Hourly.RAW_DATA_DIR E // file_name) = Found n ->
  Hourly.check_for_file_or_download E self file_name (Some m) w
  = (Return tt, logged w SUCCESS (Msg (file_name +:+ ".zip is already saved"))).
Proof.
  intros H. unfold Hourly.check_for_file_or_download, bind, path_exists, get_fs, ret.
  simpl. rewrite H. reflexivity.
Qed.

Lemma try_log_returns (body : M unit) (w : world) :
  exists w', try_except body (fun error => logger ERROR (Err error)) w = (Return tt, w').
Proof.
  unfold try_except. destruct (body w) as [[[] | e] w1]; eexists; reflexivity.
Qed.

Lemma check_returns (E : env) (self : Hourly.DataDownloader) (file_name : string)
    (m : Z) (w : world) :
  exists w', Hourly.check_for_file_or_download E self file_name (Some m) w = (Return tt, w').
Proof.
  unfold Hourly.check_for_file_or_download, bind, path_exists, get_fs, ret. simpl.
  destruct (stat (fs w) _) as [n | |]; simpl;
    [eexists; reflexivity | apply try_log_returns | apply try_log_returns].
Qed.

(** The body of the generator loop for one month: what it yields and
    the world it leaves. *)
Lemma month_step (E : env) (self : Hourly.DataDownloader) (file_name : string)
    (m : Z) (w : world) :
  exists w1 w2 yielded,
    Hourly.check_for_file_or_download E self file_name (Some m) w = (Return tt, w1) /\
    try_except
      (Hourly.check_for_file_or_download E self file_name (Some m) >>
       let* df := Hourly.get_dataframe_from_folder E file_name in ret [df])
      (fun error => logger ERROR (Err error) >> ret []) w
    = (Return yielded, w2) /\
    fs w2 = fs w1 /\
    ((exists d, yielded = [d] /\ frame_at E (fs w1) (dataset_path E file_name) = Some d)
     \/ (yielded = [] /\ frame_at E (fs w1) (dataset_path E file_name) = None)).
Proof.
  destruct (check_returns E self file_name m w) as [w1 Hc].
  unfold try_except, bind at 1 2. rewrite Hc.
  destruct (Hourly.get_dataframe_from_folder E file_name w1) as [[d | e] w2] eqn:Hg.
  - apply get_dataframe_Return in Hg as [-> Hd].
    exists w1, w1, [d].
    split; [reflexivity | split; [reflexivity | split; [reflexivity |]]].
    left. exists d. split; [reflexivity | exact Hd].
  - pose proof (get_dataframe_Raise _ _ _ _ _ Hg) as ->.
    exists w1, (logged w1 ERROR (Err e)), [].
    split; [reflexivity | split; [reflexivity | split; [reflexivity |]]].
    right. split; [reflexivity |].
    destruct (frame_at E (fs w1) (dataset_path E file_name)) as [d |] eqn:Hd;
      [| reflexivity].
    assert (Hr : Hourly.get_dataframe_from_folder E file_name w1 = (Return d, w1))
      by (apply get_dataframe_Return; split; [reflexivity | exact Hd]).
    congruence.
Qed.

Lemma loop_cons (E : env) (self : Hourly.DataDownloader) (file_name : string)
    (m : Z) (rest : list Z) (w : world) :
  Hourly.load_loop E self file_name (m :: rest) w
  = match try_except
            (Hourly.check_for_file_or_download E self file_name (Some m) >>
             let* df := Hourly.get_dataframe_from_folder E file_name in ret [df])
            (fun error => logger ERROR (Err error) >> ret []) w with
    | (Return yielded, w2) =>
        match Hourly.load_loop E self file_name rest w2 with
        | (Return later, w3) => (Return (yielded ++ later)%list, w3)
        | (Raise e, w3) => (Raise e, w3)
        end
    | (Raise e, w2) => (Raise e, w2)
    end.
Proof.
  cbn [Hourly.load_loop]. unfold bind at 1.
  destruct (try_except _ _ w) as [[yielded | e] w2]; [| reflexivity].
  unfold bind at 1.
  destruct (Hourly.load_loop E self file_name rest w2) as [[later | e] w3]; reflexivity.
Qed.

(** The generator loop never raises. *)
Lemma hourly_loop_returns (E : env) (self : Hourly.DataDownloader) (file_name : string)
    (months : list Z) (w : world) :
  exists l w', Hourly.load_loop E self file_name months w = (Return l, w').
Proof.
  revert w. induction months as [|m rest IH]; intros w.
  - do 2 eexists. reflexivity.
  - rewrite loop_cons.
    destruct (month_step E self file_name m w) as (w1 & w2 & y & _ & -> & _).
    destruct (IH w2) as (later & w3 & ->). do 2 eexists. reflexivity.
Qed.

(** Once the dataset folder is there, the loop leaves the disk alone
    and every month yields the frame of the one file. *)
Lemma loop_when_present (E : env) (self : Hourly.DataDownloader) (file_name : string)
    (months : list Z) (w : world) (n : node) :
  stat (fs w) (Hourly.RAW_DATA_DIR E // file_name) = Found n ->
  exists w',
    Hourly.load_loop E self file_name months w
    = (Return match frame_at E (fs w) (dataset_path E file_name) with
              | Some d => repeat d (List.length months)
              | None => []
              end, w') /\
    fs w' = fs w.
Proof.
  revert w. induction months as [|m rest IH]; intros w Hn.
  - exists w. split; [| reflexivity].
    destruct (frame_at E (fs w) _); reflexivity.
  - rewrite loop_cons.
    destruct (month_step E self file_name m w) as (w1 & w2 & y & Hc & -> & Hfs & Hy).
    rewrite (check_when_present E self file_name m w n Hn) in Hc.
    injection Hc as <-. simpl in Hfs, Hy.
    assert (Hn2 : stat (fs w2) (Hourly.RAW_DATA_DIR E // file_name) = Found n)
      by (rewrite Hfs; exact Hn).
    destruct (IH w2 Hn2) as (w3 & -> & Hfs3). rewrite Hfs.
    exists w3. split; [| congruence].
    destruct Hy as [(d & -> & ->) | (-> & ->)]; reflexivity.
Qed.

(** Every frame the loop yields is the frame of the one file on the
    disk the loop leaves. *)
Lemma loop_yields_one_file (E : env) (self : Hourly.DataDownloader) (file_name : string)
    (months : list Z) (w : world) :
  file_name <> "" ->
  exists l w',
    Hourly.load_loop E self file_name months w = (Return l, w') /\
    forall d, In d l -> frame_at E (fs w') (dataset_path E file_name) = Some d.
Proof.
  intros Hne. revert w. induction months as [|m rest IH]; intros w.
  - exists [], w. split; [reflexivity | intros d []].
  - rewrite loop_cons.
    destruct (month_step E self file_name m w) as (w1 & w2 & y & _ & -> & Hfs & Hy).
    destruct Hy as [(d & -> & Hd) | (-> & _)].
    + destruct (frame_needs_folder E file_name (fs w1) d Hne Hd) as [n Hn].
      rewrite <- Hfs in Hn, Hd.
      destruct (loop_when_present E self file_name rest w2 n Hn) as (w3 & -> & Hfs3).
      rewrite Hd. do 2 eexists. split; [reflexivity |].
      rewrite Hfs3. intros d' [<- | Hin]; [exact Hd |].
      apply repeat_spec in Hin. now subst.
    + destruct (IH w2) as (later & w3 & -> & Hall).
      exists later, w3. split; [reflexivity | exact Hall].
Qed.

(** C10. In the hourly loader the file to load is the one [file_name]
    of the caller, whatever the month. The call returns. When the
    dataset folder is on disk the call leaves the disk as it is and
    every month of the effective set yields the same frame, the one
    read from RAW_DATA_DIR/file_name/file_name.csv (or no month yields
    anything, when that file cannot be read). In general every frame
    the call yields is the frame of that one file on the disk the call
    leaves, so any two frames of one call are equal. *)
Theorem C10_one_file_for_every_month (E : env) (make_fundamental_paths : M unit)
    (self : Hourly.DataDownloader) (months : option (list Z)) (file_name : string)
    (w w0 : world) :
  make_fundamental_paths w = (Return tt, w0) ->
  let the_file :=
    Hourly.RAW_DATA_DIR E // (file_name +:+ "/" +:+ file_name +:+ ".csv") in
  exists l w',
    Hourly.load_raw_data E make_fundamental_paths self months file_name w = (Return l, w') /\
    (forall n, stat (fs w0) (Hourly.RAW_DATA_DIR E // file_name) = Found n ->
       fs w' = fs w0 /\
       l = match frame_at E (fs w0) the_file with
           | Some d => repeat d (List.length (months_to_query_for E (Hourly.year self) months))
           | None => []
           end) /\
    (file_name <> "" ->
       (forall d, In d l -> frame_at E (fs w') the_file = Some d) /\
       (forall d1 d2, In d1 l -> In d2 l -> d1 = d2)).
Proof.
  intros Hmk the_file. unfold Hourly.load_raw_data, bind. rewrite Hmk.
  set (ms := months_to_query_for E (Hourly.year self) months).
  destruct (hourly_loop_returns E self file_name ms w0) as (l & w' & Hl).
  exists l, w'. split; [exact Hl | split].
  - intros n Hn.
    destruct (loop_when_present E self file_name ms w0 n Hn) as (w'' & Hl' & Hfs).
    rewrite Hl in Hl'. injection Hl' as -> <-. split; [exact Hfs | reflexivity].
  - intros Hne.
    destruct (loop_yields_one_file E self file_name ms w0 Hne) as (l' & w'' & Hl' & Hall).
    rewrite Hl in Hl'. injection Hl' as <- <-.
    split; [exact Hall |].
    intros d1 d2 H1 H2. apply Hall in H1, H2. congruence.
Qed.

Lemma C10_one_file_for_every_month_witness :
  exists w',
    Hourly.load_raw_data Scenario.offline (ret tt) (hourly "chicago" 2024)
      (Some [1; 2; 3]) "trips" (Scenario.start Scenario.trips_disk)
    = (Return (repeat [["ride_id"; "rideable_type"]; ["A1"; "classic_bike"]] 3), w') /\
    frame_at Scenario.offline (fs w') (Scenario.raw ++ ["trips"; "trips.csv"])
    = Some [["ride_id"; "rideable_type"]; ["A1"; "classic_bike"]].
Proof.
  destruct (C10_one_file_for_every_month Scenario.offline (ret tt) (hourly "chicago" 2024)
              (Some [1; 2; 3]) "trips" (Scenario.start Scenario.trips_disk)
              (Scenario.start Scenario.trips_disk) eq_refl)
    as (l & w' & Hl & Hpresent & Hnamed).
  destruct (Hpresent Dir eq_refl) as [_ Heq].
  destruct (Hnamed ltac:(discriminate)) as [Hframe _].
  vm_compute in Heq. subst l.
  exists w'. split; [exact Hl |].
  apply Hframe. left. reflexivity.
Defined.

(** ** One month fails *)

Lemma batch_loader_stops_at_first_month (E : env) (self : Batch.DataDownloader)
    (data : DataFrame) (month : Z) (rest : list Z) (w : world) :
  Batch.load_loop E self false data (month :: rest) w
  = Batch.load_loop E self false data [month] w.
Proof. reflexivity. Qed.

Lemma hourly_loader_returns (E : env) (make_fundamental_paths : M unit)
    (self : Hourly.DataDownloader) (months : option (list Z)) (file_name : string)
    (w w0 : world) :
  make_fundamental_paths w = (Return tt, w0) ->
  exists l w',
    Hourly.load_raw_data E make_fundamental_paths self months file_name w = (Return l, w').
Proof.
  intros Hmk. unfold Hourly.load_raw_data, bind. rewrite Hmk.
  apply hourly_loop_returns.
Qed.

(** An exception of the download of one month leaves the batch loop. *)
Lemma batch_loop_propagates (E : env) (self : Batch.DataDownloader) (data : DataFrame)
    (month : Z) (rest : list Z) (file_name : string) (e : exn) (w w' : world) :
  Batch.get_data_file_name self month = Return file_name ->
  fst (Batch.data_file_exists E self file_name w) = Return false ->
  Batch.download_one_file_of_raw_data E self month false w = (Raise e, w') ->
  Batch.load_loop E self true data (month :: rest) w = (Raise e, w').
Proof.
  intros Hname Hmiss Hfetch. cbn [Batch.load_loop]. unfold bind at 1, lift.
  rewrite Hname. unfold bind at 1.
  assert (Hcheck : Batch.data_file_exists E self file_name w = (Return false, w)).
  { revert Hmiss. unfold Batch.data_file_exists, path_exists, bind, get_fs, ret. simpl.
    intros ->. reflexivity. }
  rewrite Hcheck. unfold bind. rewrite Hfetch. reflexivity.
Qed.

(** C2. Chicago 2024, months 1, 2, 3, download-only run of the batch
    loader; the data of months 1 and 3 are on disk and the fetch of
    month 2 raises: the call raises that exception after month 1, and
    month 3 is never looked at. In general an exception of the
    download of a month leaves the batch loop; and when it is asked
    for the data, the batch loader never goes past the first month of
    its list. The hourly loader, for its part, returns whatever
    happens to a month. *)
Theorem C2_batch_loader_raises :
  let self := batch "chicago" 2024 in
  let r := Batch.load_raw_data Scenario.offline self true (Some [1; 2; 3])
             (Scenario.start Scenario.cached_1_3) in
  (fst r = Raise (RequestException "no route to host") /\
   log (snd r) = [(SUCCESS, Msg "202401-divvy-tripdata is already saved to disk")] /\
   sent (snd r) = ["https://divvy-tripdata.s3.amazonaws.com/202402-divvy-tripdata"]) /\
  (forall E self data month rest file_name e w w',
     Batch.get_data_file_name self month = Return file_name ->
     fst (Batch.data_file_exists E self file_name w) = Return false ->
     Batch.download_one_file_of_raw_data E self month false w = (Raise e, w') ->
     Batch.load_loop E self true data (month :: rest) w = (Raise e, w')) /\
  (forall E self data month rest w,
     Batch.load_loop E self false data (month :: rest) w
     = Batch.load_loop E self false data [month] w) /\
  (forall E make_fundamental_paths self months file_name w w0,
     make_fundamental_paths w = (Return tt, w0) ->
     exists l w',
       Hourly.load_raw_data E make_fundamental_paths self months file_name w
       = (Return l, w')).
Proof.
  cbv zeta. split; [| split; [| split]].
  - vm_compute. repeat split; reflexivity.
  - apply batch_loop_propagates.
  - intros. reflexivity.
  - apply hourly_loader_returns.
Qed.

Lemma C2_batch_loader_raises_witness :
  fst (Batch.load_loop Scenario.offline (batch "chicago" 2024) true [] [2; 3]
         (Scenario.start Scenario.cached_1_3))
  = Raise (RequestException "no route to host") /\
  exists l w',
    Hourly.load_raw_data Scenario.offline (ret tt) (hourly "chicago" 2024)
      (Some [1; 2; 3]) "202401-divvy-tripdata" (Scenario.start Scenario.laid_out)
    = (Return l, w').
Proof.
  destruct C2_batch_loader_raises as (_ & Hraise & _ & Hreturn).
  split.
  - pose proof (Hraise Scenario.offline (batch "chicago" 2024) [] 2 [3]
                  "202402-divvy-tripdata" (RequestException "no route to host")
                  (Scenario.start Scenario.cached_1_3)
                  (snd (Batch.download_one_file_of_raw_data Scenario.offline
                          (batch "chicago" 2024) 2 false
                          (Scenario.start Scenario.cached_1_3)))) as H.
    assert (H1 : Batch.get_data_file_name (batch "chicago" 2024) 2
                 = Return "202402-divvy-tripdata")
      by (vm_compute; reflexivity).
    assert (H2 : fst (Batch.data_file_exists Scenario.offline (batch "chicago" 2024)
                        "202402-divvy-tripdata" (Scenario.start Scenario.cached_1_3))
                 = Return false)
      by (vm_compute; reflexivity).
    assert (Hf : fst (Batch.download_one_file_of_raw_data Scenario.offline
                        (batch "chicago" 2024) 2 false
                        (Scenario.start Scenario.cached_1_3))
                 = Raise (RequestException "no route to host"))
      by (vm_compute; reflexivity).
    specialize (H H1 H2). rewrite H; [reflexivity |].
    destruct (Batch.download_one_file_of_raw_data Scenario.offline
                (batch "chicago" 2024) 2 false (Scenario.start Scenario.cached_1_3))
      as [r w']. simpl in Hf. simpl. rewrite Hf. reflexivity.
  - apply (Hreturn Scenario.offline (ret tt) (hourly "chicago" 2024) (Some [1; 2; 3])
             "202401-divvy-tripdata" (Scenario.start Scenario.laid_out)
             (Scenario.start Scenario.laid_out)).
    reflexivity.
Defined.

(** * Further properties *)

(** ** Resolving paths on a changing disk *)

Lemma walk_found_node (f : gmap Path node) (seen rest : Path) (n : node) :
  walk f seen rest = Found n -> node_at f (seen ++ rest) = Some n.
Proof.
  revert seen. induction rest as [|c rest IH]; intros seen H.
  - rewrite app_nil_r. simpl in H. destruct (node_at f seen); congruence.
  - simpl in H. destruct (node_at f seen) as [[data |] |]; try discriminate.
    apply IH in H. rewrite <- app_assoc in H. exact H.
Qed.

Lemma walk_app (f : gmap Path node) (seen a : Path) (c : string) (b : Path) :
  walk f seen (a ++ c :: b)
  = match walk f seen a with
    | Found Dir => walk f (seen ++ a) (c :: b)
    | Found (File _) => NotDir
    | Missing => Missing
    | NotDir => NotDir
    end.
Proof.
  revert seen. induction a as [|x a IH]; intros seen.
  - rewrite app_nil_r. simpl. destruct (node_at f seen) as [[data |] |]; reflexivity.
  - simpl. destruct (node_at f seen) as [[data |] |]; try reflexivity.
    rewrite IH, <- app_assoc. reflexivity.
Qed.

(** Below a directory, a name is found exactly when the disk has an
    entry for it. *)
Lemma stat_child (f : gmap Path node) (p : Path) (c : string) :
  stat f p = Found Dir ->
  stat f (p ++ [c]) = match f !! (p ++ [c]) with Some n => Found n | None => Missing end.
Proof.
  intros H. unfold stat in *. rewrite walk_app, H. simpl.
  apply walk_found_node in H. simpl in H. rewrite H.
  destruct p; reflexivity.
Qed.

Lemma stat_below_missing (f : gmap Path node) (p q : Path) :
  stat f p = Missing -> stat f (p ++ q) = Missing.
Proof.
  intros H. destruct q as [|c q]; [rewrite app_nil_r; exact H |].
  unfold stat in *. rewrite walk_app, H. reflexivity.
Qed.

Lemma stat_above_found (f : gmap Path node) (p : Path) (c : string) (q : Path) (n : node) :
  stat f (p ++ c :: q) = Found n -> stat f p = Found Dir.
Proof.
  unfold stat. rewrite walk_app.
  destruct (walk f [] p) as [[data |] | |]; try discriminate. reflexivity.
Qed.

Lemma walk_insert_other (f : gmap Path node) (p : Path) (n : node) (seen rest : Path) :
  ~ p `prefix_of` (seen ++ rest) ->
  walk (<[p := n]> f) seen rest = walk f seen rest.
Proof.
  revert seen. induction rest as [|c rest IH]; intros seen Hp.
  - assert (Hnode : node_at (<[p := n]> f) seen = node_at f seen).
    { destruct seen as [|x seen]; [reflexivity |]. simpl. apply lookup_insert_ne.
      intros ->. apply Hp. apply prefix_app_r. reflexivity. }
    simpl. rewrite Hnode. reflexivity.
  - assert (Hnode : node_at (<[p := n]> f) seen = node_at f seen).
    { destruct seen as [|x seen]; [reflexivity |]. simpl. apply lookup_insert_ne.
      intros ->. apply Hp. apply prefix_app_r. reflexivity. }
    simpl. rewrite Hnode. destruct (node_at f seen) as [[data |] |]; try reflexivity.
    apply IH. rewrite <- app_assoc. exact Hp.
Qed.

(** An entry added at [p] is seen only from [p] and below. *)
Lemma stat_insert_other (f : gmap Path node) (p q : Path) (n : node) :
  ~ p `prefix_of` q -> stat (<[p := n]> f) q = stat f q.
Proof. intros H. apply (walk_insert_other f p n [] q H). Qed.

Lemma walk_delete_other (f : gmap Path node) (p : Path) (seen rest : Path) :
  ~ p `prefix_of` (seen ++ rest) ->
  walk (delete p f) seen rest = walk f seen rest.
Proof.
  revert seen. induction rest as [|c rest IH]; intros seen Hp.
  - assert (Hnode : node_at (delete p f) seen = node_at f seen).
    { destruct seen as [|x seen]; [reflexivity |]. simpl. apply lookup_delete_ne.
      intros ->. apply Hp. apply prefix_app_r. reflexivity. }
    simpl. rewrite Hnode. reflexivity.
  - assert (Hnode : node_at (delete p f) seen = node_at f seen).
    { destruct seen as [|x seen]; [reflexivity |]. simpl. apply lookup_delete_ne.
      intros ->. apply Hp. apply prefix_app_r. reflexivity. }
    simpl. rewrite Hnode. destruct (node_at f seen) as [[data |] |]; try reflexivity.
    apply IH. rewrite <- app_assoc. exact Hp.
Qed.

Lemma stat_delete_other (f : gmap Path node) (p q : Path) :
  ~ p `prefix_of` q -> stat (delete p f) q = stat f q.
Proof. intros H. apply (walk_delete_other f p [] q H). Qed.

Lemma prefix_snoc_self (p : Path) (c : string) : ~ (p ++ [c]) `prefix_of` p.
Proof.
  intros H. apply prefix_length in H. rewrite length_app in H. simpl in H. lia.
Qed.

(** The entry written below a directory is found there. *)
Lemma stat_insert_child (f : gmap Path node) (p : Path) (c : string) (n : node) :
  stat f p = Found Dir -> stat (<[p ++ [c] := n]> f) (p ++ [c]) = Found n.
Proof.
  intros H. rewrite stat_child.
  - rewrite lookup_insert_eq. reflexivity.
  - rewrite stat_insert_other; [exact H | apply prefix_snoc_self].
Qed.

Lemma removelast_snoc (p : Path) (c : string) : removelast (p ++ [c]) = p.
Proof. apply removelast_last. Qed.

Lemma snoc_prefix_snoc (p : Path) (c d : string) (q : Path) :
  (p ++ [c]) `prefix_of` (p ++ d :: q) -> c = d.
Proof.
  intros [k Hk]. rewrite <- app_assoc in Hk. apply app_inv_head in Hk.
  simpl in Hk. congruence.
Qed.

(** ** The directory bootstrap *)

Lemma extends_refl (w : world) : extends w w.
Proof. intros p n H. exact H. Qed.

Lemma extends_trans (w1 w2 w3 : world) : extends w1 w2 -> extends w2 w3 -> extends w1 w3.
Proof. intros H12 H23 p n H. apply H23, H12, H. Qed.

Lemma found_not_below_missing (f : gmap Path node) (p r : Path) (n : node) :
  stat f p = Missing -> stat f r = Found n -> ~ p `prefix_of` r.
Proof.
  intros Hp Hr [k ->]. rewrite (stat_below_missing f p k Hp) in Hr. discriminate.
Qed.

Lemma grows_ret {A} (a : A) : grows (ret a).
Proof. intros w. split; [apply extends_refl | split; reflexivity]. Qed.

Lemma grows_bind {A B} (m : M A) (k : A -> M B) :
  grows m -> (forall a, grows (k a)) -> grows (bind m k).
Proof.
  intros Hm Hk w. unfold bind. specialize (Hm w).
  destruct (m w) as [[a | e] w1]; simpl in Hm; [| exact Hm].
  destruct Hm as (He & Hl & Hs). destruct (Hk a w1) as (He' & Hl' & Hs').
  split; [apply (extends_trans _ _ _ He He') | split; congruence].
Qed.

Lemma grows_for_each {A} (xs : list A) (body : A -> M unit) :
  (forall x, grows (body x)) -> grows (for_each xs body).
Proof.
  intros Hbody. induction xs as [|x xs IH]; simpl.
  - apply grows_ret.
  - apply grows_bind; [apply Hbody | intros _; exact IH].
Qed.

Lemma grows_mkdir_if_missing (p : Path) : grows (Setup.mkdir_if_missing p).
Proof.
  intros w. unfold Setup.mkdir_if_missing, bind, path_exists, get_fs, ret. simpl.
  destruct (stat (fs w) p) as [n | |] eqn:Hp; simpl;
    try (split; [apply extends_refl | split; reflexivity]).
  - unfold os_mkdir, bind, get_fs, raise, put_fs. simpl. rewrite Hp.
    destruct (stat (fs w) (removelast p)) as [[data |] | |]; simpl;
      try (split; [apply extends_refl | split; reflexivity]).
    split; [| split; reflexivity].
    intros r n Hr. simpl. rewrite stat_insert_other; [exact Hr |].
    apply (found_not_below_missing _ _ _ _ Hp Hr).
  - unfold os_mkdir, bind, get_fs, raise. simpl. rewrite Hp.
    split; [apply extends_refl | split; reflexivity].
Qed.

Lemma settles_ret : settles (ret tt).
Proof. intros w w' H w'' _. reflexivity. Qed.

Lemma mkdir_if_missing_found (p : Path) (w w' : world) :
  Setup.mkdir_if_missing p w = (Return tt, w') -> exists n, stat (fs w') p = Found n.
Proof.
  unfold Setup.mkdir_if_missing, bind, path_exists, get_fs, ret. simpl.
  destruct (stat (fs w) p) as [n | |] eqn:Hp; simpl.
  - intros H. injection H as <-. eauto.
  - unfold os_mkdir, bind, get_fs, raise, put_fs. simpl. rewrite Hp.
    destruct (stat (fs w) (removelast p)) as [[data |] | |] eqn:Hparent; simpl;
      try discriminate.
    intros H. injection H as <-. simpl. exists Dir.
    destruct p as [|c p] using rev_ind; [discriminate |].
    rewrite removelast_snoc in Hparent. apply stat_insert_child, Hparent.
  - unfold os_mkdir, bind, get_fs, raise. simpl. rewrite Hp. discriminate.
Qed.

Lemma settles_mkdir_if_missing (p : Path) : settles (Setup.mkdir_if_missing p).
Proof.
  intros w w' Hrun w'' Hext.
  destruct (mkdir_if_missing_found p w w' Hrun) as [n Hn]. apply Hext in Hn.
  unfold Setup.mkdir_if_missing, bind, path_exists, get_fs, ret. simpl.
  rewrite Hn. reflexivity.
Qed.

Lemma settles_seq (m k : M unit) :
  settles m -> grows k -> settles k -> settles (m >> k).
Proof.
  intros Hm Hgk Hk w w' Hrun w'' Hext. unfold bind in *.
  destruct (m w) as [[[] | e] w1] eqn:Hmw; [| discriminate].
  assert (Hext1 : extends w1 w'').
  { apply (extends_trans _ w'); [| exact Hext].
    pose proof (Hgk w1) as (He & _). rewrite Hrun in He. exact He. }
  rewrite (Hm w w1 Hmw w'' Hext1). apply (Hk w1 w' Hrun w'' Hext).
Qed.

Lemma settles_for_each {A} (xs : list A) (body : A -> M unit) :
  (forall x, grows (body x)) -> (forall x, settles (body x)) ->
  settles (for_each xs body).
Proof.
  intros Hg Hs. induction xs as [|x xs IH]; simpl.
  - apply settles_ret.
  - apply settles_seq; [apply Hs | apply grows_for_each, Hg | exact IH].
Qed.

Lemma grows_city_dirs (E : env) (path : Path) :
  grows (for_each Setup.cities (fun city =>
           if bool_decide (path ∈ [Setup.PARENT_DIR E; Setup.DATA_DIR E;
                                   Setup.TRANSFORMED_DATA E; Setup.MODELS_DIR E])
           then ret tt
           else Setup.mkdir_if_missing (path // city))).
Proof.
  apply grows_for_each. intros city.
  destruct (bool_decide (path ∈ _)); [apply grows_ret | apply grows_mkdir_if_missing].
Qed.

Lemma settles_city_dirs (E : env) (path : Path) :
  settles (for_each Setup.cities (fun city =>
             if bool_decide (path ∈ [Setup.PARENT_DIR E; Setup.DATA_DIR E;
                                     Setup.TRANSFORMED_DATA E; Setup.MODELS_DIR E])
             then ret tt
             else Setup.mkdir_if_missing (path // city))).
Proof.
  apply settles_for_each; intros city; destruct (bool_decide (path ∈ _)).
  - apply grows_ret.
  - apply grows_mkdir_if_missing.
  - apply settles_ret.
  - apply settles_mkdir_if_missing.
Qed.

Lemma grows_indexer_dirs (E : env) (path : Path) :
  grows (if bool_decide (path = Setup.GEOGRAPHICAL_DATA E) then
           for_each Setup.cities (fun city =>
             for_each ["mixed_indexer"; "rounding_indexer"] (fun indexer_name =>
               Setup.mkdir_if_missing (path // city // indexer_name)))
         else ret tt).
Proof.
  destruct (bool_decide (path = _)); [| apply grows_ret].
  apply grows_for_each. intros city. apply grows_for_each. intros indexer_name.
  apply grows_mkdir_if_missing.
Qed.

Lemma settles_indexer_dirs (E : env) (path : Path) :
  settles (if bool_decide (path = Setup.GEOGRAPHICAL_DATA E) then
             for_each Setup.cities (fun city =>
               for_each ["mixed_indexer"; "rounding_indexer"] (fun indexer_name =>
                 Setup.mkdir_if_missing (path // city // indexer_name)))
           else ret tt).
Proof.
  destruct (bool_decide (path = _)); [| apply settles_ret].
  apply settles_for_each; intros city.
  - apply grows_for_each. intros indexer_name. apply grows_mkdir_if_missing.
  - apply settles_for_each; intros indexer_name;
      [apply grows_mkdir_if_missing | apply settles_mkdir_if_missing].
Qed.

Lemma grows_setup (E : env) : grows (Setup.make_needed_directories E).
Proof.
  apply grows_for_each. intros path.
  apply grows_bind; [apply grows_mkdir_if_missing |]. intros _.
  apply grows_bind; [apply grows_city_dirs | intros _; apply grows_indexer_dirs].
Qed.

Lemma settles_setup (E : env) : settles (Setup.make_needed_directories E).
Proof.
  apply settles_for_each; intros path.
  - apply grows_bind; [apply grows_mkdir_if_missing |]. intros _.
    apply grows_bind; [apply grows_city_dirs | intros _; apply grows_indexer_dirs].
  - apply settles_seq; [apply settles_mkdir_if_missing | |].
    + apply grows_bind; [apply grows_city_dirs | intros _; apply grows_indexer_dirs].
    + apply settles_seq;
        [apply settles_city_dirs | apply grows_indexer_dirs | apply settles_indexer_dirs].
Qed.

(** X1. The bootstrap of [src/setup/paths.py] only adds to the disk:
    whatever was found before the call is found, unchanged, after it,
    also when the call raises; it writes no log line and sends no
    request. *)
Theorem bootstrap_only_adds (E : env) (w : world) (p : Path) (n : node) :
  stat (fs w) p = Found n ->
  stat (fs (snd (Setup.make_needed_directories E w))) p = Found n /\
  log (snd (Setup.make_needed_directories E w)) = log w /\
  sent (snd (Setup.make_needed_directories E w)) = sent w.
Proof.
  intros Hp.
  destruct (grows_setup E w) as (He & Hl & Hs). split; [apply He, Hp | split; assumption].
Qed.

Lemma bootstrap_only_adds_witness :
  let after := snd (Setup.make_needed_directories Scenario.offline
                      (Scenario.start Scenario.bare_disk)) in
  stat (fs after) ["srv"; "bikes"] = Found Dir /\ log after = [] /\ sent after = [].
Proof.
  apply (bootstrap_only_adds Scenario.offline (Scenario.start Scenario.bare_disk)
           ["srv"; "bikes"] Dir).
  vm_compute. reflexivity.
Defined.

(** X2. The bootstrap is idempotent: once it has returned, running it
    again, on the disk it left or on any disk that holds at least as
    much, returns and changes nothing. *)
Theorem bootstrap_idempotent (E : env) (w w' w'' : world) :
  Setup.make_needed_directories E w = (Return tt, w') ->
  extends w' w'' ->
  Setup.make_needed_directories E w'' = (Return tt, w'').
Proof. intros Hrun Hext. exact (settles_setup E w w' Hrun w'' Hext). Qed.

Lemma bootstrap_idempotent_witness :
  let first := Setup.make_needed_directories Scenario.offline
                 (Scenario.start Scenario.bare_disk) in
  fst first = Return tt /\
  Setup.make_needed_directories Scenario.offline (snd first) = (Return tt, snd first).
Proof.
  assert (Hf : fst (Setup.make_needed_directories Scenario.offline
                      (Scenario.start Scenario.bare_disk)) = Return tt)
    by (vm_compute; reflexivity).
  split; [exact Hf |].
  apply (bootstrap_idempotent Scenario.offline (Scenario.start Scenario.bare_disk)
           (snd (Setup.make_needed_directories Scenario.offline
                   (Scenario.start Scenario.bare_disk)))).
  - destruct (Setup.make_needed_directories Scenario.offline
                (Scenario.start Scenario.bare_disk)) as [r w'].
    simpl in Hf. rewrite Hf. reflexivity.
  - intros p n H. exact H.
Defined.

Lemma bind_Return_inv {A B} (m : M A) (k : A -> M B) (w w' : world) (b : B) :
  bind m k w = (Return b, w') ->
  exists a w1, m w = (Return a, w1) /\ k a w1 = (Return b, w').
Proof.
  unfold bind. destruct (m w) as [[a | e] w1]; [| discriminate].
  intros H. exists a, w1. split; [reflexivity | exact H].
Qed.

Lemma for_each_establishes {A} (Q : A -> world -> Prop) (xs : list A)
    (body : A -> M unit) :
  (forall x, grows (body x)) ->
  (forall x w w', In x xs -> body x w = (Return tt, w') -> Q x w') ->
  (forall x w w', Q x w -> extends w w' -> Q x w') ->
  forall w w', for_each xs body w = (Return tt, w') -> forall x, In x xs -> Q x w'.
Proof.
  intros Hg Hbody Hstable. induction xs as [|y xs IH]; intros w w' Hrun x Hx;
    [destruct Hx |].
  simpl in Hrun. apply bind_Return_inv in Hrun as ([] & w1 & Hy & Hrest).
  assert (Hext : extends w1 w').
  { pose proof (grows_for_each xs body Hg w1) as (He & _). rewrite Hrest in He. exact He. }
  destruct Hx as [<- | Hx].
  - apply (Hstable y w1 w'); [| exact Hext]. apply (Hbody y w w1); [left; reflexivity | exact Hy].
  - apply (IH (fun x w w' Hin => Hbody x w w' (or_intror Hin)) w1 w' Hrest x Hx).
Qed.

Lemma raw_gets_city_dirs (E : env) :
  ~ Setup.RAW_DATA_DIR E ∈ [Setup.PARENT_DIR E; Setup.DATA_DIR E;
                            Setup.TRANSFORMED_DATA E; Setup.MODELS_DIR E].
Proof.
  unfold Setup.RAW_DATA_DIR, Setup.TRANSFORMED_DATA, Setup.MODELS_DIR, Setup.DATA_DIR,
    Setup.PARENT_DIR, joinpath. simpl.
  rewrite !elem_of_cons, elem_of_nil.
  intros [H | [H | [H | [H | []]]]].
  - apply (f_equal List.length) in H. rewrite !length_app in H. simpl in H. lia.
  - apply (f_equal List.length) in H. rewrite !length_app in H. simpl in H. lia.
  - apply app_inv_head in H. discriminate.
  - apply (f_equal List.length) in H. rewrite !length_app in H. simpl in H. lia.
Qed.

(** X3. When the bootstrap has returned, every directory of its list is
    on the disk, and so is the directory of each city below every
    path of the list other than the data, transformed-data and models
    directories; in particular RAW_DATA_DIR is a directory and holds
    an entry for each of the six cities. *)
Theorem bootstrap_creates (E : env) (w w' : world) :
  Setup.make_needed_directories E w = (Return tt, w') ->
  (forall path, In path (Setup.major_paths E) ->
     (exists n, stat (fs w') path = Found n) /\
     (~ path ∈ [Setup.PARENT_DIR E; Setup.DATA_DIR E;
                Setup.TRANSFORMED_DATA E; Setup.MODELS_DIR E] ->
      forall city, In city Setup.cities ->
        exists n, stat (fs w') (path // city) = Found n)) /\
  stat (fs w') (Setup.RAW_DATA_DIR E) = Found Dir /\
  (forall city, In city Setup.cities ->
     exists n, stat (fs w') (Setup.RAW_DATA_DIR E // city) = Found n).
Proof.
  intros Hrun.
  assert (Hall : forall path, In path (Setup.major_paths E) ->
     (exists n, stat (fs w') path = Found n) /\
     (~ path ∈ [Setup.PARENT_DIR E; Setup.DATA_DIR E;
                Setup.TRANSFORMED_DATA E; Setup.MODELS_DIR E] ->
      forall city, In city Setup.cities ->
        exists n, stat (fs w') (path // city) = Found n)).
  { revert Hrun. unfold Setup.make_needed_directories.
    apply (for_each_establishes (fun path w =>
      (exists n, stat (fs w) path = Found n) /\
      (~ path ∈ [Setup.PARENT_DIR E; Setup.DATA_DIR E;
                 Setup.TRANSFORMED_DATA E; Setup.MODELS_DIR E] ->
       forall city, In city Setup.cities ->
         exists n, stat (fs w) (path // city) = Found n))).
    - intros path. apply grows_bind; [apply grows_mkdir_if_missing |]. intros _.
      apply grows_bind; [apply grows_city_dirs | intros _; apply grows_indexer_dirs].
    - intros path w0 w3 _ Hbody.
      apply bind_Return_inv in Hbody as ([] & w1 & Hmk & Hbody).
      apply bind_Return_inv in Hbody as ([] & w2 & Hcities & Hidx).
      assert (H12 : extends w1 w2).
      { pose proof (grows_city_dirs E path w1) as (He & _). rewrite Hcities in He. exact He. }
      assert (H23 : extends w2 w3).
      { pose proof (grows_indexer_dirs E path w2) as (He & _). rewrite Hidx in He. exact He. }
      split.
      + destruct (mkdir_if_missing_found path w0 w1 Hmk) as [n Hn].
        exists n. apply H23, H12, Hn.
      + intros Hnot city Hcity.
        rewrite (bool_decide_eq_false_2 _ Hnot) in Hcities.
        assert (Hc : exists n, stat (fs w2) (path // city) = Found n).
        { revert Hcities city Hcity.
          apply (for_each_establishes (fun city w =>
                   exists n, stat (fs w) (path // city) = Found n)).
          - intros c. apply grows_mkdir_if_missing.
          - intros c wa wb _ Hc. apply (mkdir_if_missing_found _ _ _ Hc).
          - intros c wa wb [n Hn] Hext. exists n. apply Hext, Hn. }
        destruct Hc as [n Hn]. exists n. apply H23, Hn.
    - intros path wa wb [[n Hn] Hc] Hext. split; [exists n; apply Hext, Hn |].
      intros Hnot city Hcity. destruct (Hc Hnot city Hcity) as [m Hm].
      exists m. apply Hext, Hm. }
  split; [exact Hall |].
  assert (Hraw : forall city, In city Setup.cities ->
            exists n, stat (fs w') (Setup.RAW_DATA_DIR E // city) = Found n).
  { apply (Hall (Setup.RAW_DATA_DIR E)); [simpl; tauto | apply raw_gets_city_dirs]. }
  split; [| exact Hraw].
  destruct (Hraw "bay_area") as [n Hn]; [simpl; tauto |].
  apply (stat_above_found _ _ "bay_area" [] n). exact Hn.
Qed.

Lemma bootstrap_creates_witness :
  let after := snd (Setup.make_needed_directories Scenario.offline
                      (Scenario.start Scenario.bare_disk)) in
  stat (fs after) (Setup.RAW_DATA_DIR Scenario.offline) = Found Dir /\
  forall city, In city Setup.cities ->
    exists n, stat (fs after) (Setup.RAW_DATA_DIR Scenario.offline // city) = Found n.
Proof.
  assert (Hf : fst (Setup.make_needed_directories Scenario.offline
                      (Scenario.start Scenario.bare_disk)) = Return tt)
    by (vm_compute; reflexivity).
  apply (bootstrap_creates Scenario.offline (Scenario.start Scenario.bare_disk)).
  destruct (Setup.make_needed_directories Scenario.offline
              (Scenario.start Scenario.bare_disk)) as [r w'].
  simpl in Hf. rewrite Hf. reflexivity.
Defined.

Lemma grows_hourly_body (path : Path) :
  grows (Setup.mkdir_if_missing path >>
         for_each Setup.cities (fun city => Setup.mkdir_if_missing (path // city))).
Proof.
  apply grows_bind; [apply grows_mkdir_if_missing |]. intros _.
  apply grows_for_each. intros city. apply grows_mkdir_if_missing.
Qed.

(** X4. The bootstrap of the hourly [paths.py] only adds to the disk,
    is idempotent, and once it has returned every path of its list
    and, below each of them, the directory of each city are on the
    disk. *)
Theorem hourly_bootstrap (E : env) :
  (forall w p n,
     stat (fs w) p = Found n ->
     stat (fs (snd (HourlyPaths.make_needed_directories E w))) p = Found n) /\
  (forall w w' w'',
     HourlyPaths.make_needed_directories E w = (Return tt, w') ->
     extends w' w'' ->
     HourlyPaths.make_needed_directories E w'' = (Return tt, w'')) /\
  (forall w w',
     HourlyPaths.make_needed_directories E w = (Return tt, w') ->
     forall path, In path (HourlyPaths.all_data_paths E) ->
       (exists n, stat (fs w') path = Found n) /\
       forall city, In city Setup.cities ->
         exists n, stat (fs w') (path // city) = Found n).
Proof.
  split; [| split].
  - intros w p n Hp.
    assert (Hg : grows (HourlyPaths.make_needed_directories E))
      by (apply grows_for_each; intros path; apply grows_hourly_body).
    apply (Hg w), Hp.
  - intros w w' w'' Hrun Hext.
    assert (Hs : settles (HourlyPaths.make_needed_directories E)).
    { apply settles_for_each; intros path; [apply grows_hourly_body |].
      apply settles_seq; [apply settles_mkdir_if_missing | |].
      - apply grows_for_each. intros city. apply grows_mkdir_if_missing.
      - apply settles_for_each; intros city;
          [apply grows_mkdir_if_missing | apply settles_mkdir_if_missing]. }
    exact (Hs w w' Hrun w'' Hext).
  - intros w w'. unfold HourlyPaths.make_needed_directories.
    apply (for_each_establishes (fun path w =>
      (exists n, stat (fs w) path = Found n) /\
      forall city, In city Setup.cities ->
        exists n, stat (fs w) (path // city) = Found n)).
    + apply grows_hourly_body.
    + intros path w0 w2 _ Hbody.
      apply bind_Return_inv in Hbody as ([] & w1 & Hmk & Hcities).
      assert (H12 : extends w1 w2).
      { pose proof (grows_for_each Setup.cities
                      (fun city => Setup.mkdir_if_missing (path // city))
                      (fun city => grows_mkdir_if_missing (path // city)) w1) as (He & _).
        rewrite Hcities in He. exact He. }
      split.
      * destruct (mkdir_if_missing_found path w0 w1 Hmk) as [n Hn].
        exists n. apply H12, Hn.
      * revert Hcities.
        apply (for_each_establishes (fun city w =>
                 exists n, stat (fs w) (path // city) = Found n)).
        -- intros c. apply grows_mkdir_if_missing.
        -- intros c wa wb _ Hc. apply (mkdir_if_missing_found _ _ _ Hc).
        -- intros c wa wb [n Hn] Hext. exists n. apply Hext, Hn.
    + intros path wa wb [[n Hn] Hc] Hext. split; [exists n; apply Hext, Hn |].
      intros city Hcity. destruct (Hc city Hcity) as [m Hm]. exists m. apply Hext, Hm.
Qed.

Lemma hourly_bootstrap_witness :
  let first := HourlyPaths.make_needed_directories Scenario.offline
                 (Scenario.start Scenario.bare_disk) in
  fst first = Return tt /\
  stat (fs (snd first)) ["srv"; "bikes"] = Found Dir /\
  HourlyPaths.make_needed_directories Scenario.offline (snd first) = (Return tt, snd first).
Proof.
  assert (Hf : fst (HourlyPaths.make_needed_directories Scenario.offline
                      (Scenario.start Scenario.bare_disk)) = Return tt)
    by (vm_compute; reflexivity).
  destruct (hourly_bootstrap Scenario.offline) as (Hadds & Hagain & _).
  split; [exact Hf | split].
  - apply Hadds. vm_compute. reflexivity.
  - apply (Hagain (Scenario.start Scenario.bare_disk)
             (snd (HourlyPaths.make_needed_directories Scenario.offline
                     (Scenario.start Scenario.bare_disk)))).
    + destruct (HourlyPaths.make_needed_directories Scenario.offline
                  (Scenario.start Scenario.bare_disk)) as [r w'].
      simpl in Hf. rewrite Hf. reflexivity.
    + intros p n H. exact H.
Defined.

(** ** Writing and extracting an archive *)

Lemma all_chars_app (P : ascii -> bool) (a b : string) :
  all_chars P (a +:+ b) = all_chars P a && all_chars P b.
Proof.
  induction a as [|c a IH]; [reflexivity |].
  rewrite append_cons, !all_chars_cons, IH. apply andb_assoc.
Qed.

Lemma split_by_plain (cur s : string) :
  all_chars not_slash s = true -> split_by is_slash cur s = [cur +:+ s].
Proof.
  revert cur. induction s as [|c s IH]; intros cur H.
  - simpl. rewrite append_nil_r. reflexivity.
  - rewrite all_chars_cons in H. apply andb_prop in H as [Hc H].
    unfold not_slash in Hc. simpl. destruct (is_slash c); [discriminate |].
    rewrite (IH _ H), append_assoc. reflexivity.
Qed.

Lemma parts_plain (s : string) :
  all_chars not_slash s = true -> s <> "" -> s <> "." -> parts s = [s].
Proof.
  intros H Hne Hdot. unfold parts, split_slash.
  rewrite (split_by_plain "" s H), append_nil_l.
  simpl. unfold is_part.
  destruct (String.eqb_spec s ""); [contradiction |].
  destruct (String.eqb_spec s "."); [contradiction |]. reflexivity.
Qed.

Lemma is_absolute_plain (s : string) : all_chars not_slash s = true -> is_absolute s = false.
Proof.
  destruct s as [|c s]; [reflexivity |]. rewrite all_chars_cons.
  unfold not_slash. simpl. destruct (is_slash c); [discriminate | reflexivity].
Qed.

Lemma joinpath_plain (p : Path) (s : string) :
  all_chars not_slash s = true -> s <> "" -> s <> "." -> p // s = (p ++ [s])%list.
Proof.
  intros H Hne Hdot. unfold joinpath.
  rewrite (is_absolute_plain s H), (parts_plain s H Hne Hdot). reflexivity.
Qed.

Lemma substring_prefix (a b : string) : substring 0 (String.length a) (a +:+ b) = a.
Proof.
  induction a as [|c a IH]; [destruct b; reflexivity |].
  rewrite append_cons. simpl. f_equal. exact IH.
Qed.

Lemma drop_last4_zip (base : string) : drop_last4 (base +:+ ".zip") = base.
Proof.
  unfold drop_last4. rewrite length_append.
  replace (String.length base + String.length ".zip" - 4)%nat with (String.length base)
    by (simpl; lia).
  apply substring_prefix.
Qed.

Lemma append_longer (base ext other : string) :
  (String.length other < String.length ext)%nat -> base +:+ ext <> other.
Proof.
  intros Hlen Heq. apply (f_equal String.length) in Heq.
  rewrite length_append in Heq. lia.
Qed.

Lemma append_not_self (base ext : string) : ext <> "" -> base +:+ ext <> base.
Proof.
  intros Hne Heq. apply (f_equal String.length) in Heq.
  rewrite length_append in Heq. destruct ext; [contradiction | simpl in Heq; lia].
Qed.

(** The paths [write_and_extract_zipfile] works on, for an archive
    named after a file name proper. *)
Lemma extraction_paths (E : env) (base : string) :
  simple_name base ->
  Hourly.RAW_DATA_DIR E // (base +:+ ".zip")
    = (Hourly.RAW_DATA_DIR E ++ [base +:+ ".zip"])%list /\
  Hourly.RAW_DATA_DIR E // drop_last4 (base +:+ ".zip")
    = (Hourly.RAW_DATA_DIR E ++ [base])%list /\
  List.filter is_arc_part (split_slash (drop_last4 (base +:+ ".zip") +:+ ".csv"))
    = [base +:+ ".csv"] /\
  dataset_path E base = (Hourly.RAW_DATA_DIR E ++ [base; base +:+ ".csv"])%list.
Proof.
  intros (Hne & Hplain & Hdot & Hdots).
  assert (Hzip : all_chars not_slash (base +:+ ".zip") = true)
    by (rewrite all_chars_app, Hplain; reflexivity).
  assert (Hcsv : all_chars not_slash (base +:+ ".csv") = true)
    by (rewrite all_chars_app, Hplain; reflexivity).
  rewrite drop_last4_zip. split; [| split; [| split]].
  - apply joinpath_plain; [exact Hzip | |]; apply append_longer; simpl; lia.
  - apply joinpath_plain; assumption.
  - unfold split_slash. rewrite (split_by_plain "" _ Hcsv), append_nil_l.
    simpl. unfold is_arc_part.
    destruct (String.eqb_spec (base +:+ ".csv") "") as [H |];
      [apply append_longer in H; [contradiction | simpl; lia] |].
    destruct (String.eqb_spec (base +:+ ".csv") ".") as [H |];
      [apply append_longer in H; [contradiction | simpl; lia] |].
    destruct (String.eqb_spec (base +:+ ".csv") "..") as [H |];
      [apply append_longer in H; [contradiction | simpl; lia] |].
    reflexivity.
  - unfold dataset_path, joinpath.
    rewrite is_absolute_append by assumption.
    rewrite (is_absolute_plain base Hplain), parts_join.
    rewrite (parts_plain base Hplain Hne Hdot), (parts_plain _ Hcsv).
    + reflexivity.
    + apply append_longer. simpl. lia.
    + apply append_longer. simpl. lia.
Qed.

Lemma write_bytes_new (p : Path) (c data : string) (w : world) :
  stat (fs w) p = Found Dir ->
  fs w !! (p ++ [c]) = None ->
  write_bytes (p ++ [c]) data w
  = (Return tt, with_fs w (<[p ++ [c] := File data]> (fs w))).
Proof.
  intros Hp Hc. unfold write_bytes, bind, get_fs, put_fs. simpl.
  rewrite (stat_child _ _ c Hp), Hc, removelast_snoc, Hp. reflexivity.
Qed.

Lemma write_bytes_no_parent (p : Path) (c data : string) (w : world) :
  stat (fs w) p = Missing ->
  write_bytes (p ++ [c]) data w = (Raise (FileNotFoundError (p ++ [c])), w).
Proof.
  intros Hp. unfold write_bytes, bind, get_fs, raise. simpl.
  rewrite (stat_below_missing _ _ [c] Hp), removelast_snoc, Hp. reflexivity.
Qed.

Lemma ZipFile_at (E : env) (p : Path) (body : string) (w : world) :
  stat (fs w) p = Found (File body) ->
  ZipFile E p w
  = (match read_zip E body with Some members => Return members | None => Raise BadZipFile end,
     w).
Proof.
  intros Hp. unfold ZipFile, read_bytes, bind, get_fs, ret, raise. simpl. rewrite Hp.
  destruct (read_zip E body); reflexivity.
Qed.

Lemma for_each_app {A} (xs ys : list A) (body : A -> M unit) (w : world) :
  for_each (xs ++ ys) body w = (for_each xs body >> for_each ys body) w.
Proof.
  revert w. induction xs as [|x xs IH]; intros w; [reflexivity |].
  simpl. unfold bind. destruct (body x w) as [[[] | e] w1]; [| reflexivity].
  rewrite IH. reflexivity.
Qed.

Lemma prefixes_app (seen a b : Path) :
  prefixes seen (a ++ b) = (prefixes seen a ++ prefixes (seen ++ a) b)%list.
Proof.
  revert seen. induction a as [|c a IH]; intros seen.
  - rewrite app_nil_r. reflexivity.
  - simpl. rewrite IH, <- app_assoc. reflexivity.
Qed.

(** [os.makedirs] leaves alone the ancestors that are there. *)
Lemma makedirs_skips (seen rest : Path) (w : world) (n : node) :
  stat (fs w) (seen ++ rest) = Found n ->
  for_each (prefixes seen rest)
    (fun q => let* b := path_exists q in if b then ret tt else os_mkdir q) w
  = (Return tt, w).
Proof.
  revert seen. induction rest as [|c rest IH]; intros seen H; [reflexivity |].
  simpl.
  assert (Hc : exists m, stat (fs w) (seen ++ [c]) = Found m).
  { destruct rest as [|d rest]; [eauto |].
    exists Dir. apply (stat_above_found _ _ d rest n).
    rewrite <- app_assoc. exact H. }
  destruct Hc as [m Hm].
  unfold bind at 1. unfold bind at 1, path_exists at 1, bind at 1, get_fs, ret. simpl.
  rewrite Hm. apply IH. rewrite <- app_assoc. exact H.
Qed.

Lemma os_mkdir_new (p : Path) (c : string) (w : world) :
  stat (fs w) p = Found Dir ->
  fs w !! (p ++ [c]) = None ->
  os_mkdir (p ++ [c]) w = (Return tt, with_fs w (<[p ++ [c] := Dir]> (fs w))).
Proof.
  intros Hp Hc. unfold os_mkdir, bind, get_fs, put_fs. simpl.
  rewrite (stat_child _ _ c Hp), Hc, removelast_snoc, Hp. reflexivity.
Qed.

Lemma makedirs_child (p : Path) (c : string) (w : world) :
  stat (fs w) p = Found Dir ->
  fs w !! (p ++ [c]) = None ->
  os_makedirs (p ++ [c]) w = (Return tt, with_fs w (<[p ++ [c] := Dir]> (fs w))).
Proof.
  intros Hp Hc. unfold os_makedirs. rewrite prefixes_app, for_each_app.
  unfold bind at 1. rewrite (makedirs_skips [] p w Dir Hp). simpl.
  unfold bind at 1. unfold bind at 1, path_exists at 1, bind at 1, get_fs, ret. simpl.
  rewrite (stat_child _ _ c Hp), Hc.
  unfold bind. rewrite (os_mkdir_new p c w Hp Hc). reflexivity.
Qed.

Lemma write_and_extract_fresh (E : env) (base : string) (response : Response)
    (keep_zipfile : bool) (members : list (string * string)) (data : string) (w : world) :
  simple_name base ->
  stat (fs w) (Hourly.RAW_DATA_DIR E) = Found Dir ->
  fs w !! (Hourly.RAW_DATA_DIR E ++ [base +:+ ".zip"]) = None ->
  fs w !! (Hourly.RAW_DATA_DIR E ++ [base]) = None ->
  fs w !! (Hourly.RAW_DATA_DIR E ++ [base; base +:+ ".csv"]) = None ->
  read_zip E (content response) = Some members ->
  getinfo members (base +:+ ".csv") = Some data ->
  Hourly.write_and_extract_zipfile E (base +:+ ".zip") response keep_zipfile w
  = (Return tt,
     with_fs w
       (let extracted :=
          <[Hourly.RAW_DATA_DIR E ++ [base; base +:+ ".csv"] := File data]>
            (<[Hourly.RAW_DATA_DIR E ++ [base] := Dir]> (fs w)) in
        if keep_zipfile
        then <[Hourly.RAW_DATA_DIR E ++ [base +:+ ".zip"] := File (content response)]>
               extracted
        else extracted)).
Proof.
  intros Hbase Hraw Hzip Hdir Hcsv Hread Hinfo.
  destruct (extraction_paths E base Hbase) as (Pz & Pd & Parc & _).
  set (R := Hourly.RAW_DATA_DIR E) in *.
  set (Z := (R ++ [base +:+ ".zip"])%list) in *.
  set (D := (R ++ [base])%list) in *.
  assert (HT : (R ++ [base; base +:+ ".csv"])%list = (D ++ [base +:+ ".csv"])%list)
    by (unfold D; rewrite <- app_assoc; reflexivity).
  rewrite HT in *. set (T := (D ++ [base +:+ ".csv"])%list) in *.
  assert (HZD : Z <> D).
  { unfold Z, D. intros H. apply app_inv_head in H. injection H as H.
    apply (append_not_self base ".zip") in H; [exact H | discriminate]. }
  assert (HTZ : T <> Z).
  { intros H. apply (f_equal List.length) in H. unfold T, Z, D in H.
    rewrite !length_app in H. simpl in H. lia. }
  assert (HTD : T <> D).
  { intros H. apply (f_equal List.length) in H. unfold T in H.
    rewrite !length_app in H. simpl in H. lia. }
  assert (HZR : ~ Z `prefix_of` R) by apply prefix_snoc_not.
  assert (HDZ : ~ D `prefix_of` Z).
  { intros H. apply HZD. symmetry. apply (prefix_length_eq _ _ H).
    unfold Z, D. rewrite !length_app. simpl. lia. }
  assert (HTZp : ~ T `prefix_of` Z).
  { intros H. apply prefix_length in H. unfold T, Z, D in H.
    rewrite !length_app in H. simpl in H. lia. }
  set (f1 := <[Z := File (content response)]> (fs w)).
  set (f2 := <[D := Dir]> f1).
  set (f3 := <[T := File data]> f2).
  assert (Hraw1 : stat f1 R = Found Dir)
    by (unfold f1; rewrite stat_insert_other; assumption).
  assert (HZ1 : stat f1 Z = Found (File (content response)))
    by (apply stat_insert_child, Hraw).
  assert (HD1 : f1 !! D = None)
    by (unfold f1; rewrite lookup_insert_ne; assumption).
  assert (HD2 : stat f2 D = Found Dir) by (apply stat_insert_child, Hraw1).
  assert (HT2 : f2 !! T = None).
  { unfold f2, f1. rewrite !lookup_insert_ne by congruence. exact Hcsv. }
  assert (HZ3 : stat f3 Z = Found (File (content response))).
  { unfold f3, f2. rewrite !stat_insert_other by assumption. exact HZ1. }
  assert (S1 : write_bytes Z (content response) w = (Return tt, with_fs w f1))
    by exact (write_bytes_new R _ _ w Hraw Hzip).
  assert (S2 : ZipFile E Z (with_fs w f1) = (Return members, with_fs w f1)).
  { rewrite (ZipFile_at E Z (content response) (with_fs w f1) HZ1), Hread. reflexivity. }
  assert (S3 : path_exists D (with_fs w f1) = (Return false, with_fs w f1)).
  { unfold path_exists, bind, get_fs, ret. simpl. unfold D.
    rewrite (stat_child f1 R base Hraw1). fold D. rewrite HD1. reflexivity. }
  assert (S4 : os_makedirs D (with_fs w f1) = (Return tt, with_fs w f2))
    by exact (makedirs_child R base (with_fs w f1) Hraw1 HD1).
  assert (S5 : write_bytes T data (with_fs w f2) = (Return tt, with_fs w f3))
    by exact (write_bytes_new D _ data (with_fs w f2) HD2 HT2).
  assert (S6 : os_remove Z (with_fs w f3) = (Return tt, with_fs w (delete Z f3))).
  { unfold os_remove, bind, get_fs, put_fs. simpl. rewrite HZ3. reflexivity. }
  assert (S345 : extract members (base +:+ ".csv") D (with_fs w f1)
                 = (Return tt, with_fs w f3)).
  { unfold extract. rewrite Hinfo. rewrite drop_last4_zip in Parc. rewrite Parc.
    fold T. replace (removelast T) with D by (unfold T; symmetry; apply removelast_snoc).
    unfold bind at 1. rewrite S3. unfold bind. rewrite S4, S5. reflexivity. }
  unfold Hourly.write_and_extract_zipfile. fold R. rewrite Pz, Pd, drop_last4_zip.
  fold Z D. unfold bind. rewrite S1, S2, S345.
  destruct keep_zipfile.
  - unfold ret. f_equal. f_equal. unfold f3, f2, f1.
    rewrite (insert_insert_ne _ D Z) by congruence.
    rewrite (insert_insert_ne _ T Z) by congruence. reflexivity.
  - rewrite S6. f_equal. f_equal. unfold f3, f2, f1.
    rewrite !delete_insert_ne by congruence.
    rewrite delete_insert_id by exact Hzip. reflexivity.
Qed.

(** X5. An archive written and extracted on a disk that has none of its
    three paths yet: the call returns, the folder named after the
    archive holds the member named after it, with the bytes the
    archive gives for it, and the archive file is there only if it was
    to be kept; nothing else changes. *)
Theorem extraction_on_fresh_disk (E : env) (base : string) (response : Response)
    (keep_zipfile : bool) (members : list (string * string)) (data : string) (w : world) :
  simple_name base ->
  stat (fs w) (Hourly.RAW_DATA_DIR E) = Found Dir ->
  fs w !! (Hourly.RAW_DATA_DIR E ++ [base +:+ ".zip"]) = None ->
  fs w !! (Hourly.RAW_DATA_DIR E ++ [base]) = None ->
  fs w !! (Hourly.RAW_DATA_DIR E ++ [base; base +:+ ".csv"]) = None ->
  read_zip E (content response) = Some members ->
  getinfo members (base +:+ ".csv") = Some data ->
  Hourly.write_and_extract_zipfile E (base +:+ ".zip") response keep_zipfile w
  = (Return tt,
     with_fs w
       (let extracted :=
          <[Hourly.RAW_DATA_DIR E ++ [base; base +:+ ".csv"] := File data]>
            (<[Hourly.RAW_DATA_DIR E ++ [base] := Dir]> (fs w)) in
        if keep_zipfile
        then <[Hourly.RAW_DATA_DIR E ++ [base +:+ ".zip"] := File (content response)]>
               extracted
        else extracted)).
Proof. apply write_and_extract_fresh. Qed.

Lemma extraction_on_fresh_disk_witness :
  fst (Hourly.write_and_extract_zipfile Scenario.offline "202401-divvy-tripdata.zip"
         {| status_code := 200;
            content := Scenario.toy_zip "202401-divvy-tripdata.csv" Scenario.january_rides |}
         false (Scenario.start Scenario.laid_out))
  = Return tt.
Proof.
  refine (f_equal fst
            (extraction_on_fresh_disk Scenario.offline "202401-divvy-tripdata"
               {| status_code := 200;
                  content := Scenario.toy_zip "202401-divvy-tripdata.csv"
                               Scenario.january_rides |}
               false [("202401-divvy-tripdata.csv", Scenario.january_rides)]
               Scenario.january_rides (Scenario.start Scenario.laid_out)
               _ _ _ _ _ _ _)).
  - split; [discriminate | split; [reflexivity | split; discriminate]].
  - vm_compute. reflexivity.
  - vm_compute. reflexivity.
  - vm_compute. reflexivity.
  - vm_compute. reflexivity.
  - vm_compute. reflexivity.
  - vm_compute. reflexivity.
Defined.

(** X6. When the archive cannot be used the call raises and leaves it
    behind: a body that is no archive gives [BadZipFile], an archive
    without the member named after it gives the [KeyError] of
    [getinfo], whose argument is the sentence that quotes the member
    name, and in both cases the body just written stays at the
    archive path, whatever [keep_zipfile] says; without the raw-data
    directory nothing is written and the call raises
    [FileNotFoundError]. *)
Theorem extraction_failures (E : env) (base : string) (response : Response)
    (keep_zipfile : bool) (w : world) :
  simple_name base ->
  (stat (fs w) (Hourly.RAW_DATA_DIR E) = Missing ->
   Hourly.write_and_extract_zipfile E (base +:+ ".zip") response keep_zipfile w
   = (Raise (FileNotFoundError (Hourly.RAW_DATA_DIR E ++ [base +:+ ".zip"])), w)) /\
  (stat (fs w) (Hourly.RAW_DATA_DIR E) = Found Dir ->
   fs w !! (Hourly.RAW_DATA_DIR E ++ [base +:+ ".zip"]) = None ->
   (read_zip E (content response) = None ->
    Hourly.write_and_extract_zipfile E (base +:+ ".zip") response keep_zipfile w
    = (Raise BadZipFile,
       with_fs w (<[Hourly.RAW_DATA_DIR E ++ [base +:+ ".zip"]
                    := File (content response)]> (fs w)))) /\
   (forall members,
      read_zip E (content response) = Some members ->
      getinfo members (base +:+ ".csv") = None ->
      Hourly.write_and_extract_zipfile E (base +:+ ".zip") response keep_zipfile w
      = (Raise (KeyError ("There is no item named " +:+ repr (base +:+ ".csv")
                          +:+ " in the archive")),
         with_fs w (<[Hourly.RAW_DATA_DIR E ++ [base +:+ ".zip"]
                      := File (content response)]> (fs w))))).
Proof.
  intros Hbase.
  destruct (extraction_paths E base Hbase) as (Pz & Pd & _ & _).
  set (R := Hourly.RAW_DATA_DIR E) in *.
  set (Z := (R ++ [base +:+ ".zip"])%list) in *.
  split.
  - intros Hraw. unfold Hourly.write_and_extract_zipfile. fold R. rewrite Pz.
    unfold bind at 1. unfold Z. rewrite (write_bytes_no_parent R _ _ w Hraw). reflexivity.
  - intros Hraw Hzip.
    set (f1 := <[Z := File (content response)]> (fs w)).
    assert (HZ1 : stat f1 Z = Found (File (content response)))
      by (apply stat_insert_child, Hraw).
    assert (S1 : write_bytes Z (content response) w = (Return tt, with_fs w f1))
      by exact (write_bytes_new R _ _ w Hraw Hzip).
    split.
    + intros Hread. unfold Hourly.write_and_extract_zipfile. fold R. rewrite Pz. fold Z.
      unfold bind. rewrite S1.
      rewrite (ZipFile_at E Z (content response) (with_fs w f1) HZ1), Hread. reflexivity.
    + intros members Hread Hinfo.
      unfold Hourly.write_and_extract_zipfile. fold R. rewrite Pz, drop_last4_zip. fold Z.
      unfold bind. rewrite S1.
      rewrite (ZipFile_at E Z (content response) (with_fs w f1) HZ1), Hread.
      unfold extract. rewrite Hinfo. reflexivity.
Qed.

Lemma extraction_failures_witness :
  let page := {| status_code := 404; content := "NoSuchKey" |} in
  let other := {| status_code := 200;
                  content := Scenario.toy_zip "rides.csv" Scenario.january_rides |} in
  fst (Hourly.write_and_extract_zipfile Scenario.offline "202401-divvy-tripdata.zip"
         page true (Scenario.start Scenario.laid_out))
  = Raise BadZipFile /\
  fst (Hourly.write_and_extract_zipfile Scenario.offline "202401-divvy-tripdata.zip"
         other false (Scenario.start Scenario.laid_out))
  = Raise (KeyError "There is no item named '202401-divvy-tripdata.csv' in the archive") /\
  fst (Hourly.write_and_extract_zipfile Scenario.offline "202401-divvy-tripdata.zip"
         other false (Scenario.start Scenario.bare_disk))
  = Raise (FileNotFoundError (Scenario.raw ++ ["202401-divvy-tripdata.zip"])).
Proof.
  assert (Hbase : simple_name "202401-divvy-tripdata")
    by (split; [discriminate | split; [reflexivity | split; discriminate]]).
  split; [| split].
  - destruct (extraction_failures Scenario.offline "202401-divvy-tripdata"
                {| status_code := 404; content := "NoSuchKey" |} true
                (Scenario.start Scenario.laid_out) Hbase) as [_ H].
    destruct H as [Hbad _]; [vm_compute; reflexivity | vm_compute; reflexivity |].
    exact (f_equal fst (Hbad ltac:(vm_compute; reflexivity))).
  - destruct (extraction_failures Scenario.offline "202401-divvy-tripdata"
                {| status_code := 200;
                   content := Scenario.toy_zip "rides.csv" Scenario.january_rides |} false
                (Scenario.start Scenario.laid_out) Hbase) as [_ H].
    destruct H as [_ Hkey]; [vm_compute; reflexivity | vm_compute; reflexivity |].
    exact (f_equal fst (Hkey [("rides.csv", Scenario.january_rides)]
                          ltac:(vm_compute; reflexivity) ltac:(vm_compute; reflexivity))).
  - destruct (extraction_failures Scenario.offline "202401-divvy-tripdata"
                {| status_code := 200;
                   content := Scenario.toy_zip "rides.csv" Scenario.january_rides |} false
                (Scenario.start Scenario.bare_disk) Hbase) as [H _].
    exact (f_equal fst (H ltac:(vm_compute; reflexivity))).
Defined.

(** X7. Round trip: after an archive has been written and extracted on
    a fresh disk, the hourly loader asked for the name of the archive
    yields, for every month of its list, the frame parsed from the
    bytes of the member, and leaves the disk as the extraction left
    it. *)
Theorem extraction_then_load (E : env) (self : Hourly.DataDownloader) (base : string)
    (response : Response) (keep_zipfile : bool) (members : list (string * string))
    (data : string) (d : DataFrame) (months : list Z) (w : world) :
  simple_name base ->
  stat (fs w) (Hourly.RAW_DATA_DIR E) = Found Dir ->
  fs w !! (Hourly.RAW_DATA_DIR E ++ [base +:+ ".zip"]) = None ->
  fs w !! (Hourly.RAW_DATA_DIR E ++ [base]) = None ->
  fs w !! (Hourly.RAW_DATA_DIR E ++ [base; base +:+ ".csv"]) = None ->
  read_zip E (content response) = Some members ->
  getinfo members (base +:+ ".csv") = Some data ->
  parse_csv E data = Some d ->
  exists w1 w2,
    Hourly.write_and_extract_zipfile E (base +:+ ".zip") response keep_zipfile w
      = (Return tt, w1) /\
    Hourly.load_loop E self base months w1 = (Return (repeat d (List.length months)), w2) /\
    fs w2 = fs w1.
Proof.
  intros Hbase Hraw Hzip Hdir Hcsv Hread Hinfo Hparse.
  pose proof (write_and_extract_fresh E base response keep_zipfile members data w
                Hbase Hraw Hzip Hdir Hcsv Hread Hinfo) as Hrun.
  destruct (extraction_paths E base Hbase) as (_ & Pd & _ & Pt).
  rewrite drop_last4_zip in Pd.
  set (R := Hourly.RAW_DATA_DIR E) in *.
  set (Z := (R ++ [base +:+ ".zip"])%list) in *.
  set (D := (R ++ [base])%list) in *.
  assert (HT : (R ++ [base; base +:+ ".csv"])%list = (D ++ [base +:+ ".csv"])%list)
    by (unfold D; rewrite <- app_assoc; reflexivity).
  rewrite HT in *. set (T := (D ++ [base +:+ ".csv"])%list) in *.
  set (F := if keep_zipfile
            then <[Z := File (content response)]> (<[T := File data]> (<[D := Dir]> (fs w)))
            else <[T := File data]> (<[D := Dir]> (fs w))) in *.
  assert (HZD : ~ Z `prefix_of` D).
  { intros H. apply (snoc_prefix_snoc R _ base []) in H.
    apply (append_not_self base ".zip") in H; [exact H | discriminate]. }
  assert (HZT : ~ Z `prefix_of` T).
  { intros H. unfold T, D in H. rewrite <- app_assoc in H.
    apply (snoc_prefix_snoc R _ base _) in H.
    apply (append_not_self base ".zip") in H; [exact H | discriminate]. }
  assert (HTD : ~ T `prefix_of` D) by apply prefix_snoc_not.
  assert (HD0 : stat (<[D := Dir]> (fs w)) D = Found Dir)
    by (apply stat_insert_child, Hraw).
  assert (HFD : stat F D = Found Dir).
  { unfold F. destruct keep_zipfile; rewrite ?stat_insert_other by assumption; exact HD0. }
  assert (HFT : stat F T = Found (File data)).
  { unfold F. destruct keep_zipfile; rewrite ?(stat_insert_other _ Z) by assumption;
      apply stat_insert_child, HD0. }
  destruct (loop_when_present E self base months (with_fs w F) Dir) as (w2 & Hloop & Hfs).
  { simpl. fold R. rewrite Pd. exact HFD. }
  exists (with_fs w F), w2. split; [exact Hrun | split; [| exact Hfs]].
  rewrite Hloop. unfold frame_at. simpl fs. rewrite Pt, HFT, Hparse. reflexivity.
Qed.

Lemma extraction_then_load_witness :
  exists w1 w2,
    Hourly.write_and_extract_zipfile Scenario.offline "202401-divvy-tripdata.zip"
      {| status_code := 200;
         content := Scenario.toy_zip "202401-divvy-tripdata.csv" Scenario.january_rides |}
      false (Scenario.start Scenario.laid_out)
    = (Return tt, w1) /\
    Hourly.load_loop Scenario.offline (hourly "chicago" 2024) "202401-divvy-tripdata"
      [1; 2; 3] w1
    = (Return (repeat [["ride_id"; "rideable_type"]; ["A1"; "classic_bike"]] 3), w2) /\
    fs w2 = fs w1.
Proof.
  apply (extraction_then_load Scenario.offline (hourly "chicago" 2024)
           "202401-divvy-tripdata"
           {| status_code := 200;
              content := Scenario.toy_zip "202401-divvy-tripdata.csv"
                           Scenario.january_rides |}
           false [("202401-divvy-tripdata.csv", Scenario.january_rides)]
           Scenario.january_rides
           [["ride_id"; "rideable_type"]; ["A1"; "classic_bike"]] [1; 2; 3]
           (Scenario.start Scenario.laid_out)).
  - split; [discriminate | split; [reflexivity | split; discriminate]].
  - vm_compute. reflexivity.
  - vm_compute. reflexivity.
  - vm_compute. reflexivity.
  - vm_compute. reflexivity.
  - vm_compute. reflexivity.
  - vm_compute. reflexivity.
  - vm_compute. reflexivity.
Defined.

(** ** The batch loader on a disk that has the data *)

Lemma data_file_exists_eq (E : env) (self : Batch.DataDownloader) (file_name : string)
    (w : world) :
  Batch.data_file_exists E self file_name w
  = (Return match stat (fs w) (Batch.RAW_DATA_DIR E // Batch.city_name self // file_name) with
            | Found _ => true
            | _ => false
            end, w).
Proof. reflexivity. Qed.

Lemma cached_loop (E : env) (self : Batch.DataDownloader) (data : DataFrame)
    (name : Z -> string) (months : list Z) (w : world) :
  (forall m, In m months ->
     Batch.get_data_file_name self m = Return (name m) /\
     fst (Batch.data_file_exists E self (name m) w) = Return true) ->
  Batch.load_loop E self true data months w
  = (Return None,
     {| fs := fs w;
        log := log w ++ map (fun m => (SUCCESS, Msg (name m +:+ " is already saved to disk")))
                          months;
        sent := sent w |}).
Proof.
  revert w. induction months as [|m months IH]; intros w Hall.
  - simpl. unfold ret. rewrite app_nil_r. destruct w; reflexivity.
  - destruct (Hall m (or_introl eq_refl)) as [Hname Hcached].
    cbn [Batch.load_loop]. unfold bind at 1, lift. rewrite Hname.
    unfold bind at 1. rewrite data_file_exists_eq in *. simpl in Hcached.
    destruct (stat (fs w) _) as [n | |] eqn:Hstat; try discriminate.
    unfold bind at 1. unfold logger at 1.
    rewrite IH.
    + simpl. rewrite <- app_assoc. reflexivity.
    + intros m' Hm'. destruct (Hall m' (or_intror Hm')) as [Hn Hc].
      split; [exact Hn |]. rewrite data_file_exists_eq in *. exact Hc.
Qed.

(** The whole method on cached months: the bootstrap runs first and
    may add directories; what was cached before it is cached after
    it. *)
Lemma cached_load (E : env) (self : Batch.DataDownloader) (name : Z -> string)
    (months : option (list Z)) (w w1 : world) :
  Setup.make_needed_directories E w = (Return tt, w1) ->
  (forall m, In m (months_to_query_for E (Batch.year self) months) ->
     Batch.get_data_file_name self m = Return (name m) /\
     fst (Batch.data_file_exists E self (name m) w) = Return true) ->
  Batch.load_raw_data E self true months w
  = (Return None,
     {| fs := fs w1;
        log := log w ++ map (fun m => (SUCCESS, Msg (name m +:+ " is already saved to disk")))
                          (months_to_query_for E (Batch.year self) months);
        sent := sent w |}).
Proof.
  intros Hboot Hall.
  pose proof (grows_setup E w) as (Hext & Hlog & Hsent). rewrite Hboot in Hext, Hlog, Hsent.
  simpl in Hext, Hlog, Hsent.
  unfold Batch.load_raw_data, bind. rewrite Hboot.
  rewrite (cached_loop E self [] name).
  - rewrite Hlog, Hsent. reflexivity.
  - intros m Hm. destruct (Hall m Hm) as [Hname Hcached]. split; [exact Hname |].
    rewrite data_file_exists_eq in *. simpl in Hcached |- *.
    destruct (stat (fs w) _) as [n | |] eqn:Hstat; try discriminate.
    rewrite (Hext _ n Hstat). reflexivity.
Qed.

(** X8. A download-only call of [load_raw_data] of the batch module
    for months whose data are all where the cache check looks. The
    directory bootstrap runs first: if it raises, the call raises the
    same exception and nothing is logged or sent. If it returns, no
    request is sent, the disk is the one the bootstrap left (it only
    adds directories), one success line is logged per month, in the
    order of the months, and the call returns [None]. *)
Theorem batch_cached_run (E : env) (self : Batch.DataDownloader)
    (name : Z -> string) (months : option (list Z)) (w : world) :
  (forall m, In m (months_to_query_for E (Batch.year self) months) ->
     Batch.get_data_file_name self m = Return (name m) /\
     fst (Batch.data_file_exists E self (name m) w) = Return true) ->
  (forall w1,
     Setup.make_needed_directories E w = (Return tt, w1) ->
     Batch.load_raw_data E self true months w
     = (Return None,
        {| fs := fs w1;
           log := log w ++
                  map (fun m => (SUCCESS, Msg (name m +:+ " is already saved to disk")))
                    (months_to_query_for E (Batch.year self) months);
           sent := sent w |}) /\
     extends w w1) /\
  (forall e w1,
     Setup.make_needed_directories E w = (Raise e, w1) ->
     Batch.load_raw_data E self true months w = (Raise e, w1) /\
     log w1 = log w /\ sent w1 = sent w).
Proof.
  intros Hall. split.
  - intros w1 Hboot. split; [apply (cached_load E self name months w w1 Hboot Hall) |].
    pose proof (grows_setup E w) as (Hext & _). rewrite Hboot in Hext. exact Hext.
  - intros e w1 Hboot.
    pose proof (grows_setup E w) as (_ & Hlog & Hsent). rewrite Hboot in Hlog, Hsent.
    split; [| split; assumption].
    unfold Batch.load_raw_data, bind. rewrite Hboot. reflexivity.
Qed.

Lemma batch_cached_run_witness :
  let run := Batch.load_raw_data Scenario.offline (batch "chicago" 2024) true
               (Some [1; 3]) (Scenario.start Scenario.cached_1_3) in
  fst run = Return None /\
  sent (snd run) = [] /\
  log (snd run) = [(SUCCESS, Msg "202401-divvy-tripdata is already saved to disk");
                   (SUCCESS, Msg "202403-divvy-tripdata is already saved to disk")].
Proof.
  assert (H : forall m, In m [1; 3] ->
            Batch.get_data_file_name (batch "chicago" 2024) m
              = Return ((str 2024 +:+ format_02d m) +:+ "-divvy-tripdata") /\
            fst (Batch.data_file_exists Scenario.offline (batch "chicago" 2024)
                   ((str 2024 +:+ format_02d m) +:+ "-divvy-tripdata")
                   (Scenario.start Scenario.cached_1_3)) = Return true).
  { intros m [<- | [<- | []]]; split; vm_compute; reflexivity. }
  assert (Hf : fst (Setup.make_needed_directories Scenario.offline
                      (Scenario.start Scenario.cached_1_3)) = Return tt)
    by (vm_compute; reflexivity).
  destruct (batch_cached_run Scenario.offline (batch "chicago" 2024)
              (fun m => (str 2024 +:+ format_02d m) +:+ "-divvy-tripdata") (Some [1; 3])
              (Scenario.start Scenario.cached_1_3) H) as [Hreturns _].
  destruct (Hreturns (snd (Setup.make_needed_directories Scenario.offline
                             (Scenario.start Scenario.cached_1_3)))) as [Hrun _].
  { destruct (Setup.make_needed_directories Scenario.offline
                (Scenario.start Scenario.cached_1_3)) as [r w'].
    simpl in Hf. rewrite Hf. reflexivity. }
  split; [exact (f_equal fst Hrun) |].
  split; [exact (f_equal (fun r => sent (snd r)) Hrun) |].
  exact (f_equal (fun r => log (snd r)) Hrun).
Defined.

(** X9. When the batch loader is asked for the data and the cache
    check succeeds, what it reads is RAW_DATA_DIR/name/name.csv, which
    is not where the check looked (RAW_DATA_DIR/city/name): if that
    file holds a frame the call returns it, stacked below [data], and
    if there is no such file the call raises [FileNotFoundError]
    although the check said the data were on disk. In both cases one
    success line is logged and no later month is looked at. *)
Theorem batch_cached_read (E : env) (self : Batch.DataDownloader) (data : DataFrame)
    (month : Z) (rest : list Z) (file_name : string) (w : world) :
  Batch.get_data_file_name self month = Return file_name ->
  fst (Batch.data_file_exists E self file_name w) = Return true ->
  (forall d,
     frame_at E (fs w)
       (Batch.RAW_DATA_DIR E // (file_name +:+ "/" +:+ file_name +:+ ".csv")) = Some d ->
     Batch.load_loop E self false data (month :: rest) w
     = (Return (Some (data ++ d)%list),
        logged w SUCCESS (Msg (file_name +:+ " is already saved to disk")))) /\
  (stat (fs w) (Batch.RAW_DATA_DIR E // (file_name +:+ "/" +:+ file_name +:+ ".csv"))
     = Missing ->
   Batch.load_loop E self false data (month :: rest) w
   = (Raise (FileNotFoundError
               (Batch.RAW_DATA_DIR E // (file_name +:+ "/" +:+ file_name +:+ ".csv"))),
      logged w SUCCESS (Msg (file_name +:+ " is already saved to disk")))).
Proof.
  intros Hname Hcached.
  assert (Hstep : Batch.load_loop E self false data (month :: rest) w
    = bind (read_csv E (Batch.RAW_DATA_DIR E // (file_name +:+ "/" +:+ file_name +:+ ".csv")))
        (fun d => ret (Some (pd_concat data d)))
        (logged w SUCCESS (Msg (file_name +:+ " is already saved to disk")))).
  { cbn [Batch.load_loop]. unfold bind at 1, lift. rewrite Hname.
    unfold bind at 1. rewrite data_file_exists_eq in *. simpl in Hcached.
    destruct (stat (fs w) _) as [n | |]; try discriminate. reflexivity. }
  rewrite Hstep. split.
  - intros d Hd. unfold bind.
    assert (Hr : read_csv E (Batch.RAW_DATA_DIR E // (file_name +:+ "/" +:+ file_name +:+ ".csv"))
                   (logged w SUCCESS (Msg (file_name +:+ " is already saved to disk")))
                 = (Return d, logged w SUCCESS (Msg (file_name +:+ " is already saved to disk"))))
      by (apply read_csv_Return; split; [reflexivity | exact Hd]).
    rewrite Hr. reflexivity.
  - intros Hmiss. unfold bind, read_csv, read_bytes, bind, get_fs, raise. simpl.
    rewrite Hmiss. reflexivity.
Qed.

Lemma batch_cached_read_witness :
  fst (Batch.load_loop Scenario.offline (batch "chicago" 2024) false [] [1; 2]
         (Scenario.start Scenario.cached_1_3))
  = Raise (FileNotFoundError
             (Batch.RAW_DATA_DIR Scenario.offline
                // "202401-divvy-tripdata/202401-divvy-tripdata.csv")).
Proof.
  destruct (batch_cached_read Scenario.offline (batch "chicago" 2024) [] 1 [2]
              "202401-divvy-tripdata" (Scenario.start Scenario.cached_1_3)) as [_ H].
  - vm_compute. reflexivity.
  - vm_compute. reflexivity.
  - exact (f_equal fst (H ltac:(vm_compute; reflexivity))).
Defined.

(** ** The months of a call *)



(** ** Where the downloads go *)

Lemma take_until_head (stop : ascii -> bool) (s : string) :
  is_absolute s = true -> stop "/"%char = false ->
  is_absolute (take_until stop s) = true.
Proof.
  destruct s as [|c s]; [discriminate |]. simpl. unfold is_slash.
  destruct (Ascii.eqb_spec c "/"); [| discriminate]. subst c.
  intros _ ->. reflexivity.
Qed.

Lemma take_until_clean (stop : ascii -> bool) (s : string) :
  all_chars (fun c => negb (stop c)) (take_until stop s) = true.
Proof. apply take_until_all. Qed.

(** X10. The name [get_zipfile_name] returns is empty or starts with a
    slash, and has no newline; joined to a directory it therefore
    gives that directory itself or an absolute path that forgets the
    directory. The call leaves the world as it is. *)
Theorem zipfile_name_shape (url name : string) (w w' : world) (p : Path) :
  get_zipfile_name (Some url) w = (Return name, w') ->
  w' = w /\
  all_chars (fun c => negb (is_newline c)) name = true /\
  ((name = "" /\ p // name = p) \/ (is_absolute name = true /\ p // name = parts name)).
Proof.
  unfold get_zipfile_name, ret, raise.
  destruct (re_search_group1 url) as [found |] eqn:Hfound; [| discriminate].
  intros H. injection H as <- <-. split; [reflexivity |].
  assert (Hshape : exists s, found = take_until is_newline (drop_until is_slash s)).
  { clear p. induction url as [|c url IH]; [discriminate |].
    simpl in Hfound. destruct (is_slash c) eqn:Hc.
    - apply IH, Hfound.
    - injection Hfound as <-. exists (String c url). simpl. rewrite Hc. reflexivity. }
  destruct Hshape as [s ->]. split; [apply take_until_clean |].
  destruct (drop_until_head is_slash s) as [-> | (c & t & -> & Hc)].
  - left. split; [reflexivity |]. unfold joinpath. simpl. apply app_nil_r.
  - right.
    assert (Habs : is_absolute (take_until is_newline (String c t)) = true)
      by (apply take_until_head; [exact Hc | reflexivity]).
    split; [exact Habs |]. unfold joinpath. rewrite Habs. reflexivity.
Qed.

Lemma zipfile_name_shape_witness :
  Scenario.raw // "//s3.amazonaws.com/tripdata/202401-citibike-tripdata.zip"
  = ["s3.amazonaws.com"; "tripdata"; "202401-citibike-tripdata.zip"].
Proof.
  destruct (zipfile_name_shape
              "https://s3.amazonaws.com/tripdata/202401-citibike-tripdata.zip"
              "//s3.amazonaws.com/tripdata/202401-citibike-tripdata.zip"
              (Scenario.start Scenario.bare_disk) (Scenario.start Scenario.bare_disk)
              Scenario.raw eq_refl) as (_ & _ & [[H _] | [_ H]]).
  - discriminate H.
  - rewrite H. reflexivity.
Defined.

Lemma joinpath_absolute (p q : Path) (s : string) :
  is_absolute s = true -> p // s = q // s.
Proof. intros H. unfold joinpath. rewrite H. reflexivity. Qed.

Lemma is_absolute_drop_last4 (s : string) :
  is_absolute s = true -> (4 < String.length s)%nat -> is_absolute (drop_last4 s) = true.
Proof.
  destruct s as [|c s]; [discriminate |]. intros Hc Hlen. unfold drop_last4.
  simpl in Hlen. simpl String.length.
  destruct (S (String.length s) - 4)%nat as [|k] eqn:Hk; [lia |].
  simpl. exact Hc.
Qed.

Lemma drop_last4_not_empty (s : string) :
  (4 < String.length s)%nat -> drop_last4 s <> "".
Proof.
  destruct s as [|c s]; [simpl; lia |]. intros Hlen. unfold drop_last4.
  simpl in Hlen. simpl String.length.
  destruct (S (String.length s) - 4)%nat as [|k] eqn:Hk; [lia |].
  simpl. discriminate.
Qed.

Lemma re_search_https (s : string) :
  re_search_group1 ("https://" +:+ s) = Some ("//" +:+ take_until is_newline s).
Proof. reflexivity. Qed.

Lemma zipfile_name_https (s : string) (w : world) :
  get_zipfile_name (Some ("https://" +:+ s)) w
  = (Return ("//" +:+ take_until is_newline s), w).
Proof. reflexivity. Qed.

Lemma batch_url_shape (self : Batch.DataDownloader) (month : Z) (u : string)
    (w w1 : world) :
  Batch.get_url_for_city_data self month w = (Return (Some u), w1) ->
  exists head file_name,
    u = "https://" +:+ head +:+ file_name /\
    In head ["divvy-tripdata.s3.amazonaws.com/"; "s3.amazonaws.com/tripdata/";
             "cogo-sys-data.s3.amazonaws.com/"; "s3.amazonaws.com/capitalbikeshare-data/";
             "s3.amazonaws.com/biketown-tripdata-public/"].
Proof.
  unfold Batch.get_url_for_city_data.
  destruct (String.eqb (Batch.city_name self) "portland" && (Batch.year self >? 2020)).
  - unfold bind, logger, ret. discriminate.
  - unfold bind, lift, ret.
    destruct (Batch.get_data_file_name self month) as [file_name | e]; [| discriminate].
    unfold getitem.
    destruct (Batch.city_name_and_url_head !! Batch.city_name self) as [head |] eqn:Hhead;
      [| discriminate].
    intros H. injection H as <- _. exists head, file_name. split; [reflexivity |].
    unfold Batch.city_name_and_url_head in Hhead. apply elem_of_list_to_map_2 in Hhead.
    repeat (apply elem_of_cons in Hhead as [Hhead | Hhead];
            [injection Hhead as _ ->; simpl; tauto |]).
    apply elem_of_nil in Hhead. contradiction.
Qed.

(** X11. The batch downloader never works below RAW_DATA_DIR: the
    archive path, the extraction folder and the file it reads back
    are absolute paths made from the URL, so the outcome of a download
    is the same whatever the working directory (and with it
    RAW_DATA_DIR) is. *)
Theorem batch_download_ignores_cwd (E : env) (c : Path) (self : Batch.DataDownloader)
    (month : Z) (keep_zipfile : bool) (w : world) :
  Batch.download_one_file_of_raw_data (with_cwd c E) self month keep_zipfile w
  = Batch.download_one_file_of_raw_data E self month keep_zipfile w.
Proof.
  unfold Batch.download_one_file_of_raw_data, bind.
  destruct (Batch.get_url_for_city_data self month w) as [[[u |] | e] w1] eqn:Hurl;
    [| reflexivity | reflexivity].
  destruct (batch_url_shape self month u w w1 Hurl) as (head & file_name & -> & Hhead).
  rewrite !zipfile_name_https.
  set (zn := "//" +:+ take_until is_newline (head +:+ file_name)).
  assert (Habs : is_absolute zn = true) by reflexivity.
  assert (Hlen : (4 < String.length zn)%nat).
  { unfold zn. simpl in Hhead.
    destruct Hhead as [<- | [<- | [<- | [<- | [<- | []]]]]]; simpl; lia. }
  pose proof (is_absolute_drop_last4 zn Habs Hlen) as Habs'.
  pose proof (drop_last4_not_empty zn Hlen) as Hne.
  assert (Habs'' : is_absolute (drop_last4 zn +:+ "/" +:+ drop_last4 zn +:+ ".csv") = true)
    by (rewrite is_absolute_append; assumption).
  unfold Batch.RAW_DATA_DIR.
  rewrite (joinpath_absolute (Setup.RAW_DATA_DIR (with_cwd c E)) (Setup.RAW_DATA_DIR E)
             zn Habs).
  rewrite (joinpath_absolute (Setup.RAW_DATA_DIR (with_cwd c E)) (Setup.RAW_DATA_DIR E)
             (drop_last4 zn) Habs').
  rewrite (joinpath_absolute (Setup.RAW_DATA_DIR (with_cwd c E)) (Setup.RAW_DATA_DIR E)
             _ Habs'').
  reflexivity.
Qed.

(** ** The requests of the hourly module *)

Lemma plain_char_not_colon (c : ascii) :
  is_plain_url_char c = true -> Ascii.eqb (lower_ascii c) ":" = false.
Proof. destruct c as [[] [] [] [] [] [] [] []]; vm_compute; congruence. Qed.

Lemma plain_url_not_http (url : string) :
  all_chars is_plain_url_char (lstrip url) = true -> is_http_url url = false.
Proof.
  unfold is_http_url, all_chars.
  destruct (lstrip url) as [|c1 [|c2 [|c3 [|c4 [|c5 [|c6 r]]]]]]; simpl;
    rewrite ?andb_false_r; try reflexivity;
    intros H; repeat (apply andb_prop in H as [? H]);
    rewrite ?(plain_char_not_colon c5), ?(plain_char_not_colon c6) by assumption;
    simpl; rewrite ?andb_false_r; reflexivity.
Qed.

(** A URL of plain characters never reaches the network. *)
Lemma requests_get_plain (E : env) (url : string) (w : world) :
  all_chars is_plain_url_char (lstrip url) = true ->
  requests_get E url w = (Raise (MissingSchema (lstrip url)), w).
Proof.
  intros H. unfold requests_get. rewrite (plain_url_not_http url H).
  unfold all_chars in H. rewrite H. reflexivity.
Qed.

Lemma pretty_N_char_plain (d : N) : is_plain_url_char (pretty_N_char d) = true.
Proof. unfold pretty_N_char. repeat case_match; reflexivity. Qed.

Lemma pretty_N_go_plain (x : N) (s : string) :
  all_chars is_plain_url_char s = true ->
  all_chars is_plain_url_char (pretty_N_go x s) = true.
Proof.
  revert s. induction (N.lt_wf_0 x) as [x _ IH]; intros s Hs.
  assert (x = 0 \/ 0 < x)%N as [-> | Hx] by lia.
  - rewrite pretty_N_go_0. exact Hs.
  - rewrite pretty_N_go_step by exact Hx. apply IH.
    + apply N.div_lt; [exact Hx | reflexivity].
    + rewrite all_chars_cons, pretty_N_char_plain. exact Hs.
Qed.

Lemma str_plain (z : Z) : all_chars is_plain_url_char (str z) = true.
Proof.
  assert (HN : forall n : N, all_chars is_plain_url_char (pretty n) = true).
  { intros n. unfold pretty, pretty_N. case_decide; [reflexivity |].
    apply pretty_N_go_plain. reflexivity. }
  unfold str, pretty, pretty_Z. destruct z as [| p | p].
  - reflexivity.
  - apply (HN (Npos p)).
  - rewrite append_cons, append_nil_l, all_chars_cons. apply (HN (Npos p)).
Qed.

Lemma format_02d_plain (z : Z) : all_chars is_plain_url_char (format_02d z) = true.
Proof.
  unfold format_02d. destruct ((0 <=? z) && (z <? 10)).
  - rewrite append_cons, append_nil_l, all_chars_cons. apply str_plain.
  - apply str_plain.
Qed.

(** The URLs of the hourly module: no scheme, plain characters. *)
Lemma hourly_url_plain (self : Hourly.DataDownloader) (month : Z) (u : string)
    (w w1 : world) :
  Hourly.get_url_for_city_data self month w = (Return (Some u), w1) ->
  w1 = w /\ lstrip u = u /\ all_chars is_plain_url_char u = true /\
  exists zn, forall w2, get_zipfile_name (Some u) w2 = (Return zn, w2).
Proof.
  unfold Hourly.get_url_for_city_data.
  destruct (String.eqb (Hourly.city_name self) "portland" && (Hourly.year self >? 2020)).
  - unfold bind, logger, ret. discriminate.
  - unfold bind, lift, ret, Hourly.get_data_file_name, getitem.
    destruct (_ !! Hourly.city_name self) as [file_name |] eqn:Hname; [| discriminate].
    destruct (Hourly.city_name_and_url_head !! Hourly.city_name self) as [head |] eqn:Hhead;
      [| discriminate].
    intros H. injection H as <- <-. split; [reflexivity |].
    unfold Hourly.city_name_and_url_head in Hhead. apply elem_of_list_to_map_2 in Hhead.
    apply elem_of_list_to_map_2 in Hname.
    repeat (apply elem_of_cons in Hhead as [Hhead | Hhead];
            [injection Hhead as Hc ->; rewrite Hc in Hname;
             repeat (apply elem_of_cons in Hname as [Hname | Hname];
                     [try discriminate Hname; injection Hname as -> |]);
             [| apply elem_of_nil in Hname; contradiction] |]);
      [| | | | | apply elem_of_nil in Hhead; contradiction];
      (split; [reflexivity |]);
      (split; [rewrite !all_chars_app, str_plain, format_02d_plain; reflexivity |]);
      eexists; intros w2; reflexivity.
Qed.

(** X12. [download_one_file_of_raw_data] of the hourly module never
    gets a response. Its URL has no scheme, so [requests.get] refuses
    it with [MissingSchema] before anything is sent; for Portland
    after 2020 there is no URL and the call raises [TypeError], and
    for a city without a file name it raises what the URL resolver
    raised. The call never returns, sends nothing and leaves the disk
    as it is; so does [download_and_extract_zipfile] whenever the
    dictionary it is given has a URL of the module as its first
    value. *)
Theorem hourly_download_never_sends (E : env) (self : Hourly.DataDownloader)
    (month : Z) (w : world) :
  Hourly.download_one_file_of_raw_data E self month w
  = match Hourly.get_url_for_city_data self month w with
    | (Return (Some url), w1) => (Raise (MissingSchema url), w1)
    | (Return None, w1) => (Raise TypeError, w1)
    | (Raise e, w1) => (Raise e, w1)
    end /\
  fst (Hourly.download_one_file_of_raw_data E self month w) <> Return tt /\
  fs (snd (Hourly.download_one_file_of_raw_data E self month w)) = fs w /\
  sent (snd (Hourly.download_one_file_of_raw_data E self month w)) = sent w /\
  (forall url w1 zipfile_name rest,
     Hourly.get_url_for_city_data self month w = (Return (Some url), w1) ->
     forall w2,
       Hourly.download_and_extract_zipfile E ((zipfile_name, url) :: rest) w2
       = (Raise (MissingSchema url), w2)).
Proof.
  assert (Hrun : Hourly.download_one_file_of_raw_data E self month w
    = match Hourly.get_url_for_city_data self month w with
      | (Return (Some url), w1) => (Raise (MissingSchema url), w1)
      | (Return None, w1) => (Raise TypeError, w1)
      | (Raise e, w1) => (Raise e, w1)
      end).
  { unfold Hourly.download_one_file_of_raw_data, bind.
    destruct (Hourly.get_url_for_city_data self month w) as [[[u |] | e] w1] eqn:Hurl;
      [| reflexivity | reflexivity].
    destruct (hourly_url_plain self month u w w1 Hurl) as (_ & Hstrip & Hplain & zn & Hzn).
    rewrite Hzn. unfold Hourly.download_and_extract_zipfile, for_each, bind.
    simpl default. rewrite requests_get_plain by (rewrite Hstrip; exact Hplain).
    rewrite Hstrip. reflexivity. }
  assert (Hsame : forall w1 r,
            Hourly.get_url_for_city_data self month w = (r, w1) ->
            fs w1 = fs w /\ sent w1 = sent w).
  { unfold Hourly.get_url_for_city_data.
    destruct (String.eqb (Hourly.city_name self) "portland" && (Hourly.year self >? 2020)).
    - unfold bind, logger, ret. intros w1 r H. injection H as _ <-. split; reflexivity.
    - unfold bind, lift, ret. intros w1 r.
      destruct (Hourly.get_data_file_name self month) as [file_name | e];
        [| intros H; injection H as _ <-; split; reflexivity].
      destruct (getitem Hourly.city_name_and_url_head (Hourly.city_name self));
        intros H; injection H as _ <-; split; reflexivity. }
  split; [exact Hrun |]. rewrite Hrun.
  destruct (Hourly.get_url_for_city_data self month w) as [[[u |] | e] w1] eqn:Hurl;
    (split; [discriminate |]);
    (split; [apply (Hsame w1 _ eq_refl) |]);
    (split; [apply (Hsame w1 _ eq_refl) |]);
    intros url w1' zipfile_name rest Heq w2; try discriminate Heq.
  injection Heq as <- <-.
  destruct (hourly_url_plain self month u w w1 Hurl) as (_ & Hstrip & Hplain & _).
  unfold Hourly.download_and_extract_zipfile. cbn [for_each]. unfold bind.
  rewrite requests_get_plain by (rewrite Hstrip; exact Hplain).
  rewrite Hstrip. reflexivity.
Qed.

Lemma hourly_download_never_sends_witness :
  Hourly.download_one_file_of_raw_data Scenario.provider (hourly "chicago" 2024) 1
    (Scenario.start Scenario.bare_disk)
  = (Raise (MissingSchema "divvy-tripdata.s3.amazonaws.com/202401-divvy-tripdata"),
     Scenario.start Scenario.bare_disk).
Proof.
  rewrite (proj1 (hourly_download_never_sends Scenario.provider (hourly "chicago" 2024) 1
                    (Scenario.start Scenario.bare_disk))).
  reflexivity.
Defined.

(** ** The hourly loader on a disk without the dataset *)

Lemma check_without_folder (E : env) (self : Hourly.DataDownloader) (file_name : string)
    (m : Z) (w : world) :
  (forall n, stat (fs w) (Hourly.RAW_DATA_DIR E // file_name) <> Found n) ->
  exists w1,
    Hourly.check_for_file_or_download E self file_name (Some m) w = (Return tt, w1) /\
    fs w1 = fs w /\ sent w1 = sent w.
Proof.
  intros Hmiss.
  pose proof (hourly_download_never_sends E self m
                (logged w INFO (Msg ("Downloading and extracting " +:+ file_name +:+ ".zip"))))
    as (_ & Hraise & Hfs & Hsent & _).
  unfold Hourly.check_for_file_or_download, bind, path_exists, get_fs, ret. simpl.
  destruct (stat (fs w) (Hourly.RAW_DATA_DIR E // file_name)) as [n | |] eqn:Hs;
    [destruct (Hmiss n eq_refl) | |]; simpl;
    unfold try_except, bind; unfold logger at 1; fold (logged w INFO
      (Msg ("Downloading and extracting " +:+ file_name +:+ ".zip")));
    destruct (Hourly.download_one_file_of_raw_data E self m _) as [[[] | e] w1];
    try (destruct Hraise; reflexivity);
    eexists; (split; [reflexivity |]); simpl in *; split; assumption.
Qed.

Lemma month_without_folder (E : env) (self : Hourly.DataDownloader) (file_name : string)
    (m : Z) (w : world) :
  file_name <> "" ->
  (forall n, stat (fs w) (Hourly.RAW_DATA_DIR E // file_name) <> Found n) ->
  exists w2,
    try_except
      (Hourly.check_for_file_or_download E self file_name (Some m) >>
       let* df := Hourly.get_dataframe_from_folder E file_name in ret [df])
      (fun error => logger ERROR (Err error) >> ret []) w
    = (Return [], w2) /\
    fs w2 = fs w /\ sent w2 = sent w.
Proof.
  intros Hne Hmiss.
  destruct (check_without_folder E self file_name m w Hmiss) as (w1 & Hc & Hfs & Hsent).
  unfold try_except, bind at 1 2. rewrite Hc.
  destruct (Hourly.get_dataframe_from_folder E file_name w1) as [[d | e] w2] eqn:Hg.
  - apply get_dataframe_Return in Hg as [_ Hd].
    destruct (frame_needs_folder E file_name (fs w1) d Hne Hd) as [n Hn].
    rewrite Hfs in Hn. destruct (Hmiss n Hn).
  - apply get_dataframe_Raise in Hg as ->.
    eexists. split; [reflexivity |]. simpl. split; assumption.
Qed.

(** X21. The hourly loader on a disk that does not have the dataset
    folder: since no download of the module ever gets a response, no
    month yields a frame. The call returns an empty sequence, sends
    nothing, and leaves the disk as [make_fundamental_paths] left
    it. *)
Theorem hourly_loader_yields_nothing (E : env) (make_fundamental_paths : M unit)
    (self : Hourly.DataDownloader) (months : option (list Z)) (file_name : string)
    (w w0 : world) :
  file_name <> "" ->
  make_fundamental_paths w = (Return tt, w0) ->
  (forall n, stat (fs w0) (Hourly.RAW_DATA_DIR E // file_name) <> Found n) ->
  exists w',
    Hourly.load_raw_data E make_fundamental_paths self months file_name w = (Return [], w') /\
    fs w' = fs w0 /\ sent w' = sent w0.
Proof.
  intros Hne Hmk Hmiss. unfold Hourly.load_raw_data, bind. rewrite Hmk.
  generalize (months_to_query_for E (Hourly.year self) months). intros ms.
  clear Hmk. revert w0 Hmiss. induction ms as [|m rest IH]; intros w0 Hmiss.
  - exists w0. repeat split.
  - rewrite loop_cons.
    destruct (month_without_folder E self file_name m w0 Hne Hmiss)
      as (w2 & -> & Hfs & Hsent).
    destruct (IH w2) as (w3 & -> & Hfs3 & Hsent3).
    { intros n. rewrite Hfs. apply Hmiss. }
    exists w3. split; [reflexivity |]. split; congruence.
Qed.

Lemma hourly_loader_yields_nothing_witness :
  exists w',
    Hourly.load_raw_data Scenario.provider (ret tt) (hourly "chicago" 2024)
      (Some [1; 2; 3]) "202401-divvy-tripdata" (Scenario.start Scenario.laid_out)
    = (Return [], w') /\
    fs w' = Scenario.laid_out /\ sent w' = [].
Proof.
  apply (hourly_loader_yields_nothing Scenario.provider (ret tt) (hourly "chicago" 2024)
           (Some [1; 2; 3]) "202401-divvy-tripdata" (Scenario.start Scenario.laid_out)
           (Scenario.start Scenario.laid_out)).
  - discriminate.
  - reflexivity.
  - intros n. vm_compute. discriminate.
Defined.

(** ** Cities and periods without data *)

(** X13. Portland after 2020: the URL is [None], and handing it to
    [get_zipfile_name] makes the download raise [TypeError], in both
    modules, after the one error line of the URL resolver and before
    any request or write; the hourly check catches it and logs it. *)
Theorem portland_download_type_error (E : env) (year month : Z) (keep_zipfile : bool)
    (file_name : string) (w : world) :
  2020 < year ->
  let told := logged w ERROR (Msg "Lyft doesn't provide data on Portland after 2020.") in
  Batch.download_one_file_of_raw_data E (batch "portland" year) month keep_zipfile w
    = (Raise TypeError, told) /\
  Hourly.download_one_file_of_raw_data E (hourly "portland" year) month w
    = (Raise TypeError, told) /\
  (stat (fs w) (Hourly.RAW_DATA_DIR E // file_name) = Missing ->
   Hourly.check_for_file_or_download E (hourly "portland" year) file_name (Some month) w
   = (Return tt,
      {| fs := fs w;
         log := log w ++
                [(INFO, Msg ("Downloading and extracting " +:+ file_name +:+ ".zip"));
                 (ERROR, Msg "Lyft doesn't provide data on Portland after 2020.");
                 (ERROR, Err TypeError)];
         sent := sent w |})).
Proof.
  intros Hy told.
  assert (Hb : forall w0, Batch.get_url_for_city_data (batch "portland" year) month w0
             = (Return None,
                logged w0 ERROR (Msg "Lyft doesn't provide data on Portland after 2020.")))
    by (intros w0; apply portland_url, Hy).
  assert (Hh : forall w0, Hourly.get_url_for_city_data (hourly "portland" year) month w0
             = (Return None,
                logged w0 ERROR (Msg "Lyft doesn't provide data on Portland after 2020."))).
  { intros w0. unfold Hourly.get_url_for_city_data. simpl.
    replace (year >? 2020) with true by (symmetry; apply Z.gtb_lt; lia). reflexivity. }
  split; [| split].
  - unfold Batch.download_one_file_of_raw_data, bind. rewrite Hb. reflexivity.
  - unfold Hourly.download_one_file_of_raw_data, bind. rewrite Hh. reflexivity.
  - intros Hmiss.
    unfold Hourly.check_for_file_or_download, bind, path_exists, get_fs, ret. simpl.
    rewrite Hmiss. simpl. unfold try_except, bind, logger at 1.
    unfold Hourly.download_one_file_of_raw_data, bind. rewrite Hh.
    unfold get_zipfile_name, raise, logger, logged. simpl.
    rewrite <- !app_assoc. reflexivity.
Qed.

Lemma portland_download_type_error_witness :
  fst (Batch.download_one_file_of_raw_data Scenario.offline (batch "portland" 2021) 7 false
         (Scenario.start Scenario.bare_disk)) = Raise TypeError /\
  fst (Hourly.download_one_file_of_raw_data Scenario.offline (hourly "portland" 2021) 7
         (Scenario.start Scenario.bare_disk)) = Raise TypeError.
Proof.
  destruct (portland_download_type_error Scenario.offline 2021 7 false "trips"
              (Scenario.start Scenario.bare_disk)) as (Hb & Hh & _); [lia |].
  split; [exact (f_equal fst Hb) | exact (f_equal fst Hh)].
Defined.

Lemma range_cons (lo hi : Z) : lo < hi -> range lo hi = lo :: range (lo + 1) hi.
Proof.
  intros H. unfold range.
  replace (Z.to_nat (hi - lo)) with (S (Z.to_nat (hi - (lo + 1)))) by lia.
  simpl. f_equal; [lia |].
  rewrite <- seq_shift, map_map. apply map_ext. intros i. lia.
Qed.

(** X14. A run of the script that names bay_area stops there: the
    constructor accepts the city, the bootstrap runs, and the first
    month raises [KeyError] before any request is sent; the cities
    after it on the command line are never processed. (The month list
    is empty only if the current month is below 1.) *)
Theorem main_stops_at_bay_area (E : env) (rest : list string) (year : Z) (w w1 : world) :
  Setup.make_needed_directories E w = (Return tt, w1) ->
  year <> now_year E \/ 1 <= now_month E ->
  Batch.main E ("bay_area" :: rest) year w = (Raise (KeyError "bay_area"), w1) /\
  sent w1 = sent w.
Proof.
  intros Hboot Hmonths.
  assert (Hrange : exists ms, months_to_query_for E year None = 1 :: ms).
  { unfold months_to_query_for. eexists. apply range_cons.
    destruct (Z.eqb_spec year (now_year E)); lia. }
  destruct Hrange as [ms Hms]. split.
  - unfold Batch.main. cbn [for_each]. unfold bind at 1. unfold bind at 1, lift.
    change (Batch.init "bay_area" year) with (Return (batch "bay_area" year)). cbv iota.
    unfold bind at 1. unfold Batch.load_raw_data, bind at 1. rewrite Hboot.
    simpl Batch.year. rewrite Hms. reflexivity.
  - pose proof (grows_setup E w) as (_ & _ & Hs). rewrite Hboot in Hs. exact Hs.
Qed.

Lemma main_stops_at_bay_area_witness :
  fst (Batch.main Scenario.offline ["bay_area"; "chicago"] 2024
         (Scenario.start Scenario.bare_disk))
  = Raise (KeyError "bay_area").
Proof.
  assert (Hf : fst (Setup.make_needed_directories Scenario.offline
                      (Scenario.start Scenario.bare_disk)) = Return tt)
    by (vm_compute; reflexivity).
  destruct (main_stops_at_bay_area Scenario.offline ["chicago"] 2024
              (Scenario.start Scenario.bare_disk)
              (snd (Setup.make_needed_directories Scenario.offline
                      (Scenario.start Scenario.bare_disk)))) as [H _].
  - destruct (Setup.make_needed_directories Scenario.offline
                (Scenario.start Scenario.bare_disk)) as [r w'].
    simpl in Hf. rewrite Hf. reflexivity.
  - left. discriminate.
  - exact (f_equal fst H).
Defined.

(** ** The constructor and the availability check *)

Lemma lower_ascii_idem (c : ascii) : lower_ascii (lower_ascii c) = lower_ascii c.
Proof. destruct c as [[] [] [] [] [] [] [] []]; reflexivity. Qed.

Lemma lower_idem (s : string) : lower (lower s) = lower s.
Proof.
  induction s as [|c s IH]; [reflexivity |]. simpl. rewrite lower_ascii_idem, IH.
  reflexivity.
Qed.

(** X15. The constructor of the batch module accepts a name exactly when
    its lower-case form is one of the six cities of [config.py], and
    then stores that lower-case form; any other name raises the
    assertion. Upper and lower case spellings of a name give the same
    object. *)
Theorem batch_init_spec (city : string) (year : Z) :
  (In (lower city) Setup.cities ->
   Batch.init city year = Return (batch (lower city) year)) /\
  (~ In (lower city) Setup.cities ->
   Batch.init city year
   = Raise (AssertionError "The named city is not part of Lyft's system")) /\
  Batch.init (lower city) year = Batch.init city year.
Proof.
  split; [| split].
  - unfold Batch.init. simpl. intros Hin.
    destruct Hin as [<- | [<- | [<- | [<- | [<- | [<- | []]]]]]]; reflexivity.
  - unfold Batch.init. simpl. intros Hnot.
    destruct (Batch.service_names !! lower city) as [v |] eqn:Hv; [| reflexivity].
    exfalso. apply Hnot, service_names_keys. rewrite Hv. eauto.
  - unfold Batch.init. simpl. rewrite lower_idem. reflexivity.
Qed.

Lemma batch_init_spec_witness :
  Batch.init "Chicago" 2024 = Return (batch "chicago" 2024) /\
  Batch.init "London" 2024
  = Raise (AssertionError "The named city is not part of Lyft's system").
Proof.
  split.
  - apply (proj1 (batch_init_spec "Chicago" 2024)). simpl. tauto.
  - apply (proj1 (proj2 (batch_init_spec "London" 2024))). simpl.
    intros [H | [H | [H | [H | [H | [H | []]]]]]]; discriminate H.
Defined.

Lemma city_has_data_known (E : env) (self : Batch.DataDownloader) (slug : string)
    (w : world) :
  Batch.service_names !! Batch.city_name self = Some slug ->
  Batch.city_has_data E self w
  = (match transport E (if String.eqb (Batch.city_name self) "bay_area"
                        then "https://lyft.com/bikes/" +:+ slug
                        else "https://" +:+ slug +:+ ".com/system-data") with
     | Return response => Return (status_code response =? 200)
     | Raise e => Raise e
     end,
     {| fs := fs w;
        log := log w ++
               [(INFO, Msg ("Checking whether Lyft has published any data for "
                            +:+ Batch.city_name self))];
        sent := sent w ++ [if String.eqb (Batch.city_name self) "bay_area"
                           then "https://lyft.com/bikes/" +:+ slug
                           else "https://" +:+ slug +:+ ".com/system-data"] |}).
Proof.
  intros H. unfold Batch.city_has_data. rewrite H.
  unfold bind, logger, ret.
  rewrite requests_get_http
    by (destruct (String.eqb (Batch.city_name self) "bay_area"); reflexivity).
  cbn [fs log sent]. destruct (transport E _); reflexivity.
Qed.

(** X16. For a downloader the constructor has accepted, [city_has_data]
    sends exactly one request, to the landing page of the city, logs
    one line, leaves the disk alone, and answers [True] exactly when
    the status of the response is 200; an exception of the transport
    leaves the call. The exception for an unpublished city is never
    raised. *)
Theorem batch_city_has_data (E : env) (city : string) (year : Z)
    (self : Batch.DataDownloader) (w : world) :
  Batch.init city year = Return self ->
  exists url,
    In (Batch.city_name self, url) landing_pages /\
    Batch.city_has_data E self w
    = (match transport E url with
       | Return response => Return (status_code response =? 200)
       | Raise e => Raise e
       end,
       {| fs := fs w;
          log := log w ++
                 [(INFO, Msg ("Checking whether Lyft has published any data for "
                              +:+ Batch.city_name self))];
          sent := sent w ++ [url] |}).
Proof.
  intros Hinit. apply init_accepts in Hinit as [-> Hc]. simpl in Hc.
  destruct Hc as [<- | [<- | [<- | [<- | [<- | [<- | []]]]]]].
  - exists "https://lyft.com/bikes/bay-wheels". split; [simpl; tauto |].
    apply (city_has_data_known E (batch "bay_area" year) "bay-wheels" w eq_refl).
  - exists "https://divvybikes.com/system-data". split; [simpl; tauto |].
    apply (city_has_data_known E (batch "chicago" year) "divvybikes" w eq_refl).
  - exists "https://capitalbikeshare.com/system-data". split; [simpl; tauto |].
    apply (city_has_data_known E (batch "washington_dc" year) "capitalbikeshare" w eq_refl).
  - exists "https://citibikenyc.com/system-data". split; [simpl; tauto |].
    apply (city_has_data_known E (batch "new_york" year) "citibikenyc" w eq_refl).
  - exists "https://biketownpdx.com/system-data". split; [simpl; tauto |].
    apply (city_has_data_known E (batch "portland" year) "biketownpdx" w eq_refl).
  - exists "https://cogobikeshare.com/system-data". split; [simpl; tauto |].
    apply (city_has_data_known E (batch "columbus" year) "cogobikeshare" w eq_refl).
Qed.

Lemma batch_city_has_data_witness :
  exists url,
    In ("chicago", url) landing_pages /\
    Batch.city_has_data Scenario.provider (batch "chicago" 2024)
      (Scenario.start Scenario.bare_disk)
    = (match transport Scenario.provider url with
       | Return response => Return (status_code response =? 200)
       | Raise e => Raise e
       end,
       {| fs := Scenario.bare_disk;
          log := [(INFO, Msg "Checking whether Lyft has published any data for chicago")];
          sent := [url] |}).
Proof.
  apply (batch_city_has_data Scenario.provider "Chicago" 2024 (batch "chicago" 2024)
           (Scenario.start Scenario.bare_disk)).
  vm_compute. reflexivity.
Defined.

(** ** Names as keys *)

Lemma digit_inj (a b : Z) : 0 <= a <= 9 -> 0 <= b <= 9 -> digit a = digit b -> a = b.
Proof.
  intros Ha Hb H. unfold digit in H. apply (f_equal nat_of_ascii) in H.
  rewrite !nat_ascii_embedding in H by lia. lia.
Qed.

Lemma two_digits_inj (m m' : Z) :
  0 <= m <= 99 -> 0 <= m' <= 99 -> two_digits m = two_digits m' -> m = m'.
Proof.
  intros Hm Hm' H. unfold two_digits in H. injection H as H1 H2.
  apply digit_inj in H1; [| Z.to_euclidean_division_equations; lia ..].
  apply digit_inj in H2; [| Z.to_euclidean_division_equations; lia ..].
  Z.to_euclidean_division_equations; lia.
Qed.

Lemma four_digits_inj (y y' : Z) :
  1000 <= y <= 9999 -> 1000 <= y' <= 9999 -> four_digits y = four_digits y' -> y = y'.
Proof.
  intros Hy Hy' H. unfold four_digits, two_digits in H. injection H as H1 H2 H3 H4.
  apply digit_inj in H1; [| Z.to_euclidean_division_equations; lia ..].
  apply digit_inj in H2; [| Z.to_euclidean_division_equations; lia ..].
  apply digit_inj in H3; [| Z.to_euclidean_division_equations; lia ..].
  apply digit_inj in H4; [| Z.to_euclidean_division_equations; lia ..].
  Z.to_euclidean_division_equations; lia.
Qed.

Lemma stamp_inj (y y' m m' : Z) (s s' : string) :
  1000 <= y <= 9999 -> 1000 <= y' <= 9999 -> 1 <= m <= 12 -> 1 <= m' <= 12 ->
  (str y +:+ format_02d m) +:+ s = (str y' +:+ format_02d m') +:+ s' ->
  y = y' /\ m = m' /\ s = s'.
Proof.
  intros Hy Hy' Hm Hm'.
  rewrite !str_four_digits, !format_02d_two_digits by lia.
  intros H.
  assert (H4 : four_digits y = four_digits y' /\ two_digits m = two_digits m' /\ s = s').
  { unfold four_digits, two_digits in *. rewrite !append_cons, !append_nil_l in H.
    injection H as H1 H2 H3 H4 H5 H6 Hs. rewrite H1, H2, H3, H4, H5, H6. auto. }
  destruct H4 as (H1 & H2 & H3).
  split; [apply four_digits_inj; assumption |].
  split; [apply two_digits_inj; [lia | lia | assumption] | assumption].
Qed.

Lemma file_name_inv (city : string) (year month : Z) (name : string) :
  Batch.get_data_file_name (batch city year) month = Return name ->
  exists suffix,
    In (city, suffix)
       [("chicago", "-divvy-tripdata"); ("new_york", "-citibike-tripdata");
        ("columbus", "-cogo-tripdata"); ("washington_dc", "-capitalbikeshare-tripdata");
        ("portland", ".csv")] /\
    name = (str year +:+ format_02d month) +:+ suffix.
Proof.
  unfold Batch.get_data_file_name, getitem, batch. cbn [Batch.city_name Batch.year].
  destruct (_ !! city) as [v |] eqn:Hv; [| discriminate].
  intros H. injection H as ->.
  apply elem_of_list_to_map_2 in Hv.
  repeat (apply elem_of_cons in Hv as [Hv | Hv];
          [injection Hv as -> ->; eexists; split; [| reflexivity]; simpl; tauto |]).
  apply elem_of_nil in Hv. contradiction.
Qed.

(** X17. The file name is a key: within the four-digit years and the
    months 1 to 12, one name stands for one city, one year and one
    month only. *)
Theorem file_names_do_not_collide (city city' : string) (year year' month month' : Z)
    (name : string) :
  1000 <= year <= 9999 -> 1000 <= year' <= 9999 ->
  1 <= month <= 12 -> 1 <= month' <= 12 ->
  Batch.get_data_file_name (batch city year) month = Return name ->
  Batch.get_data_file_name (batch city' year') month' = Return name ->
  city = city' /\ year = year' /\ month = month'.
Proof.
  intros Hy Hy' Hm Hm' H H'.
  apply file_name_inv in H as (s & Hs & ->).
  apply file_name_inv in H' as (s' & Hs' & Heq).
  apply stamp_inj in Heq as (-> & -> & ->); try assumption.
  split; [| split; reflexivity].
  simpl in Hs, Hs'.
  destruct Hs as [Hs | [Hs | [Hs | [Hs | [Hs | []]]]]]; injection Hs as <- <-;
    destruct Hs' as [Hs' | [Hs' | [Hs' | [Hs' | [Hs' | []]]]]]; try discriminate Hs';
    injection Hs' as <-; reflexivity.
Qed.

Lemma file_names_do_not_collide_witness :
  "chicago" = "chicago" /\ 2024 = 2024 /\ 3 = 3.
Proof.
  apply (file_names_do_not_collide "chicago" "chicago" 2024 2024 3 3
           "202403-divvy-tripdata");
    try lia; vm_compute; reflexivity.
Defined.

(** Outside these bounds two periods can share a name. *)
Lemma file_names_collide_outside :
  Batch.get_data_file_name (batch "chicago" 2024) 101
  = Batch.get_data_file_name (batch "chicago" 20241) 1.
Proof. reflexivity. Qed.

(** ** The two modules side by side *)

(** X18. The hourly module names the cities with a space where the batch
    module and [config.py] have an underscore; up to that, the two
    modules have the same service slugs, the same file names and the
    same servers, and the URL of the batch module is the URL of the
    hourly module with the scheme in front. For bay_area, which has
    no file name, the batch module raises [KeyError] and the hourly
    module its assertion. *)
Theorem modules_agree (city : string) (year month : Z) (w : world) :
  In city Setup.cities ->
  let city' := Config.replace "_" " " city in
  Hourly.service_names !! city' = Batch.service_names !! city /\
  (city <> "bay_area" ->
   Hourly.get_data_file_name (hourly city' year) month
     = Batch.get_data_file_name (batch city year) month /\
   Batch.get_url_for_city_data (batch city year) month w
     = (match fst (Hourly.get_url_for_city_data (hourly city' year) month w) with
        | Return (Some url) => Return (Some ("https://" +:+ url))
        | other => other
        end,
        snd (Hourly.get_url_for_city_data (hourly city' year) month w))) /\
  (city = "bay_area" ->
   Batch.get_data_file_name (batch city year) month = Raise (KeyError "bay_area") /\
   Hourly.get_data_file_name (hourly city' year) month
     = Raise (AssertionError "The named city is not part of Lyft's system")).
Proof.
  intros Hin. simpl in Hin.
  destruct Hin as [<- | [<- | [<- | [<- | [<- | [<- | []]]]]]];
    (split; [reflexivity |]); (split; [intros Hne | intros Heq]);
    try discriminate Heq; try (contradiction Hne; reflexivity);
    try (split; reflexivity).
  split; [reflexivity |].
  unfold Batch.get_url_for_city_data, Hourly.get_url_for_city_data. simpl.
  destruct (year >? 2020); reflexivity.
Qed.

Lemma modules_agree_witness :
  Hourly.get_data_file_name (hourly "new york" 2024) 3
  = Batch.get_data_file_name (batch "new_york" 2024) 3.
Proof.
  destruct (modules_agree "new_york" 2024 3 (Scenario.start Scenario.bare_disk))
    as (_ & H & _); [simpl; tauto |].
  destruct (H ltac:(discriminate)) as [Hname _]. exact Hname.
Defined.

Lemma hourly_has_data_known (E : env) (self : Hourly.DataDownloader) (slug : string)
    (w : world) :
  Hourly.service_names !! Hourly.city_name self = Some slug ->
  Hourly.city_has_data E self w
  = (Raise (MissingSchema (if String.eqb (Hourly.city_name self) "bay area"
                           then "lyft.com/bikes/" +:+ slug
                           else slug +:+ ".com/system-data")), w).
Proof.
  intros H. unfold Hourly.city_has_data. rewrite H. unfold bind, ret.
  unfold Hourly.service_names in H. apply elem_of_list_to_map_2 in H.
  repeat (apply elem_of_cons in H as [H | H];
          [injection H as -> ->; rewrite requests_get_plain by reflexivity;
           reflexivity |]).
  apply elem_of_nil in H. contradiction.
Qed.

(** X19. [city_has_data] of the hourly module never answers. Its
    constructor checks nothing: for a name that is no key of the slug
    table the method raises its exception, with the name in title
    case; for a key it hands [requests.get] the landing page of the
    batch module without the scheme, which is refused with
    [MissingSchema] before anything is sent. In both cases nothing is
    sent or logged and the world is left as it is. *)
Theorem hourly_city_has_data (E : env) (city : string) (year : Z) (w : world) :
  (Hourly.service_names !! lower city = None ->
   Hourly.city_has_data E (Hourly.init city year) w
   = (Raise (Exception ("Lyft has not published any data for " +:+ title (lower city))),
      w)) /\
  (is_Some (Hourly.service_names !! lower city) ->
   exists c url,
     In (c, "https://" +:+ url) landing_pages /\
     lower city = Config.replace "_" " " c /\
     Hourly.city_has_data E (Hourly.init city year) w = (Raise (MissingSchema url), w)) /\
  fst (Hourly.city_has_data E (Hourly.init city year) w) <> Return true /\
  fst (Hourly.city_has_data E (Hourly.init city year) w) <> Return false /\
  snd (Hourly.city_has_data E (Hourly.init city year) w) = w.
Proof.
  assert (Hkey : is_Some (Hourly.service_names !! lower city) ->
    exists c url,
      In (c, "https://" +:+ url) landing_pages /\
      lower city = Config.replace "_" " " c /\
      Hourly.city_has_data E (Hourly.init city year) w = (Raise (MissingSchema url), w)).
  { intros [slug Hslug].
    pose proof (hourly_has_data_known E (Hourly.init city year) slug w Hslug) as Hrun.
    unfold Hourly.init in *. cbn [Hourly.city_name] in *.
    unfold Hourly.service_names in Hslug. apply elem_of_list_to_map_2 in Hslug.
    repeat (apply elem_of_cons in Hslug as [Hslug | Hslug];
            [injection Hslug as Hc ->; rewrite Hc in *;
             eexists _, _; split; [| split; [| exact Hrun]];
             [simpl; eauto 10 | reflexivity] |]).
    apply elem_of_nil in Hslug. contradiction. }
  assert (Hnone : Hourly.service_names !! lower city = None ->
    Hourly.city_has_data E (Hourly.init city year) w
    = (Raise (Exception ("Lyft has not published any data for " +:+ title (lower city))),
       w)).
  { unfold Hourly.city_has_data, Hourly.init. cbn [Hourly.city_name].
    intros ->. reflexivity. }
  split; [exact Hnone | split; [exact Hkey |]].
  destruct (Hourly.service_names !! lower city) as [slug |] eqn:Hslug.
  - destruct (Hkey ltac:(eauto)) as (c & url & _ & _ & ->).
    split; [discriminate | split; [discriminate | reflexivity]].
  - rewrite (Hnone eq_refl). split; [discriminate | split; [discriminate | reflexivity]].
Qed.

Lemma hourly_city_has_data_witness :
  Hourly.city_has_data Scenario.provider (Hourly.init "Boston" 2024)
    (Scenario.start Scenario.bare_disk)
  = (Raise (Exception "Lyft has not published any data for Boston"),
     Scenario.start Scenario.bare_disk) /\
  exists c url,
    In (c, "https://" +:+ url) landing_pages /\
    "chicago" = Config.replace "_" " " c /\
    Hourly.city_has_data Scenario.provider (Hourly.init "Chicago" 2024)
      (Scenario.start Scenario.bare_disk)
    = (Raise (MissingSchema url), Scenario.start Scenario.bare_disk).
Proof.
  split.
  - apply (proj1 (hourly_city_has_data Scenario.provider "Boston" 2024
                    (Scenario.start Scenario.bare_disk))).
    vm_compute. reflexivity.
  - apply (proj1 (proj2 (hourly_city_has_data Scenario.provider "Chicago" 2024
                           (Scenario.start Scenario.bare_disk)))).
    vm_compute. eauto.
Defined.

(** ** Display names *)

(** X20. [proper_city_name] accepts exactly the six cities of the list;
    the name it gives has no underscore, and in lower case it is the
    key of the hourly module for the city (the underscores made
    spaces), except for bay_area, which becomes the Bay Area. *)
Theorem proper_city_name_spec (city_name : string) :
  (In city_name Setup.cities ->
   exists s,
     Config.proper_city_name city_name = Return s /\
     Config.has_char "_" s = false /\
     (city_name <> "bay_area" -> lower s = Config.replace "_" " " city_name) /\
     (city_name = "bay_area" -> s = "the Bay Area")) /\
  (~ In city_name Setup.cities ->
   Config.proper_city_name city_name = Raise (AssertionError "")).
Proof.
  split.
  - intros Hin. simpl in Hin.
    destruct Hin as [<- | [<- | [<- | [<- | [<- | [<- | []]]]]]];
      eexists; (split; [vm_compute; reflexivity |]);
      (split; [reflexivity |]); (split; [intros Hne | intros Heq]);
      try discriminate Heq; try (contradiction Hne; reflexivity); reflexivity.
  - intros Hnot. unfold Config.proper_city_name.
    rewrite bool_decide_eq_false_2; [reflexivity |].
    intros H. apply Hnot, list_elem_of_In, H.
Qed.

Lemma proper_city_name_spec_witness :
  Config.proper_city_name "london" = Raise (AssertionError "").
Proof.
  apply (proj2 (proper_city_name_spec "london")). simpl.
  intros [H | [H | [H | [H | [H | [H | []]]]]]]; discriminate H.
Defined.
